(** * Storefront backend ([server.py]): model and verified properties

    The handlers of [server.py] are embedded as functions over an explicit
    database state.  Documents are dictionaries ([gmap string value]), a
    collection is the list of its documents in insertion order, and every
    value the Python code draws from its environment (the clock, [uuid4],
    the salt of the password hash) is an argument of the handler that
    draws it. *)

From Stdlib Require Import ZArith QArith_base Ascii String List Bool Lia Sorted.
From stdpp Require Import gmap strings list fin_maps.

Local Open Scope string_scope.
Local Open Scope list_scope.
Local Open Scope Z_scope.

(** ** JSON / BSON values *)

(** What a document field or a JSON body can hold.  A Python [float] is
    carried as the rational it denotes; the program stores and returns
    floats and never computes with them. *)
#[warnings="-register-all"]
Inductive value : Type :=
| VNull
| VBool (b : bool)
| VInt (z : Z)
| VFloat (q : Q)
| VStr (s : string)
| VList (l : list value)
| VDict (l : list (string * value)).

(** A document of a collection, a decoded token payload, a JSON object. *)
Abbreviation doc := (gmap string value).

Fixpoint value_eqb (a b : value) {struct a} : bool :=
  match a, b with
  | VNull, VNull => true
  | VBool x, VBool y => Bool.eqb x y
  | VInt x, VInt y => Z.eqb x y
  | VFloat x, VFloat y => Qeq_bool x y
  | VStr x, VStr y => String.eqb x y
  | VList l, VList m =>
      (fix go (l m : list value) : bool :=
         match l, m with
         | [], [] => true
         | x :: l', y :: m' => value_eqb x y && go l' m'
         | _, _ => false
         end) l m
  | VDict l, VDict m =>
      (fix go (l m : list (string * value)) : bool :=
         match l, m with
         | [], [] => true
         | kx :: l', ky :: m' =>
             String.eqb (fst kx) (fst ky) && value_eqb (snd kx) (snd ky) && go l' m'
         | _, _ => false
         end) l m
  | _, _ => false
  end.

(** Python truthiness of what [find_one] returns: [None] and the empty
    dictionary are falsy. *)
Definition truthy (o : option doc) : bool :=
  match o with
  | None => false
  | Some d => match map_to_list d with [] => false | _ :: _ => true end
  end.

(** ** Text as code points

    A Python [str] is a sequence of code points; the model keeps it as its
    UTF-8 bytes and reads the code points off them where the store works
    on characters.  Only the bytes of well-formed UTF-8 matter, since a
    [str] encodes to nothing else; a byte out of place is read as U+FFFD. *)
Definition replacement : N := 65533.

Definition continuation (x : N) : bool := N.leb 128 x && N.ltb x 192.

(** A value assembled from several bytes; an over-long form of an ASCII
    character is not accepted as that character. *)
Definition scalar (v : N) : N := if N.ltb v 128 then replacement else v.

(** [pending] continuation bytes are still due for the value [acc]. *)
Fixpoint decode (pending : nat) (acc : N) (s : string) : list N :=
  match s with
  | EmptyString => match pending with O => [] | S _ => [replacement] end
  | String a rest =>
      let x := N_of_ascii a in
      let start :=
        if N.ltb x 128 then x :: decode 0 0 rest
        else if N.leb 192 x && N.ltb x 224 then decode 1 (x - 192) rest
        else if N.leb 224 x && N.ltb x 240 then decode 2 (x - 224) rest
        else if N.leb 240 x && N.ltb x 248 then decode 3 (x - 240) rest
        else replacement :: decode 0 0 rest in
      match pending with
      | O => start
      | S n =>
          if continuation x then
            match n with
            | O => scalar (acc * 64 + (x - 128)) :: decode 0 0 rest
            | S _ => decode n (acc * 64 + (x - 128)) rest
            end
          else replacement :: start
      end
  end.

Definition code_points (s : string) : list N := decode 0 0 s.

(** ASCII case folding, on bytes and on code points. *)
Definition ascii_lower (c : ascii) : ascii :=
  let n := N_of_ascii c in
  if N.leb 65 n && N.leb n 90 then ascii_of_N (n + 32) else c.

Fixpoint lower (s : string) : string :=
  match s with
  | EmptyString => EmptyString
  | String c rest => String (ascii_lower c) (lower rest)
  end.

Definition lower_point (c : N) : N :=
  if N.leb 65 c && N.leb c 90 then c + 32 else c.

(** ** Regular expressions

    [get_products] hands the search text to the store as a regular
    expression.  Patterns made of literal characters and the dot are
    matched here, code point by code point; every other pattern is left to
    the store's own engine, which the program takes as given (see
    [Externals]). *)
Inductive atom : Type :=
| Lit (c : N)
| AnyChar.

Definition is_meta (c : N) : bool :=
  existsb (fun m => N.eqb c (N_of_ascii m))
    (list_ascii_of_string "\^$.[]|()?*+{}").

Definition compile_char (c : N) : option atom :=
  if N.eqb c 46 then Some AnyChar
  else if is_meta c || N.eqb c 0 then None
  else Some (Lit c).

Fixpoint regex_compile (pattern : list N) : option (list atom) :=
  match pattern with
  | [] => Some []
  | c :: rest =>
      match compile_char c, regex_compile rest with
      | Some a, Some r => Some (a :: r)
      | _, _ => None
      end
  end.

(** Under the [i] option two characters match when the store's case
    folding [fold] sends them to the same character. *)
Definition atom_matches (fold : N -> N) (a : atom) (c : N) : bool :=
  match a with
  | Lit x => N.eqb (fold x) (fold c)
  | AnyChar => negb (N.eqb c 10)
  end.

Fixpoint match_here (fold : N -> N) (r : list atom) (s : list N) : bool :=
  match r with
  | [] => true
  | a :: r' =>
      match s with
      | [] => false
      | c :: s' => atom_matches fold a c && match_here fold r' s'
      end
  end.

(** Unanchored search: the pattern may match at any position. *)
Fixpoint regex_search (fold : N -> N) (r : list atom) (s : list N) : bool :=
  match_here fold r s
  || match s with
     | [] => false
     | _ :: s' => regex_search fold r s'
     end.

(** ** The document store

    A filter is a conjunction of per-field conditions: equality with a
    value, or a case-insensitive regular-expression match on a string
    field, by a pattern matched here ([CRegex], with the case folding to
    apply) or by the store's engine ([CSearch], with what that engine
    answers for each subject).  The store's own [_id] key is left out of
    the documents: every read of the program either projects it away
    ([{"_id": 0}]) or only tests the result for presence, and no filter
    names it. *)
Inductive cond : Type :=
| CEq (v : value)
| CRegex (r : list atom) (fold : N -> N)
| CSearch (engine : string -> bool).

Definition query := list (string * cond).

Definition cond_matches (c : cond) (field : option value) : bool :=
  match c, field with
  | CEq v, Some w => value_eqb v w
  | CRegex r fold, Some (VStr s) => regex_search fold r (code_points s)
  | CSearch engine, Some (VStr s) => engine s
  | _, _ => false
  end.

Definition matches (q : query) (d : doc) : bool :=
  forallb (fun kc => cond_matches (snd kc) (d !! fst kc)) q.

Definition find (q : query) (coll : list doc) : list doc :=
  List.filter (matches q) coll.

Definition find_one (q : query) (coll : list doc) : option doc :=
  List.find (matches q) coll.

Definition to_list (n : nat) (cursor : list doc) : list doc := take n cursor.

Definition count_documents (q : query) (coll : list doc) : nat :=
  length (find q coll).

Definition insert_one (d : doc) (coll : list doc) : list doc := coll ++ [d].

Definition insert_many (ds : list doc) (coll : list doc) : list doc := coll ++ ds.

(** Apply [upd] to the first document that matches, if there is one. *)
Fixpoint update_first (q : query) (upd : doc -> doc) (coll : list doc)
  : option (list doc) :=
  match coll with
  | [] => None
  | d :: rest =>
      if matches q d then Some (upd d :: rest)
      else match update_first q upd rest with
           | Some rest' => Some (d :: rest')
           | None => None
           end
  end.

(** The fields an upsert starts the new document from: the equality
    conditions of its filter. *)
Fixpoint query_seed (q : query) : doc :=
  match q with
  | [] => ∅
  | (k, CEq v) :: rest => <[k := v]> (query_seed rest)
  | (_, CRegex _ _) :: rest => query_seed rest
  | (_, CSearch _) :: rest => query_seed rest
  end.

(** [update_one(filter, {"$set": set}, upsert)]: the new collection and
    [matched_count].  [$set] overwrites the named fields and keeps the
    others, which is the left-biased union [set ∪ d]. *)
Definition update_one (q : query) (set : doc) (upsert : bool) (coll : list doc)
  : list doc * nat :=
  match update_first q (fun d => set ∪ d) coll with
  | Some coll' => (coll', 1%nat)
  | None =>
      if upsert then (coll ++ [set ∪ query_seed q], 0%nat) else (coll, 0%nat)
  end.

Fixpoint delete_first (q : query) (coll : list doc) : option (list doc) :=
  match coll with
  | [] => None
  | d :: rest =>
      if matches q d then Some rest
      else match delete_first q rest with
           | Some rest' => Some (d :: rest')
           | None => None
           end
  end.

(** [delete_one(filter)]: the new collection and [deleted_count]. *)
Definition delete_one (q : query) (coll : list doc) : list doc * nat :=
  match delete_first q coll with
  | Some coll' => (coll', 1%nat)
  | None => (coll, 0%nat)
  end.

(** ** The database and the outcome of a handler *)

(** The six collections of [db]. *)
Record DB : Type := mkDB {
  users : list doc;
  products : list doc;
  categories : list doc;
  carts : list doc;
  orders : list doc;
  site_settings : list doc
}.

Definition empty_db : DB := mkDB [] [] [] [] [] [].

Definition set_users (f : list doc -> list doc) (db : DB) : DB :=
  mkDB (f (users db)) (products db) (categories db) (carts db) (orders db)
       (site_settings db).
Definition set_products (f : list doc -> list doc) (db : DB) : DB :=
  mkDB (users db) (f (products db)) (categories db) (carts db) (orders db)
       (site_settings db).
Definition set_categories (f : list doc -> list doc) (db : DB) : DB :=
  mkDB (users db) (products db) (f (categories db)) (carts db) (orders db)
       (site_settings db).
Definition set_carts (f : list doc -> list doc) (db : DB) : DB :=
  mkDB (users db) (products db) (categories db) (f (carts db)) (orders db)
       (site_settings db).
Definition set_orders (f : list doc -> list doc) (db : DB) : DB :=
  mkDB (users db) (products db) (categories db) (carts db) (f (orders db))
       (site_settings db).
Definition set_site_settings (f : list doc -> list doc) (db : DB) : DB :=
  mkDB (users db) (products db) (categories db) (carts db) (orders db)
       (f (site_settings db)).

(** How a call ends: with a value, with an [HTTPException] the handler
    raised, or with a Python exception nothing catches ([KeyError], a
    pydantic [ValidationError]), which the server answers with a 500. *)
Inductive outcome (A : Type) : Type :=
| Return (a : A)
| HTTPException (status_code : Z) (detail : string)
| Uncaught (exception : string).
Arguments Return {A} a.
Arguments HTTPException {A} status_code detail.
Arguments Uncaught {A} exception.

(** A handler reads and writes the database and may raise.  Writes made
    before an exception stay: nothing is rolled back. *)
Definition M (A : Type) : Type := DB -> outcome A * DB.

Definition ret {A : Type} (a : A) : M A := fun db => (Return a, db).

Definition raise {A : Type} (status_code : Z) (detail : string) : M A :=
  fun db => (HTTPException status_code detail, db).

Definition crash {A : Type} (exception : string) : M A :=
  fun db => (Uncaught exception, db).

Definition bind {A B : Type} (m : M A) (k : A -> M B) : M B :=
  fun db =>
    match m db with
    | (Return a, db') => k a db'
    | (HTTPException s d, db') => (HTTPException s d, db')
    | (Uncaught e, db') => (Uncaught e, db')
    end.

Notation "'let*' x ':=' m 'in' k" := (bind m (fun x => k))
  (at level 10, x pattern, m at level 100, k at level 200).

(** A read of the database and a write to it. *)
Definition query_db {A : Type} (f : DB -> A) : M A := fun db => (Return (f db), db).
Definition update_db (f : DB -> DB) : M unit := fun db => (Return tt, f db).

(** The value of a dependency or of a model validation, inside a handler. *)
Definition lift {A : Type} (o : outcome A) : M A := fun db => (o, db).

(** ** The pydantic models *)

(** Reading a [str] field of a document into a model: absent, a string,
    or a value of another type (which a [str] field rejects). *)
Inductive read_field (A : Type) : Type :=
| Absent
| Valid (a : A)
| Invalid.
Arguments Absent {A}.
Arguments Valid {A} a.
Arguments Invalid {A}.

Definition read_str (d : doc) (k : string) : read_field string :=
  match d !! k with
  | None => Absent
  | Some (VStr s) => Valid s
  | Some _ => Invalid
  end.

Definition read_float (d : doc) (k : string) : read_field Q :=
  match d !! k with
  | None => Absent
  | Some (VFloat q) => Valid q
  | Some (VInt z) => Valid (inject_Z z)
  | Some _ => Invalid
  end.

Definition read_int (d : doc) (k : string) : read_field Z :=
  match d !! k with
  | None => Absent
  | Some (VInt z) => Valid z
  | Some _ => Invalid
  end.

Definition read_bool (d : doc) (k : string) : read_field bool :=
  match d !! k with
  | None => Absent
  | Some (VBool b) => Valid b
  | Some _ => Invalid
  end.

(** A required field and a field with a default. *)
Definition required {A : Type} (f : read_field A) : option A :=
  match f with Valid a => Some a | _ => None end.

Definition with_default {A : Type} (default : A) (f : read_field A) : option A :=
  match f with Valid a => Some a | Absent => Some default | Invalid => None end.

Definition validated {A : Type} (o : option A) : outcome A :=
  match o with
  | Some a => Return a
  | None => Uncaught "ValidationError"
  end.

Module User.
Record t : Type := mk {
    id : string; email : string; name : string; role : string; created_at : string
  }.
Definition model_dump (u : t) : doc :=
    list_to_map [("id", VStr (id u)); ("email", VStr (email u));
                 ("name", VStr (name u)); ("role", VStr (role u));
                 ("created_at", VStr (created_at u))].
  (** The model built from a stored document: extra keys are ignored, [id], [role] and
      [created_at] have defaults ([uuid] and [now] are what the default
      factories would draw). *)
Definition validate (uuid now : string) (d : doc) : outcome t :=
    validated
      (i ← with_default uuid (read_str d "id");
       e ← required (read_str d "email");
       n ← required (read_str d "name");
       r ← with_default "user" (read_str d "role");
       c ← with_default now (read_str d "created_at");
       Some (mk i e n r c)).
End User.

Module UserCreate.
Record t : Type := mk { email : string; password : string; name : string }.
End UserCreate.

Module UserLogin.
Record t : Type := mk { email : string; password : string }.
End UserLogin.

Module ProductCreate.
Record t : Type := mk {
    name : string; description : string; price : Q; category : string;
    image : string; stock : Z; featured : bool
  }.
Definition model_dump (p : t) : doc :=
    list_to_map [("name", VStr (name p)); ("description", VStr (description p));
                 ("price", VFloat (price p)); ("category", VStr (category p));
                 ("image", VStr (image p)); ("stock", VInt (stock p));
                 ("featured", VBool (featured p))].
End ProductCreate.

Module Product.
Record t : Type := mk {
    id : string; name : string; description : string; price : Q;
    category : string; image : string; stock : Z; featured : bool;
    created_at : string
  }.
Definition model_dump (p : t) : doc :=
    list_to_map [("id", VStr (id p)); ("name", VStr (name p));
                 ("description", VStr (description p));
                 ("price", VFloat (price p)); ("category", VStr (category p));
                 ("image", VStr (image p)); ("stock", VInt (stock p));
                 ("featured", VBool (featured p));
                 ("created_at", VStr (created_at p))].
Definition validate (uuid now : string) (d : doc) : outcome t :=
    validated
      (i ← with_default uuid (read_str d "id");
       n ← required (read_str d "name");
       de ← required (read_str d "description");
       p ← required (read_float d "price");
       c ← required (read_str d "category");
       im ← required (read_str d "image");
       s ← with_default 100 (read_int d "stock");
       f ← with_default false (read_bool d "featured");
       cr ← with_default now (read_str d "created_at");
       Some (mk i n de p c im s f cr)).
End Product.

Module CategoryCreate.
Record t : Type := mk {
    name : string; slug : string; image : string; description : string
  }.
Definition model_dump (c : t) : doc :=
    list_to_map [("name", VStr (name c)); ("slug", VStr (slug c));
                 ("image", VStr (image c)); ("description", VStr (description c))].
End CategoryCreate.

Module Category.
Record t : Type := mk {
    id : string; name : string; slug : string; image : string; description : string
  }.
Definition model_dump (c : t) : doc :=
    list_to_map [("id", VStr (id c)); ("name", VStr (name c));
                 ("slug", VStr (slug c)); ("image", VStr (image c));
                 ("description", VStr (description c))].
Definition validate (uuid : string) (d : doc) : outcome t :=
    validated
      (i ← with_default uuid (read_str d "id");
       n ← required (read_str d "name");
       s ← required (read_str d "slug");
       im ← required (read_str d "image");
       de ← required (read_str d "description");
       Some (mk i n s im de)).
End Category.

Module CartItem.
Record t : Type := mk { product_id : string; quantity : Z }.
Definition model_dump (i : t) : value :=
    VDict [("product_id", VStr (product_id i)); ("quantity", VInt (quantity i))].
End CartItem.

Module Cart.
Record t : Type := mk {
    user_id : string; items : list CartItem.t; updated_at : string
  }.
Definition model_dump (c : t) : doc :=
    list_to_map [("user_id", VStr (user_id c));
                 ("items", VList (map CartItem.model_dump (items c)));
                 ("updated_at", VStr (updated_at c))].
  (** The request body of [POST /cart]: [updated_at] may be left out, and
      the default factory then stamps the time of the request. *)
Record body : Type := mk_body {
    body_user_id : string; body_items : list CartItem.t;
    body_updated_at : option string
  }.
Definition parse (now : string) (b : body) : t :=
    mk (body_user_id b) (body_items b)
       (match body_updated_at b with Some s => s | None => now end).
End Cart.

Module OrderItem.
Record t : Type := mk {
    product_id : string; product_name : string; quantity : Z; price : Q
  }.
Definition model_dump (i : t) : value :=
    VDict [("product_id", VStr (product_id i));
           ("product_name", VStr (product_name i));
           ("quantity", VInt (quantity i)); ("price", VFloat (price i))].
End OrderItem.

Module OrderCreate.
Record t : Type := mk {
    items : list OrderItem.t; total : Q; address : list (string * value);
    payment_method : string
  }.
End OrderCreate.

Module Order.
Record t : Type := mk {
    id : string; user_id : string; items : list OrderItem.t; total : Q;
    address : list (string * value); payment_method : string; status : string;
    created_at : string
  }.
Definition model_dump (o : t) : doc :=
    list_to_map [("id", VStr (id o)); ("user_id", VStr (user_id o));
                 ("items", VList (map OrderItem.model_dump (items o)));
                 ("total", VFloat (total o)); ("address", VDict (address o));
                 ("payment_method", VStr (payment_method o));
                 ("status", VStr (status o)); ("created_at", VStr (created_at o))].
End Order.

Module SiteSettings.
Record t : Type := mk {
    theme_colors : list (string * value); payment_methods : list (string * value)
  }.
Definition default : t :=
    mk [("primary", VStr "#FACC15"); ("background", VStr "#09090b")]
       [("upi", VBool true); ("card", VBool true); ("cod", VBool true)].
Definition model_dump (s : t) : doc :=
    list_to_map [("theme_colors", VDict (theme_colors s));
                 ("payment_methods", VDict (payment_methods s))].
End SiteSettings.

(** ** What the program takes from its libraries and its environment

    [JWT_SECRET] is read from the environment.  PyJWT and passlib are
    libraries: of the token only the pieces the program's behaviour turns
    on are fixed here (three segments, the HS256 header, the signature
    recomputed over the first two segments with the key, the [exp] check);
    the MAC and the segment coding themselves are taken as given.  Of the
    store's regular expressions, the case folding of the characters above
    ASCII and the engine's answers on patterns that are not matched in
    the model are taken as given. *)
Class Externals : Type := {
  JWT_SECRET : string;
  (** HS256 over a key and a signing input, as the text of the signature segment *)
  sign_hs256 : string -> string -> string;
  (** a JSON object as a token segment (compact JSON, then base64url), and back *)
  segment_encode : doc -> string;
  segment_decode : string -> option doc;
  (** [pwd_context.hash], with the salt it draws made explicit *)
  pwd_context_hash : string -> string -> string;
  (** [pwd_context.verify password hash]; [None] when it raises on a
      hash it cannot identify *)
  pwd_context_verify : string -> string -> option bool;
  (** the store's case folding of a code point above 127: the character
      that stands for its case class (a small ASCII letter when the class
      has one, as for the Kelvin sign) *)
  unicode_fold : N -> N;
  (** whether the store accepts a text as a regular expression *)
  regex_valid : string -> bool;
  (** the store's engine under the [i] option: pattern, then subject *)
  regex_search_i : string -> string -> bool
}.

Section Server.
Context `{Externals}.

Definition hash_password (salt password : string) : string :=
  pwd_context_hash salt password.

Definition verify_password (plain_password hashed_password : string) : option bool :=
  pwd_context_verify plain_password hashed_password.

(** *** Token service *)

(** A token is kept as the list of its dot-separated segments. *)
Definition token : Type := list string.

Definition JWT_ALGORITHM : string := "HS256".

Definition jwt_header : doc :=
  list_to_map [("alg", VStr JWT_ALGORITHM); ("typ", VStr "JWT")].

Definition signing_input (header payload : string) : string :=
  String.append header (String.append "." payload).

Definition jwt_encode (payload : doc) (key : string) : token :=
  let h := segment_encode jwt_header in
  let p := segment_encode payload in
  [h; p; sign_hs256 key (signing_input h p)].

(** The two exception classes [get_current_user] tells apart.
    [ExpiredSignatureError] is a subclass of [InvalidTokenError]; every
    other decoding failure is an [InvalidTokenError] too. *)
Inductive jwt_error : Type :=
| ExpiredSignatureError
| InvalidTokenError.

(** [jwt.decode] as far as the tokens of [create_token] exercise it: the
    HS256 header, the signature recomputed over the first two segments,
    an integer [exp] against the clock.  The clock is in microseconds
    since the epoch, [exp] in seconds.  What the library does on other
    credentials (signature texts that decode to the same bytes, further
    segments, [exp] values that are not integers, the [nbf] and [iat]
    claims) is not followed here, and no statement below is about such a
    credential. *)
Definition jwt_decode (t : token) (key : string) (now : Z) : jwt_error + doc :=
  match t with
  | [h; p; s] =>
      match segment_decode h, segment_decode p with
      | Some header, Some payload =>
          if negb (value_eqb (VStr JWT_ALGORITHM) (default VNull (header !! "alg")))
          then inl InvalidTokenError
          else if negb (String.eqb s (sign_hs256 key (signing_input h p)))
          then inl InvalidTokenError
          else match payload !! "exp" with
               | None => inr payload
               | Some (VInt exp) =>
                   if exp * 1000000 <=? now then inl ExpiredSignatureError
                   else inr payload
               | Some _ => inl InvalidTokenError
               end
      | _, _ => inl InvalidTokenError
      end
  | _ => inl InvalidTokenError
  end.

Definition seven_days : Z := 7 * 24 * 3600.

(** The payload [create_token] signs; [jwt.encode] turns the [exp]
    datetime into whole seconds since the epoch. *)
Definition token_payload (now : Z) (user_id email role : string) : doc :=
  list_to_map [("user_id", VStr user_id); ("email", VStr email);
               ("role", VStr role); ("exp", VInt (now / 1000000 + seven_days))].

Definition create_token (now : Z) (user_id email role : string) : token :=
  jwt_encode (token_payload now user_id email role) JWT_SECRET.

(** *** Access guard *)

Definition get_current_user (credentials : token) (now : Z) : outcome doc :=
  match jwt_decode credentials JWT_SECRET now with
  | inr payload => Return payload
  | inl ExpiredSignatureError => HTTPException 401 "Token expired"
  | inl InvalidTokenError => HTTPException 401 "Invalid token"
  end.

(** [current_user.get("role") != "admin"] *)
Definition is_admin (current_user : doc) : bool :=
  match current_user !! "role" with
  | Some v => value_eqb v (VStr "admin")
  | None => false
  end.

Definition get_admin_user (current_user : doc) : outcome doc :=
  if negb (is_admin current_user)
  then HTTPException 403 "Admin access required"
  else Return current_user.

(** [current_user["user_id"]] *)
Definition subscript (d : doc) (k : string) : outcome value :=
  match d !! k with
  | Some v => Return v
  | None => Uncaught "KeyError"
  end.

(** *** Auth flows *)

Definition by_field (k : string) (v : value) : query := [(k, CEq v)].

Definition signup (uuid created : string) (salt : string) (clock : Z)
    (user_data : UserCreate.t) : M (token * User.t) :=
  let* existing :=
    query_db (fun db =>
      find_one (by_field "email" (VStr (UserCreate.email user_data))) (users db)) in
  if truthy existing then raise 400 "Email already registered"
  else
    let user :=
      User.mk uuid (UserCreate.email user_data) (UserCreate.name user_data)
              "user" created in
    let d :=
      <["password_hash" := VStr (hash_password salt (UserCreate.password user_data))]>
        (User.model_dump user) in
    let* _ := update_db (set_users (insert_one d)) in
    ret (create_token clock (User.id user) (User.email user) (User.role user), user).

Definition login (uuid created : string) (clock : Z) (login_data : UserLogin.t)
  : M (token * User.t) :=
  let* user_doc :=
    query_db (fun db =>
      find_one (by_field "email" (VStr (UserLogin.email login_data))) (users db)) in
  if negb (truthy user_doc) then raise 401 "Invalid credentials"
  else
    match user_doc with
    | None => raise 401 "Invalid credentials"
    | Some d =>
        match d !! "password_hash" with
        | None => crash "KeyError"
        | Some (VStr h) =>
            match verify_password (UserLogin.password login_data) h with
            | None => crash "UnknownHashError"
            | Some false => raise 401 "Invalid credentials"
            | Some true =>
                let* user := lift (User.validate uuid created d) in
                ret (create_token clock (User.id user) (User.email user)
                                  (User.role user), user)
            end
        | Some _ => crash "TypeError"
        end
    end.

Definition get_me (uuid created : string) (current_user : doc) : M User.t :=
  let* uid := lift (subscript current_user "user_id") in
  let* user_doc := query_db (fun db => find_one (by_field "id" uid) (users db)) in
  match user_doc with
  | Some d =>
      if truthy user_doc then lift (User.validate uuid created d)
      else raise 404 "User not found"
  | None => raise 404 "User not found"
  end.

(** Running a store operation on one collection and reading its count. *)
Definition on_collection (get : DB -> list doc)
    (set : (list doc -> list doc) -> DB -> DB)
    (op : list doc -> list doc * nat) : M nat :=
  fun db => let r := op (get db) in (Return (snd r), set (fun _ => fst r) db).

(** An endpoint declared with [Depends(get_admin_user)]: the guard runs on
    the caller's identity first, the body only on its result. *)
Definition admin_route {A : Type} (body : doc -> M A) (current_user : doc) : M A :=
  let* admin := lift (get_admin_user current_user) in body admin.

(** *** Catalog *)

(** An argument that is [None] or the empty string adds no condition. *)
Definition given (arg : option string) : option string :=
  match arg with
  | Some EmptyString => None
  | other => other
  end.

(** The store's case folding: ASCII capitals to their small letters, the
    characters above ASCII as [unicode_fold] has them. *)
Definition casefold (c : N) : N :=
  if N.ltb c 128 then lower_point c else unicode_fold c.

(** How the store reads [{"$regex": search, "$options": "i"}]; [None]
    when it refuses the text as a pattern. *)
Definition name_condition (search : string) : option cond :=
  match regex_compile (code_points search) with
  | Some r => Some (CRegex r casefold)
  | None =>
      if regex_valid search then Some (CSearch (regex_search_i search)) else None
  end.

(** The filter [get_products] builds; [None] when the store refuses it. *)
Definition products_query (category search : option string) : option query :=
  let q1 :=
    match given category with
    | Some c => [("category", CEq (VStr c))]
    | None => []
    end in
  match given search with
  | Some s =>
      match name_condition s with
      | Some c => Some (q1 ++ [("name", c)])
      | None => None
      end
  | None => Some q1
  end.

(** A filter the store refuses makes [find] raise [OperationFailure],
    which nothing catches. *)
Definition get_products (category search : option string) : M (list doc) :=
  match products_query category search with
  | Some q => query_db (fun db => to_list 1000 (find q (products db)))
  | None => crash "OperationFailure"
  end.

Definition get_featured_products : M (list doc) :=
  query_db (fun db => to_list 20 (find (by_field "featured" (VBool true)) (products db))).

Definition get_product (product_id : string) : M doc :=
  let* product :=
    query_db (fun db => find_one (by_field "id" (VStr product_id)) (products db)) in
  match product with
  | Some d => if truthy product then ret d else raise 404 "Product not found"
  | None => raise 404 "Product not found"
  end.

Definition create_product (uuid created : string) (product_data : ProductCreate.t)
  : doc -> M Product.t :=
  admin_route (fun admin =>
    let product :=
      Product.mk uuid (ProductCreate.name product_data)
        (ProductCreate.description product_data) (ProductCreate.price product_data)
        (ProductCreate.category product_data) (ProductCreate.image product_data)
        (ProductCreate.stock product_data) (ProductCreate.featured product_data)
        created in
    let* _ := update_db (set_products (insert_one (Product.model_dump product))) in
    ret product).

Definition update_product (uuid created : string) (product_id : string)
    (product_data : ProductCreate.t) : doc -> M Product.t :=
  admin_route (fun admin =>
    let* matched_count :=
      on_collection products set_products
        (update_one (by_field "id" (VStr product_id))
                    (ProductCreate.model_dump product_data) false) in
    if Nat.eqb matched_count 0 then raise 404 "Product not found"
    else
      let* updated :=
        query_db (fun db => find_one (by_field "id" (VStr product_id)) (products db)) in
      match updated with
      | Some d => lift (Product.validate uuid created d)
      | None => crash "TypeError"
      end).

Definition delete_product (product_id : string) : doc -> M string :=
  admin_route (fun admin =>
    let* deleted_count :=
      on_collection products set_products
        (delete_one (by_field "id" (VStr product_id))) in
    if Nat.eqb deleted_count 0 then raise 404 "Product not found"
    else ret "Product deleted").

Definition get_categories : M (list doc) :=
  query_db (fun db => to_list 100 (find [] (categories db))).

Definition create_category (uuid : string) (category_data : CategoryCreate.t)
  : doc -> M Category.t :=
  admin_route (fun admin =>
    let category :=
      Category.mk uuid (CategoryCreate.name category_data)
        (CategoryCreate.slug category_data) (CategoryCreate.image category_data)
        (CategoryCreate.description category_data) in
    let* _ := update_db (set_categories (insert_one (Category.model_dump category))) in
    ret category).

Definition update_category (uuid : string) (category_id : string)
    (category_data : CategoryCreate.t) : doc -> M Category.t :=
  admin_route (fun admin =>
    let* matched_count :=
      on_collection categories set_categories
        (update_one (by_field "id" (VStr category_id))
                    (CategoryCreate.model_dump category_data) false) in
    if Nat.eqb matched_count 0 then raise 404 "Category not found"
    else
      let* updated :=
        query_db (fun db =>
          find_one (by_field "id" (VStr category_id)) (categories db)) in
      match updated with
      | Some d => lift (Category.validate uuid d)
      | None => crash "TypeError"
      end).

Definition delete_category (category_id : string) : doc -> M string :=
  admin_route (fun admin =>
    let* deleted_count :=
      on_collection categories set_categories
        (delete_one (by_field "id" (VStr category_id))) in
    if Nat.eqb deleted_count 0 then raise 404 "Category not found"
    else ret "Category deleted").

(** *** Cart *)

Definition empty_cart_view (user_id : value) : doc :=
  list_to_map [("user_id", user_id); ("items", VList [])].

Definition get_cart (current_user : doc) : M doc :=
  let* uid := lift (subscript current_user "user_id") in
  let* cart := query_db (fun db => find_one (by_field "user_id" uid) (carts db)) in
  match cart with
  | Some d => if truthy cart then ret d else ret (empty_cart_view uid)
  | None => ret (empty_cart_view uid)
  end.

Definition update_cart (cart_data : Cart.t) (current_user : doc) : M Cart.t :=
  let* uid := lift (subscript current_user "user_id") in
  let* _ :=
    on_collection carts set_carts
      (update_one (by_field "user_id" uid) (Cart.model_dump cart_data) true) in
  ret cart_data.

(** *** Orders *)

(** The [Order] built from the caller's identity and the submitted data;
    its [user_id] field is a [str] and rejects any other value. *)
Definition new_order (uuid created : string) (user_id : value)
    (order_data : OrderCreate.t) : outcome Order.t :=
  match user_id with
  | VStr u =>
      Return (Order.mk uuid u (OrderCreate.items order_data)
                (OrderCreate.total order_data) (OrderCreate.address order_data)
                (OrderCreate.payment_method order_data) "pending" created)
  | _ => Uncaught "ValidationError"
  end.

Definition create_order (uuid created : string) (order_data : OrderCreate.t)
    (current_user : doc) : M Order.t :=
  let* uid := lift (subscript current_user "user_id") in
  let* order := lift (new_order uuid created uid order_data) in
  let* _ := update_db (set_orders (insert_one (Order.model_dump order))) in
  let* uid' := lift (subscript current_user "user_id") in
  let* _ := on_collection carts set_carts (delete_one (by_field "user_id" uid')) in
  ret order.

(** [sort("created_at", -1)]: missing and null keys are the smallest,
    strings are ordered among themselves, other kinds by their rank; the
    sort keeps the stored order of equal keys. *)
Definition bson_rank (v : option value) : nat :=
  match v with
  | None | Some VNull => 1
  | Some (VInt _) | Some (VFloat _) => 2
  | Some (VStr _) => 3
  | Some (VDict _) => 4
  | Some (VList _) => 5
  | Some (VBool _) => 8
  end%nat.

Definition key_ltb (a b : option value) : bool :=
  match a, b with
  | Some (VStr x), Some (VStr y) => String.ltb x y
  | _, _ => Nat.ltb (bson_rank a) (bson_rank b)
  end.

Fixpoint insert_desc (k : string) (d : doc) (sorted : list doc) : list doc :=
  match sorted with
  | [] => [d]
  | x :: rest =>
      if key_ltb (d !! k) (x !! k) then x :: insert_desc k d rest
      else d :: sorted
  end.

Definition sort_desc (k : string) (cursor : list doc) : list doc :=
  fold_right (insert_desc k) [] cursor.

Definition get_orders (current_user : doc) : M (list doc) :=
  let* uid := lift (subscript current_user "user_id") in
  query_db (fun db =>
    to_list 100 (sort_desc "created_at" (find (by_field "user_id" uid) (orders db)))).

Definition get_all_orders : doc -> M (list doc) :=
  admin_route (fun admin =>
    query_db (fun db => to_list 1000 (sort_desc "created_at" (find [] (orders db))))).

Definition update_order_status (order_id : string) (status : string)
  : doc -> M string :=
  admin_route (fun admin =>
    let* matched_count :=
      on_collection orders set_orders
        (update_one (by_field "id" (VStr order_id))
                    {[ "status" := VStr status ]} false) in
    if Nat.eqb matched_count 0 then raise 404 "Order not found"
    else ret "Order updated").

(** *** Users and settings *)

Definition get_all_users : doc -> M (list doc) :=
  admin_route (fun admin =>
    query_db (fun db =>
      to_list 1000 (map (delete "password_hash") (find [] (users db))))).

Definition get_settings : M doc :=
  let* settings := query_db (fun db => find_one [] (site_settings db)) in
  match settings with
  | Some d =>
      if truthy settings then ret d
      else
        let* _ := update_db (set_site_settings
                    (insert_one (SiteSettings.model_dump SiteSettings.default))) in
        ret (SiteSettings.model_dump SiteSettings.default)
  | None =>
      let* _ := update_db (set_site_settings
                  (insert_one (SiteSettings.model_dump SiteSettings.default))) in
      ret (SiteSettings.model_dump SiteSettings.default)
  end.

Definition update_settings (settings : SiteSettings.t) : doc -> M SiteSettings.t :=
  admin_route (fun admin =>
    let* _ :=
      on_collection site_settings set_site_settings
        (update_one [] (SiteSettings.model_dump settings) true) in
    ret settings).

(** *** Seed loader *)

(** The baseline categories: name, slug, image, description. *)
Definition category_rows : list (string * string * string * string) :=
  [
   ("Electronics", "electronics",
    "https://images.unsplash.com/photo-1605170876472-db58e15c430e?crop=entropy&cs=srgb&fm=jpg&q=85",
    "Latest gadgets and tech");
   ("Accessories", "accessories",
    "https://images.unsplash.com/photo-1673997303871-178507ca875a?crop=entropy&cs=srgb&fm=jpg&q=85",
    "Fashion accessories");
   ("Kitchen", "kitchen",
    "https://images.unsplash.com/photo-1556911220-bff31c812dba?crop=entropy&cs=srgb&fm=jpg&q=85",
    "Kitchen essentials");
   ("Furniture", "furniture",
    "https://images.unsplash.com/photo-1723804685588-b8e95b2044f3?crop=entropy&cs=srgb&fm=jpg&q=85",
    "Modern furniture");
   ("Fashion", "fashion",
    "https://images.unsplash.com/photo-1542755687-a33ff0c970ec?crop=entropy&cs=srgb&fm=jpg&q=85",
    "Trendy clothing");
   ("Others", "others",
    "https://images.unsplash.com/photo-1550989460-0adf9ea622e2?crop=entropy&cs=srgb&fm=jpg&q=85",
    "Miscellaneous items")
  ].

(** The baseline products: name, description, price, category, image,
    stock, featured. *)
Definition product_rows : list (string * string * Q * string * string * Z * bool) :=
  [
   ("Wireless Headphones", "Premium noise-canceling headphones", 199.99%Q, "electronics",
    "https://images.unsplash.com/photo-1505740420928-5e560c06d30e?w=500", 50, true);
   ("Smart Watch", "Fitness tracking smartwatch", 299.99%Q, "electronics",
    "https://images.unsplash.com/photo-1523275335684-37898b6baf30?w=500", 30, true);
   ("Laptop Stand", "Ergonomic aluminum laptop stand", 49.99%Q, "electronics",
    "https://images.unsplash.com/photo-1527864550417-7fd91fc51a46?w=500", 100, false);
   ("Mechanical Keyboard", "RGB gaming keyboard", 129.99%Q, "electronics",
    "https://images.unsplash.com/photo-1587829741301-dc798b83add3?w=500", 45, true);
   ("Wireless Mouse", "Ergonomic wireless mouse", 39.99%Q, "electronics",
    "https://images.unsplash.com/photo-1527814050087-3793815479db?w=500", 80, false);
   ("Leather Wallet", "Genuine leather bifold wallet", 59.99%Q, "accessories",
    "https://images.unsplash.com/photo-1627123424574-724758594e93?w=500", 60, true);
   ("Sunglasses", "Classic aviator sunglasses", 89.99%Q, "accessories",
    "https://images.unsplash.com/photo-1572635196237-14b3f281503f?w=500", 70, false);
   ("Backpack", "Durable travel backpack", 79.99%Q, "accessories",
    "https://images.unsplash.com/photo-1553062407-98eeb64c6a62?w=500", 40, true);
   ("Coffee Maker", "Automatic drip coffee maker", 149.99%Q, "kitchen",
    "https://images.unsplash.com/photo-1517668808822-9ebb02f2a0e6?w=500", 25, false);
   ("Blender", "High-speed professional blender", 99.99%Q, "kitchen",
    "https://images.unsplash.com/photo-1585515320310-259814833e62?w=500", 35, true);
   ("Knife Set", "Professional chef knife set", 159.99%Q, "kitchen",
    "https://images.unsplash.com/photo-1593618998160-e34014e67546?w=500", 20, false);
   ("Office Chair", "Ergonomic mesh office chair", 349.99%Q, "furniture",
    "https://images.unsplash.com/photo-1580480055273-228ff5388ef8?w=500", 15, true);
   ("Standing Desk", "Adjustable height standing desk", 499.99%Q, "furniture",
    "https://images.unsplash.com/photo-1595515106969-1ce29566ff1c?w=500", 10, true);
   ("Bookshelf", "Modern 5-tier bookshelf", 199.99%Q, "furniture",
    "https://images.unsplash.com/photo-1594620302200-9a762244a156?w=500", 18, false);
   ("T-Shirt", "Cotton casual t-shirt", 29.99%Q, "fashion",
    "https://images.unsplash.com/photo-1521572163474-6864f9cf17ab?w=500", 100, false);
   ("Jeans", "Classic slim fit jeans", 79.99%Q, "fashion",
    "https://images.unsplash.com/photo-1542272604-787c3835535d?w=500", 90, true);
   ("Sneakers", "Comfortable running sneakers", 119.99%Q, "fashion",
    "https://images.unsplash.com/photo-1460353581641-37baddab0fa2?w=500", 50, true);
   ("Hoodie", "Warm pullover hoodie", 69.99%Q, "fashion",
    "https://images.unsplash.com/photo-1556821840-3a63f95609a7?w=500", 65, false);
   ("Phone Case", "Protective silicone phone case", 19.99%Q, "others",
    "https://images.unsplash.com/photo-1601784551446-20c9e07cdbdb?w=500", 150, false);
   ("Water Bottle", "Insulated stainless steel bottle", 34.99%Q, "others",
    "https://images.unsplash.com/photo-1602143407151-7111542de6e8?w=500", 120, false);
   ("Yoga Mat", "Non-slip exercise yoga mat", 44.99%Q, "others",
    "https://images.unsplash.com/photo-1601925260368-ae2f83cf8b7f?w=500", 75, true);
   ("Desk Lamp", "LED adjustable desk lamp", 54.99%Q, "others",
    "https://images.unsplash.com/photo-1507473885765-e6ed057f782c?w=500", 55, false);
   ("Power Bank", "20000mAh portable charger", 49.99%Q, "electronics",
    "https://images.unsplash.com/photo-1609091839311-d5365f9ff1c5?w=500", 85, false);
   ("USB-C Cable", "Fast charging USB-C cable", 14.99%Q, "electronics",
    "https://images.unsplash.com/photo-1625948515291-69613efd103f?w=500", 200, false);
   ("Webcam", "1080p HD streaming webcam", 89.99%Q, "electronics",
    "https://images.unsplash.com/photo-1588508065123-287b28e013da?w=500", 40, true);
   ("Microphone", "USB condenser microphone", 129.99%Q, "electronics",
    "https://images.unsplash.com/photo-1590602847861-f357a9332bbc?w=500", 30, false);
   ("Monitor", "27-inch 4K monitor", 399.99%Q, "electronics",
    "https://images.unsplash.com/photo-1527443224154-c4a3942d3acf?w=500", 20, true);
   ("Tablet", "10-inch Android tablet", 299.99%Q, "electronics",
    "https://images.unsplash.com/photo-1561154464-82e9adf32764?w=500", 25, true);
   ("Gaming Mouse Pad", "Extended RGB mouse pad", 29.99%Q, "electronics",
    "https://images.unsplash.com/photo-1615663245857-ac93bb7c39e7?w=500", 95, false);
   ("Speaker System", "2.1 desktop speaker system", 149.99%Q, "electronics",
    "https://images.unsplash.com/photo-1608043152269-423dbba4e7e1?w=500", 35, false)
  ].

Definition seed_category (uuid : string) (row : string * string * string * string)
  : doc :=
  let '(name, slug, image, description) := row in
  list_to_map [("id", VStr uuid); ("name", VStr name); ("slug", VStr slug);
               ("image", VStr image); ("description", VStr description)].

Definition seed_product (uuid : string)
    (row : string * string * Q * string * string * Z * bool) : doc :=
  let '(name, description, price, category, image, stock, featured) := row in
  list_to_map [("id", VStr uuid); ("name", VStr name);
               ("description", VStr description); ("price", VFloat price);
               ("category", VStr category); ("image", VStr image);
               ("stock", VInt stock); ("featured", VBool featured)].

Definition ADMIN_EMAIL : string := "admin@shop.com".

(** [initialize_data].  Its draws: the admin's [uuid4] and creation stamp,
    the salt of the admin's password hash, and the k-th [uuid4] of the
    category list and of the product list. *)
Definition initialize_data (admin_uuid created salt : string)
    (category_uuid product_uuid : nat -> string) : M string :=
  let* existing_admin :=
    query_db (fun db => find_one (by_field "email" (VStr ADMIN_EMAIL)) (users db)) in
  let* _ :=
    if negb (truthy existing_admin) then
      let admin := User.mk admin_uuid ADMIN_EMAIL "Admin" "admin" created in
      let admin_doc :=
        <["password_hash" := VStr (hash_password salt "admin123")]>
          (User.model_dump admin) in
      update_db (set_users (insert_one admin_doc))
    else ret tt in
  let* existing_categories :=
    query_db (fun db => count_documents [] (categories db)) in
  let* _ :=
    if Nat.eqb existing_categories 0 then
      update_db (set_categories
        (insert_many (imap (fun k row => seed_category (category_uuid k) row)
                           category_rows)))
    else ret tt in
  let* existing_products :=
    query_db (fun db => count_documents [] (products db)) in
  let* _ :=
    if Nat.eqb existing_products 0 then
      update_db (set_products
        (insert_many (imap (fun k row => seed_product (product_uuid k) row)
                           product_rows)))
    else ret tt in
  ret "Data initialized".

(** *** The admin-only operations, as one family *)

Inductive admin_operation : Type :=
| CreateProduct (uuid created : string) (product_data : ProductCreate.t)
| UpdateProduct (uuid created : string) (product_id : string)
    (product_data : ProductCreate.t)
| DeleteProduct (product_id : string)
| CreateCategory (uuid : string) (category_data : CategoryCreate.t)
| UpdateCategory (uuid : string) (category_id : string)
    (category_data : CategoryCreate.t)
| DeleteCategory (category_id : string)
| GetAllOrders
| UpdateOrderStatus (order_id status : string)
| GetAllUsers
| UpdateSettings (settings : SiteSettings.t).

Inductive response : Type :=
| ProductResponse (p : Product.t)
| CategoryResponse (c : Category.t)
| ListResponse (l : list doc)
| MessageResponse (message : string)
| SettingsResponse (s : SiteSettings.t).

Definition fmap_M {A B : Type} (f : A -> B) (m : M A) : M B :=
  let* a := m in ret (f a).

Definition call (op : admin_operation) (current_user : doc) : M response :=
  match op with
  | CreateProduct uuid created pd =>
      fmap_M ProductResponse (create_product uuid created pd current_user)
  | UpdateProduct uuid created pid pd =>
      fmap_M ProductResponse (update_product uuid created pid pd current_user)
  | DeleteProduct pid => fmap_M MessageResponse (delete_product pid current_user)
  | CreateCategory uuid cd =>
      fmap_M CategoryResponse (create_category uuid cd current_user)
  | UpdateCategory uuid cid cd =>
      fmap_M CategoryResponse (update_category uuid cid cd current_user)
  | DeleteCategory cid => fmap_M MessageResponse (delete_category cid current_user)
  | GetAllOrders => fmap_M ListResponse (get_all_orders current_user)
  | UpdateOrderStatus oid status =>
      fmap_M MessageResponse (update_order_status oid status current_user)
  | GetAllUsers => fmap_M ListResponse (get_all_users current_user)
  | UpdateSettings s => fmap_M SettingsResponse (update_settings s current_user)
  end.

End Server.

(** ** Notions the statements use *)

(** How many stored accounts carry the admin address. *)
Definition count_admins (db : DB) : nat :=
  count_documents (by_field "email" (VStr ADMIN_EMAIL)) (users db).

(** The state after identical requests to [POST /cart]: the same body and
    the same caller, one request at each of the times [stamps], in order.
    Every request is parsed on its own, so a body that leaves [updated_at]
    out is stamped with the time of each request. *)
Definition put_cart_requests (stamps : list string) (b : Cart.body)
    (current_user : doc) (db : DB) : DB :=
  fold_left (fun s t => snd (update_cart (Cart.parse t b) current_user s)) stamps db.

(** The time stamp a request made at [now] stores. *)
Definition stamp_of (b : Cart.body) (now : string) : string :=
  Cart.updated_at (Cart.parse now b).

(** Index of the first document a filter matches. *)
Fixpoint first_index (q : query) (coll : list doc) : option nat :=
  match coll with
  | [] => None
  | d :: rest =>
      if matches q d then Some 0%nat
      else match first_index q rest with
           | Some i => Some (S i)
           | None => None
           end
  end.

(** The document an upsert under filter [q] wrote: the first match of the
    collection as it was, at its place, or else the appended document. *)
Definition written_doc (q : query) (before after : list doc) : option doc :=
  match first_index q before with
  | Some i => after !! i
  | None => last after
  end.

(** A search text in which every character stands for itself: no NUL
    and none of the metacharacters of regular expressions. *)
Definition is_literal (c : N) : bool := negb (is_meta c) && negb (N.eqb c 0).

Definition plain_text (s : string) : bool := forallb is_literal (code_points s).

(** What the specification says of [listProducts], in its words: the name
    contains the search string as a case-insensitive substring (character
    by character, case being what the store folds), the category equals
    the given one, and both hold when both are given. *)
Definition contains_ci `{Externals} (needle hay : string) : Prop :=
  exists pre post,
    map casefold (code_points hay) = pre ++ map casefold (code_points needle) ++ post.

Definition wanted `{Externals} (category search : option string) (d : doc) : Prop :=
  (forall c, given category = Some c -> d !! "category" = Some (VStr c))
  /\ (forall s, given search = Some s ->
      exists n, d !! "name" = Some (VStr n) /\ contains_ci s n).

(** Every address belongs to at most one stored account; every user id
    to at most one stored cart. *)
Definition emails_unique (db : DB) : Prop :=
  forall e, (count_documents (by_field "email" (VStr e)) (users db) <= 1)%nat.

Definition carts_unique (db : DB) : Prop :=
  forall u, (count_documents (by_field "user_id" (VStr u)) (carts db) <= 1)%nat.

(** A cursor in the order [sort("created_at", -1)] asks for: no document
    has a smaller key than one that comes after it. *)
Definition newest_first (cursor : list doc) : Prop :=
  StronglySorted
    (fun a b => key_ltb (a !! "created_at") (b !! "created_at") = false) cursor.

(** The document [signup] stores for a new account. *)
Definition account_doc `{Externals} (uuid created salt : string)
    (user_data : UserCreate.t) : doc :=
  <["password_hash" := VStr (hash_password salt (UserCreate.password user_data))]>
    (User.model_dump
       (User.mk uuid (UserCreate.email user_data) (UserCreate.name user_data)
                "user" created)).

(** ** Sample data

    Concrete identities, carts and states on which the statements below
    are exercised. *)

Definition identity_of (user_id role : string) : doc :=
  list_to_map [("user_id", VStr user_id); ("email", VStr "u@shop.com");
               ("role", VStr role); ("exp", VInt 1700604800)].

Definition ann : doc := identity_of "ann" "user".
Definition bob : doc := identity_of "bob" "user".
Definition root : doc := identity_of "root" "admin".

Definition pens : list CartItem.t := [CartItem.mk "pen" 2].
Definition ink : list CartItem.t := [CartItem.mk "ink" 1].
Definition cups : list CartItem.t := [CartItem.mk "cup" 4].

(** Ann saves her cart; Bob then posts a cart whose body names Ann.  Both
    stored carts now carry Ann's id. *)
Definition two_carts_for_ann : DB :=
  snd (update_cart (Cart.mk "ann" ink "t2") bob
         (snd (update_cart (Cart.mk "ann" pens "t1") ann empty_db))).

(** A cart body that names somebody else. *)
Definition cart_for_cy : Cart.t := Cart.mk "cy" cups "t3".

Definition sample_order : OrderCreate.t :=
  OrderCreate.mk [OrderItem.mk "pen" "Pen" 2 1.5%Q] 3%Q
                 [("city", VStr "Oslo")] "cod".

(** Stand-ins for the libraries, small enough to compute with: a codec
    that knows the token header and one payload, a tagging function in the
    place of the MAC, and a password hash that keeps the password after
    its salt. *)
Definition sample_issued : Z := 1700000000123456.

Definition sample_payload : doc :=
  token_payload sample_issued "ann" "ann@shop.com" "user".

Definition sample_externals : Externals := {|
  JWT_SECRET := "your-secret-key-change-in-production";
  sign_hs256 := fun key input => String.append key (String.append "/" input);
  segment_encode := fun d =>
    match d !! "alg" with Some _ => "header" | None => "payload" end;
  segment_decode := fun s =>
    if String.eqb s "header" then Some jwt_header
    else if String.eqb s "payload" then Some sample_payload
    else None;
  pwd_context_hash := fun salt password =>
    String.append salt (String.append "$" password);
  pwd_context_verify := fun password hash =>
    Some (String.eqb hash (String.append "salt$" password));
  unicode_fold := fun c =>
    (if N.eqb c 8490 then 107 else if N.eqb c 383 then 115 else c)%N;
  regex_valid := fun _ => false;
  regex_search_i := fun _ _ => false
|}.

Definition stored_user (id email role password_hash : string) : doc :=
  <["password_hash" := VStr password_hash]>
    (User.model_dump (User.mk id email "N" role "t0")).

(** A state with one registered user. *)
Definition one_user_db : DB :=
  set_users (insert_one (stored_user "u1" "ann@shop.com" "user" "salt$secret"))
    empty_db.

(** A state in which two accounts carry the admin address. *)
Definition two_admins_db : DB :=
  set_users (insert_many [stored_user "a1" ADMIN_EMAIL "admin" "salt$x";
                          stored_user "a2" ADMIN_EMAIL "admin" "salt$y"])
    empty_db.

Definition stored_order (id user_id status : string) : doc :=
  Order.model_dump (Order.mk id user_id [] 0%Q [] "cod" status "t0").

Definition two_orders_db : DB :=
  set_orders (insert_many [stored_order "o1" "ann" "pending";
                           stored_order "o2" "bob" "pending"]) empty_db.

(** A catalogue of one product, the mouse of the baseline data. *)
Definition mouse : doc :=
  seed_product "p5"
    ("Wireless Mouse", "Ergonomic wireless mouse", 39.99%Q, "electronics",
     "https://images.unsplash.com/photo-1527814050087-3793815479db?w=500", 80, false).

Definition mouse_db : DB := set_products (insert_one mouse) empty_db.

(** A product whose name starts with the Kelvin sign (U+212A, the bytes
    E2 84 AA), followed by "elvin". *)
Definition kelvin_name : string :=
  String (ascii_of_N 226) (String (ascii_of_N 132) (String (ascii_of_N 170) "elvin")).

Definition kelvin : doc :=
  seed_product "p6" (kelvin_name, "A thermometer", 9.5%Q, "electronics", "k.png", 3, false).

Definition kelvin_db : DB := set_products (insert_one kelvin) empty_db.

(** The empty database after one [initialize_data]. *)
Definition seeded_db : DB :=
  snd (initialize_data (H := sample_externals) "a1" "t1" "salt"
         (fun _ => "c") (fun _ => "p") empty_db).

(** Two outcomes that return documents with different items differ. *)
Ltac differ_on_items E :=
  apply (f_equal (fun o : outcome doc =>
                    match o with Return m => m !! "items" | _ => None end)) in E;
  vm_compute in E; discriminate E.

(** ** Facts about the store *)

Section StoreFacts.

Lemma value_eqb_VStr (s : string) (w : value) :
  value_eqb (VStr s) w = true <-> w = VStr s.
Proof.
  destruct w; simpl; try (split; [discriminate | discriminate]).
  rewrite String.eqb_eq. split; [intros ->; reflexivity | intros [= ->]; reflexivity].
Qed.

Lemma matches_by_field_str (k s : string) (d : doc) :
  matches (by_field k (VStr s)) d = true <-> d !! k = Some (VStr s).
Proof.
  unfold matches, by_field. cbn [forallb fst snd cond_matches].
  rewrite andb_true_r. destruct (d !! k) as [w|].
  - rewrite value_eqb_VStr. split; [intros ->; reflexivity | intros [= ->]; reflexivity].
  - split; discriminate.
Qed.

Lemma find_one_None_count (q : query) (coll : list doc) :
  find_one q coll = None <-> count_documents q coll = 0%nat.
Proof.
  unfold find_one, count_documents, find.
  induction coll as [|d rest IH]; simpl; [tauto|].
  destruct (matches q d); simpl; [split; discriminate | exact IH].
Qed.

Lemma first_index_Some (q : query) (coll : list doc) (i : nat) :
  first_index q coll = Some i ->
  exists d, coll !! i = Some d /\ matches q d = true
            /\ forall j e, (j < i)%nat -> coll !! j = Some e -> matches q e = false.
Proof.
  revert i. induction coll as [|d rest IH]; intros i; simpl; [discriminate|].
  destruct (matches q d) eqn:Hd.
  - intros [= <-]. exists d. repeat split; [assumption | intros j e Hj; lia].
  - destruct (first_index q rest) as [i'|]; [|discriminate].
    intros [= <-]. destruct (IH i' eq_refl) as (e & He & Hm & Hlt).
    exists e. repeat split; try assumption.
    intros [|j] e' Hj; simpl; [intros [= <-]; exact Hd|].
    apply Hlt. lia.
Qed.

(** [update_first] and [delete_first] act at the first match. *)
Lemma update_first_spec (q : query) (upd : doc -> doc) (coll : list doc) :
  update_first q upd coll =
  match first_index q coll with
  | Some i => Some (alter upd i coll)
  | None => None
  end.
Proof.
  induction coll as [|d rest IH]; simpl; [reflexivity|].
  destruct (matches q d); [reflexivity|].
  rewrite IH. destruct (first_index q rest); reflexivity.
Qed.

Lemma delete_first_spec (q : query) (coll : list doc) :
  delete_first q coll =
  match first_index q coll with
  | Some i => Some (delete i coll)
  | None => None
  end.
Proof.
  induction coll as [|d rest IH]; simpl; [reflexivity|].
  destruct (matches q d); [reflexivity|].
  rewrite IH. destruct (first_index q rest); reflexivity.
Qed.

Lemma first_index_None (q : query) (coll : list doc) :
  first_index q coll = None <-> find_one q coll = None.
Proof.
  unfold find_one. induction coll as [|d rest IH]; simpl; [tauto|].
  destruct (matches q d); [split; discriminate|].
  destruct (first_index q rest); [|tauto].
  split; [discriminate|]. intros Hn. apply IH in Hn. discriminate.
Qed.

Lemma find_one_app_None (q : query) (coll more : list doc) :
  find_one q coll = None -> find_one q (coll ++ more) = find_one q more.
Proof.
  unfold find_one. induction coll as [|d rest IH]; simpl; [reflexivity|].
  destruct (matches q d); [discriminate | exact IH].
Qed.

(** When at most one document matches, the collection has no match left
    once the first match is removed, or rewritten into a document that
    does not match. *)
Lemma delete_first_clears (q : query) (coll coll' : list doc) :
  (count_documents q coll <= 1)%nat ->
  delete_first q coll = Some coll' ->
  find_one q coll' = None.
Proof.
  revert coll'. induction coll as [|d rest IH]; intros coll'; simpl; [discriminate|].
  unfold count_documents, find in *. simpl.
  destruct (matches q d) eqn:Hd; simpl.
  - intros Hc [= <-]. apply find_one_None_count. unfold count_documents, find. lia.
  - intros Hc. destruct (delete_first q rest) as [r|]; [|discriminate].
    intros [= <-]. unfold find_one. simpl. rewrite Hd. apply (IH r Hc eq_refl).
Qed.

Lemma update_first_clears (q : query) (upd : doc -> doc) (coll coll' : list doc) :
  (forall d, matches q (upd d) = false) ->
  (count_documents q coll <= 1)%nat ->
  update_first q upd coll = Some coll' ->
  find_one q coll' = None.
Proof.
  intros Hupd. revert coll'.
  induction coll as [|d rest IH]; intros coll'; simpl; [discriminate|].
  unfold count_documents, find in *. simpl.
  destruct (matches q d) eqn:Hd; simpl.
  - intros Hc [= <-]. unfold find_one. simpl. rewrite Hupd.
    apply find_one_None_count. unfold count_documents, find. lia.
  - intros Hc. destruct (update_first q upd rest) as [r|]; [|discriminate].
    intros [= <-]. unfold find_one. simpl. rewrite Hd. apply (IH r Hc eq_refl).
Qed.

End StoreFacts.

(** ** Cart and order properties *)

Section CartFacts.

Lemma truthy_found (d : doc) (k : string) (v : value) :
  d !! k = Some v -> truthy (Some d) = true.
Proof.
  intros Hk. unfold truthy. destruct (map_to_list d) eqn:E; [|reflexivity].
  apply map_to_list_empty_iff in E. subst d. rewrite lookup_empty in Hk. discriminate.
Qed.

Lemma cart_dump_user_id (c : Cart.t) (d : doc) :
  (Cart.model_dump c ∪ d) !! "user_id" = Some (VStr (Cart.user_id c)).
Proof. apply lookup_union_Some_l. reflexivity. Qed.

Lemma cart_dump_items (c : Cart.t) (d : doc) :
  (Cart.model_dump c ∪ d) !! "items"
  = Some (VList (map CartItem.model_dump (Cart.items c))).
Proof. apply lookup_union_Some_l. reflexivity. Qed.

Lemma cart_dump_matches (c : Cart.t) (uid : string) (d : doc) :
  matches (by_field "user_id" (VStr uid)) (Cart.model_dump c ∪ d)
  = String.eqb uid (Cart.user_id c).
Proof.
  unfold matches, by_field. cbn [forallb fst snd cond_matches].
  rewrite cart_dump_user_id. simpl. apply andb_true_r.
Qed.

Lemma update_cart_eval (c : Cart.t) (cu : doc) (v : value) (db : DB) :
  cu !! "user_id" = Some v ->
  update_cart c cu db
  = (Return c,
     set_carts (fun _ => fst (update_one (by_field "user_id" v)
                                         (Cart.model_dump c) true (carts db))) db).
Proof.
  intros Hu. unfold update_cart, bind, lift, subscript, on_collection, ret.
  rewrite Hu. reflexivity.
Qed.

Lemma get_cart_eval (cu : doc) (v : value) (db : DB) :
  cu !! "user_id" = Some v ->
  get_cart cu db
  = (Return (match find_one (by_field "user_id" v) (carts db) with
             | Some d => if truthy (Some d) then d else empty_cart_view v
             | None => empty_cart_view v
             end), db).
Proof.
  intros Hu. unfold get_cart, bind, lift, subscript, query_db, ret.
  rewrite Hu. destruct (find_one _ _) as [d|]; [|reflexivity].
  destruct (truthy (Some d)); reflexivity.
Qed.

Lemma get_cart_empty (cu : doc) (v : value) (db : DB) :
  cu !! "user_id" = Some v ->
  find_one (by_field "user_id" v) (carts db) = None ->
  get_cart cu db = (Return (empty_cart_view v), db).
Proof. intros Hu Hn. rewrite (get_cart_eval cu v db Hu), Hn. reflexivity. Qed.

(** A write whose body names another user leaves no cart under the
    caller's id, provided at most one was there. *)
Lemma update_one_other_clears (c : Cart.t) (uid : string) (coll : list doc) :
  Cart.user_id c <> uid ->
  (count_documents (by_field "user_id" (VStr uid)) coll <= 1)%nat ->
  find_one (by_field "user_id" (VStr uid))
           (fst (update_one (by_field "user_id" (VStr uid))
                            (Cart.model_dump c) true coll)) = None.
Proof.
  intros Hne Hc. unfold update_one.
  assert (Hno : forall d, matches (by_field "user_id" (VStr uid))
                                  (Cart.model_dump c ∪ d) = false).
  { intros d. rewrite cart_dump_matches. apply String.eqb_neq. congruence. }
  destruct (update_first _ _ coll) as [coll'|] eqn:E; cbn [fst].
  - eapply update_first_clears; eauto.
  - rewrite update_first_spec in E.
    destruct (first_index _ coll) eqn:Ei; [discriminate|].
    apply first_index_None in Ei. rewrite (find_one_app_None _ _ _ Ei).
    unfold find_one. cbn [List.find]. rewrite Hno. reflexivity.
Qed.

End CartFacts.

Section WrittenDoc.

Lemma written_doc_update_one (q : query) (m : doc) (coll : list doc) :
  exists d, written_doc q coll (fst (update_one q m true coll)) = Some (m ∪ d).
Proof.
  unfold written_doc, update_one. rewrite update_first_spec.
  destruct (first_index q coll) as [i|] eqn:Ei; cbn [fst].
  - destruct (first_index_Some q coll i Ei) as (d & Hd & _).
    exists d. rewrite list_lookup_alter_eq, Hd. reflexivity.
  - exists (query_seed q). apply last_snoc.
Qed.

End WrittenDoc.

(** C10 (as amended).  [update_cart] stores the body's [user_id], not the
    caller's: after a call whose body names another user, the document
    written under the caller's filter carries the body's [user_id] and
    items and no longer matches the caller's filter; and when at most one
    stored cart carried the caller's id, [get_cart] for the caller then
    returns the empty cart view. *)
Theorem update_cart_stores_body_user_id (c : Cart.t) (cu : doc) (uid : string)
    (db : DB) :
  cu !! "user_id" = Some (VStr uid) ->
  Cart.user_id c <> uid ->
  let q := by_field "user_id" (VStr uid) in
  let db' := snd (update_cart c cu db) in
  (exists d', written_doc q (carts db) (carts db') = Some d'
              /\ d' !! "user_id" = Some (VStr (Cart.user_id c))
              /\ d' !! "items" = Some (VList (map CartItem.model_dump (Cart.items c)))
              /\ matches q d' = false)
  /\ ((count_documents q (carts db) <= 1)%nat ->
      get_cart cu db' = (Return (empty_cart_view (VStr uid)), db')).
Proof.
  intros Hu Hne q db'. subst db'. rewrite (update_cart_eval c cu _ db Hu).
  cbn [snd]. split.
  - destruct (written_doc_update_one q (Cart.model_dump c) (carts db)) as [d Hd].
    exists (Cart.model_dump c ∪ d). unfold set_carts; cbn [carts].
    split; [exact Hd|]. split; [apply cart_dump_user_id|].
    split; [apply cart_dump_items|].
    subst q. rewrite cart_dump_matches. apply String.eqb_neq. congruence.
  - intros Hc. apply get_cart_empty; [exact Hu|].
    unfold set_carts; cbn [carts]. apply update_one_other_clears; assumption.
Qed.

(** The amended C10 at a concrete state: Ann, with one stored cart, posts
    a body naming somebody else. *)
Lemma update_cart_stores_body_user_id_witness :
  ann !! "user_id" = Some (VStr "ann")
  /\ Cart.user_id cart_for_cy <> "ann"
  /\ get_cart ann (snd (update_cart cart_for_cy ann
                          (snd (update_cart (Cart.mk "ann" pens "t1") ann empty_db))))
     = (Return (empty_cart_view (VStr "ann")),
        snd (update_cart cart_for_cy ann
               (snd (update_cart (Cart.mk "ann" pens "t1") ann empty_db)))).
Proof.
  split; [reflexivity|]. split; [discriminate|].
  apply (update_cart_stores_body_user_id cart_for_cy ann "ann"
           (snd (update_cart (Cart.mk "ann" pens "t1") ann empty_db))).
  - reflexivity.
  - discriminate.
  - vm_compute. lia.
Defined.

(** C10 as stated fails: with two stored carts under Ann's id, a body
    naming somebody else rewrites the first of them only, and [get_cart]
    for Ann returns the second, not the empty view. *)
Lemma update_cart_other_user_read_not_empty :
  ann !! "user_id" = Some (VStr "ann")
  /\ Cart.user_id cart_for_cy <> "ann"
  /\ fst (get_cart ann (snd (update_cart cart_for_cy ann two_carts_for_ann)))
     = Return (Cart.model_dump (Cart.mk "ann" ink "t2"))
  /\ fst (get_cart ann (snd (update_cart cart_for_cy ann two_carts_for_ann)))
     <> Return (empty_cart_view (VStr "ann")).
Proof.
  assert (H1 : fst (get_cart ann (snd (update_cart cart_for_cy ann two_carts_for_ann)))
               = Return (Cart.model_dump (Cart.mk "ann" ink "t2")))
    by (vm_compute; reflexivity).
  split; [reflexivity|]. split; [discriminate|]. split; [exact H1|].
  rewrite H1. intros E.
  differ_on_items E.
Qed.

Section OrderFacts.

Lemma create_order_eval (uuid created : string) (od : OrderCreate.t) (cu : doc)
    (uid : string) (db : DB) :
  cu !! "user_id" = Some (VStr uid) ->
  let order :=
    Order.mk uuid uid (OrderCreate.items od) (OrderCreate.total od)
             (OrderCreate.address od) (OrderCreate.payment_method od)
             "pending" created in
  create_order uuid created od cu db
  = (Return order,
     mkDB (users db) (products db) (categories db)
          (fst (delete_one (by_field "user_id" (VStr uid)) (carts db)))
          (orders db ++ [Order.model_dump order]) (site_settings db)).
Proof.
  intros Hu order. unfold create_order, bind, lift, subscript, on_collection,
    update_db, ret, new_order. rewrite Hu. reflexivity.
Qed.

End OrderFacts.

(** C6 (as amended).  For an identity whose [user_id] is a string,
    [create_order] succeeds; it appends exactly one order, with the
    caller's [user_id], status [pending] and the submitted items, total,
    address and payment method; it removes the first cart stored under the
    caller's id and nothing else (nothing at all when there is none); and
    when at most one stored cart carried the caller's id, [get_cart] then
    returns the empty cart view. *)
Theorem create_order_clears_cart (uuid created : string) (od : OrderCreate.t)
    (cu : doc) (uid : string) (db : DB) :
  cu !! "user_id" = Some (VStr uid) ->
  let q := by_field "user_id" (VStr uid) in
  let order :=
    Order.mk uuid uid (OrderCreate.items od) (OrderCreate.total od)
             (OrderCreate.address od) (OrderCreate.payment_method od)
             "pending" created in
  let r := create_order uuid created od cu db in
  fst r = Return order
  /\ orders (snd r) = orders db ++ [Order.model_dump order]
  /\ users (snd r) = users db /\ products (snd r) = products db
  /\ categories (snd r) = categories db /\ site_settings (snd r) = site_settings db
  /\ carts (snd r) = match first_index q (carts db) with
                     | Some i => delete i (carts db)
                     | None => carts db
                     end
  /\ ((count_documents q (carts db) <= 1)%nat ->
      get_cart cu (snd r) = (Return (empty_cart_view (VStr uid)), snd r)).
Proof.
  intros Hu q order r. subst r. rewrite (create_order_eval uuid created od cu uid db Hu).
  cbn [fst snd orders users products categories site_settings carts].
  repeat (split; [reflexivity|]).
  assert (Hd : fst (delete_one q (carts db))
               = match first_index q (carts db) with
                 | Some i => delete i (carts db)
                 | None => carts db
                 end).
  { unfold delete_one. rewrite delete_first_spec.
    destruct (first_index q (carts db)); reflexivity. }
  split; [exact Hd|].
  intros Hc. apply get_cart_empty; [exact Hu|]. cbn [carts]. subst q.
  unfold delete_one.
  destruct (delete_first _ (carts db)) as [coll'|] eqn:E; cbn [fst].
  - exact (delete_first_clears _ (carts db) coll' Hc E).
  - rewrite delete_first_spec in E.
    destruct (first_index _ (carts db)) eqn:Ei; [discriminate|].
    apply first_index_None. exact Ei.
Qed.

(** The amended C6 at a concrete state: Ann, with one stored cart, orders. *)
Lemma create_order_clears_cart_witness :
  ann !! "user_id" = Some (VStr "ann")
  /\ get_cart ann
       (snd (create_order "o1" "t9" sample_order ann
               (snd (update_cart (Cart.mk "ann" pens "t1") ann empty_db))))
     = (Return (empty_cart_view (VStr "ann")),
        snd (create_order "o1" "t9" sample_order ann
               (snd (update_cart (Cart.mk "ann" pens "t1") ann empty_db)))).
Proof.
  split; [reflexivity|].
  apply (create_order_clears_cart "o1" "t9" sample_order ann "ann"
           (snd (update_cart (Cart.mk "ann" pens "t1") ann empty_db))).
  - reflexivity.
  - vm_compute. lia.
Defined.

(** C6 as stated fails: with two stored carts under Ann's id, her order
    removes the first only, and [get_cart] for Ann returns the second. *)
Lemma create_order_leaves_second_cart :
  fst (create_order "o1" "t9" sample_order ann two_carts_for_ann)
    = Return (Order.mk "o1" "ann" (OrderCreate.items sample_order)
                (OrderCreate.total sample_order) (OrderCreate.address sample_order)
                (OrderCreate.payment_method sample_order) "pending" "t9")
  /\ fst (get_cart ann (snd (create_order "o1" "t9" sample_order ann two_carts_for_ann)))
     = Return (Cart.model_dump (Cart.mk "ann" ink "t2"))
  /\ fst (get_cart ann (snd (create_order "o1" "t9" sample_order ann two_carts_for_ann)))
     <> Return (empty_cart_view (VStr "ann")).
Proof.
  assert (H1 : fst (get_cart ann
                      (snd (create_order "o1" "t9" sample_order ann two_carts_for_ann)))
               = Return (Cart.model_dump (Cart.mk "ann" ink "t2")))
    by (vm_compute; reflexivity).
  split; [reflexivity|]. split; [exact H1|].
  rewrite H1. intros E.
  differ_on_items E.
Qed.

(** ** The admin guard *)

Section GuardFacts.

Lemma is_admin_role (cu : doc) :
  is_admin cu = true <-> cu !! "role" = Some (VStr "admin").
Proof.
  unfold is_admin. destruct (cu !! "role") as [v|]; [|split; discriminate].
  destruct v; simpl; try (split; discriminate).
  rewrite String.eqb_eq. split; [intros ->; reflexivity | intros [= ->]; reflexivity].
Qed.

Lemma not_admin_role (cu : doc) :
  cu !! "role" <> Some (VStr "admin") -> is_admin cu = false.
Proof.
  intros Hr. destruct (is_admin cu) eqn:E; [|reflexivity].
  apply is_admin_role in E. contradiction.
Qed.

Lemma admin_route_forbidden {A : Type} (body : doc -> M A) (cu : doc) (db : DB) :
  is_admin cu = false ->
  admin_route body cu db = (HTTPException 403 "Admin access required", db).
Proof.
  intros Hr. unfold admin_route, bind, lift, get_admin_user. rewrite Hr. reflexivity.
Qed.

Lemma admin_route_admin {A : Type} (body : doc -> M A) (cu : doc) (db : DB) :
  is_admin cu = true -> admin_route body cu db = body cu db.
Proof.
  intros Hr. unfold admin_route, bind, lift, get_admin_user. rewrite Hr. simpl.
  destruct (body cu db) as [[a|s d|e] db']; reflexivity.
Qed.

Lemma fmap_forbidden {A B : Type} (f : A -> B) (m : M A) (db : DB) :
  m db = (HTTPException 403 "Admin access required", db) ->
  fmap_M f m db = (HTTPException 403 "Admin access required", db).
Proof. intros Hm. unfold fmap_M, bind. rewrite Hm. reflexivity. Qed.

End GuardFacts.

(** C3.  For every identity and every admin-only operation: an identity
    whose role is not "admin" gets 403 "Admin access required" and the
    database is left as it was; so a call that ends in anything else was
    made by an identity whose role is "admin", and for such an identity
    the guard hands the identity on to the body. *)
Theorem admin_operations_require_admin (op : admin_operation) (cu : doc) (db : DB) :
  (cu !! "role" <> Some (VStr "admin") ->
   call op cu db = (HTTPException 403 "Admin access required", db))
  /\ (fst (call op cu db) <> HTTPException 403 "Admin access required" ->
      cu !! "role" = Some (VStr "admin"))
  /\ (cu !! "role" = Some (VStr "admin") -> get_admin_user cu = Return cu).
Proof.
  assert (Hforbid : is_admin cu = false ->
                    call op cu db = (HTTPException 403 "Admin access required", db)).
  { intros Hr. destruct op; cbn [call]; apply fmap_forbidden;
      apply admin_route_forbidden; exact Hr. }
  split; [intros Hr; apply Hforbid, not_admin_role, Hr|]. split.
  - intros Hne. destruct (is_admin cu) eqn:E; [apply is_admin_role, E|].
    rewrite (Hforbid eq_refl) in Hne. contradiction.
  - intros Hr. apply is_admin_role in Hr. unfold get_admin_user. rewrite Hr. reflexivity.
Qed.

(** C3 at a concrete call: Bob, a plain user, tries to delete a product. *)
Lemma admin_operations_require_admin_witness :
  bob !! "role" <> Some (VStr "admin")
  /\ call (DeleteProduct "p1") bob two_orders_db
     = (HTTPException 403 "Admin access required", two_orders_db).
Proof.
  assert (Hr : bob !! "role" <> Some (VStr "admin")) by (vm_compute; discriminate).
  split; [exact Hr|].
  exact (proj1 (admin_operations_require_admin (DeleteProduct "p1") bob two_orders_db) Hr).
Defined.

(** ** Order status *)

Section OrderStatusFacts.

Lemma set_status_lookup (status : string) (d : doc) :
  ({[ "status" := VStr status ]} ∪ d) !! "status" = Some (VStr status).
Proof. apply lookup_union_Some_l. apply lookup_singleton_eq. Qed.

Lemma set_status_other (status : string) (d : doc) (k : string) :
  k <> "status" -> ({[ "status" := VStr status ]} ∪ d) !! k = d !! k.
Proof.
  intros Hk. apply lookup_union_r. apply lookup_singleton_ne. congruence.
Qed.

Lemma first_index_None_all (q : query) (coll : list doc) :
  first_index q coll = None <-> forall d, d ∈ coll -> matches q d = false.
Proof.
  induction coll as [|d rest IH]; simpl.
  - split; [intros _ d Hd; inversion Hd | reflexivity].
  - destruct (matches q d) eqn:Hd.
    + split; [discriminate|]. intros Hall. rewrite (Hall d) in Hd by left. discriminate.
    + destruct (first_index q rest).
      * split; [discriminate|]. intros Hall.
        assert (Hn : Some n = None); [|discriminate].
        apply IH. intros e He. apply Hall. right. exact He.
      * split; [|reflexivity]. intros _ e He. apply elem_of_cons in He as [->|He].
        -- exact Hd.
        -- apply (proj1 IH eq_refl e He).
Qed.

Lemma update_order_status_eval (order_id status : string) (admin : doc) (db : DB) :
  admin !! "role" = Some (VStr "admin") ->
  update_order_status order_id status admin db
  = match first_index (by_field "id" (VStr order_id)) (orders db) with
    | Some i =>
        (Return "Order updated",
         set_orders (fun _ => alter (fun d => {[ "status" := VStr status ]} ∪ d) i
                                    (orders db)) db)
    | None => (HTTPException 404 "Order not found", set_orders (fun _ => orders db) db)
    end.
Proof.
  intros Hr. apply is_admin_role in Hr.
  unfold update_order_status. rewrite (admin_route_admin _ admin db Hr).
  unfold bind, on_collection, update_one. rewrite update_first_spec.
  destruct (first_index _ (orders db)); reflexivity.
Qed.

End OrderStatusFacts.

(** C8.  [update_order_status], called by an admin.  When no stored order
    has the id, the call fails with 404 "Order not found" and the database
    is unchanged.  Otherwise the first order with that id gets the given
    status; every other field of it, every other order, the number of
    orders and every other collection are as before. *)
Theorem update_order_status_changes_status_only (order_id status : string)
    (admin : doc) (db : DB) :
  admin !! "role" = Some (VStr "admin") ->
  let r := update_order_status order_id status admin db in
  match first_index (by_field "id" (VStr order_id)) (orders db) with
  | None =>
      (forall d, d ∈ orders db -> d !! "id" <> Some (VStr order_id))
      /\ r = (HTTPException 404 "Order not found", db)
  | Some i =>
      fst r = Return "Order updated"
      /\ (exists d d',
            orders db !! i = Some d /\ d !! "id" = Some (VStr order_id)
            /\ orders (snd r) !! i = Some d'
            /\ d' !! "status" = Some (VStr status)
            /\ (forall k, k <> "status" -> d' !! k = d !! k))
      /\ (forall j, j <> i -> orders (snd r) !! j = orders db !! j)
      /\ length (orders (snd r)) = length (orders db)
      /\ users (snd r) = users db /\ products (snd r) = products db
      /\ categories (snd r) = categories db /\ carts (snd r) = carts db
      /\ site_settings (snd r) = site_settings db
  end.
Proof.
  intros Hr r. subst r. rewrite (update_order_status_eval order_id status admin db Hr).
  destruct (first_index _ (orders db)) as [i|] eqn:Ei.
  - cbn [fst snd set_orders orders users products categories carts site_settings].
    split; [reflexivity|]. split.
    + destruct (first_index_Some _ _ _ Ei) as (d & Hd & Hm & _).
      exists d, ({[ "status" := VStr status ]} ∪ d).
      split; [exact Hd|]. split; [apply matches_by_field_str, Hm|].
      split; [rewrite list_lookup_alter_eq, Hd; reflexivity|].
      split; [apply set_status_lookup|]. intros k Hk. apply set_status_other, Hk.
    + split; [intros j Hj; apply list_lookup_alter_ne; congruence|].
      split; [apply length_alter|]. repeat split.
  - split.
    + intros d Hd Hid. apply first_index_None_all with (d := d) in Ei; [|exact Hd].
      apply matches_by_field_str in Hid. congruence.
    + destruct db; reflexivity.
Qed.

(** C8 at a concrete state: the admin marks the second of two orders shipped. *)
Lemma update_order_status_changes_status_only_witness :
  root !! "role" = Some (VStr "admin")
  /\ fst (update_order_status "o2" "shipped" root two_orders_db) = Return "Order updated"
  /\ orders (snd (update_order_status "o2" "shipped" root two_orders_db)) !! 0%nat
     = orders two_orders_db !! 0%nat.
Proof.
  assert (Hr : root !! "role" = Some (VStr "admin")) by reflexivity.
  split; [exact Hr|].
  pose proof (update_order_status_changes_status_only "o2" "shipped" root
                two_orders_db Hr) as H.
  cbv zeta in H.
  change (first_index (by_field "id" (VStr "o2")) (orders two_orders_db))
    with (Some 1%nat) in H.
  destruct H as (H1 & _ & H3 & _).
  split; [exact H1|]. apply H3. discriminate.
Defined.

(** ** Signup and login *)

Section AuthFacts.
Context `{Externals}.

Lemma find_one_some (q : query) (coll : list doc) (d : doc) :
  d ∈ coll -> matches q d = true ->
  exists d', find_one q coll = Some d' /\ matches q d' = true.
Proof.
  unfold find_one. induction coll as [|e rest IH]; intros Hin Hm.
  - inversion Hin.
  - simpl. destruct (matches q e) eqn:He; [exists e; split; [reflexivity | exact He]|].
    apply elem_of_cons in Hin as [->|Hin]; [congruence|]. apply IH; assumption.
Qed.

Lemma find_one_none_all (q : query) (coll : list doc) :
  (forall d, d ∈ coll -> matches q d = false) -> find_one q coll = None.
Proof.
  intros Hall. apply first_index_None, first_index_None_all, Hall.
Qed.

Lemma find_one_matches (q : query) (coll : list doc) (d : doc) :
  find_one q coll = Some d -> d ∈ coll /\ matches q d = true.
Proof.
  unfold find_one. induction coll as [|e rest IH]; simpl; [discriminate|].
  destruct (matches q e) eqn:He.
  - intros [= ->]. split; [left | exact He].
  - intros Hf. destruct (IH Hf) as [Hin Hm]. split; [right; exact Hin | exact Hm].
Qed.

Lemma login_eval_found (uuid created : string) (clock : Z) (l : UserLogin.t)
    (db : DB) (d : doc) :
  find_one (by_field "email" (VStr (UserLogin.email l))) (users db) = Some d ->
  login uuid created clock l db
  = match d !! "password_hash" with
    | None => (Uncaught "KeyError", db)
    | Some (VStr h) =>
        match verify_password (UserLogin.password l) h with
        | None => (Uncaught "UnknownHashError", db)
        | Some false => (HTTPException 401 "Invalid credentials", db)
        | Some true =>
            match User.validate uuid created d with
            | Return user =>
                (Return (create_token clock (User.id user) (User.email user)
                                      (User.role user), user), db)
            | HTTPException s m => (HTTPException s m, db)
            | Uncaught e => (Uncaught e, db)
            end
        end
    | Some _ => (Uncaught "TypeError", db)
    end.
Proof.
  intros Hf. unfold login, bind, query_db. rewrite Hf.
  destruct (find_one_matches _ _ _ Hf) as [_ Hm].
  apply matches_by_field_str in Hm. rewrite (truthy_found d "email" _ Hm).
  cbn [negb]. destruct (d !! "password_hash") as [[]|]; try reflexivity.
  destruct (verify_password _ _) as [[]|]; reflexivity.
Qed.

End AuthFacts.

(** C4.  A signup whose email is the email of a stored user fails with 400
    "Email already registered" and leaves the database (the users
    collection with it) unchanged.  The password, the name and the values
    the call would draw do not occur in the result. *)
Theorem signup_duplicate_email `{Externals} (uuid created salt : string) (clock : Z)
    (user_data : UserCreate.t) (db : DB) :
  (exists d, d ∈ users db /\ d !! "email" = Some (VStr (UserCreate.email user_data))) ->
  signup uuid created salt clock user_data db
  = (HTTPException 400 "Email already registered", db).
Proof.
  intros (d & Hin & He).
  destruct (find_one_some (by_field "email" (VStr (UserCreate.email user_data)))
              (users db) d Hin) as (d' & Hf & Hm); [apply matches_by_field_str, He|].
  unfold signup, bind, query_db. rewrite Hf.
  apply matches_by_field_str in Hm. rewrite (truthy_found d' "email" _ Hm).
  reflexivity.
Qed.

(** C4 at a concrete state: a second signup with Ann's address. *)
Lemma signup_duplicate_email_witness :
  (exists d, d ∈ users one_user_db /\ d !! "email" = Some (VStr "ann@shop.com"))
  /\ signup (H := sample_externals) "u2" "t5" "salt" sample_issued
       (UserCreate.mk "ann@shop.com" "other" "Other") one_user_db
     = (HTTPException 400 "Email already registered", one_user_db).
Proof.
  assert (Hex : exists d, d ∈ users one_user_db
                          /\ d !! "email" = Some (VStr "ann@shop.com")).
  { exists (stored_user "u1" "ann@shop.com" "user" "salt$secret").
    split; [left | reflexivity]. }
  split; [exact Hex|].
  exact (signup_duplicate_email (H := sample_externals) "u2" "t5" "salt" sample_issued
           (UserCreate.mk "ann@shop.com" "other" "Other") one_user_db Hex).
Defined.

(** C2.  A login for which no stored user has the email, and a login for
    which the user is found but the password does not verify against the
    stored hash, both fail with 401 "Invalid credentials": the two
    outcomes are the same value, and neither call changes the database. *)
Theorem login_failures_identical `{Externals}
    (uuid1 created1 uuid2 created2 : string) (clock1 clock2 : Z)
    (l1 l2 : UserLogin.t) (db1 db2 : DB) (d : doc) (h : string) :
  (forall u, u ∈ users db1 -> u !! "email" <> Some (VStr (UserLogin.email l1))) ->
  find_one (by_field "email" (VStr (UserLogin.email l2))) (users db2) = Some d ->
  d !! "password_hash" = Some (VStr h) ->
  verify_password (UserLogin.password l2) h = Some false ->
  login uuid1 created1 clock1 l1 db1 = (HTTPException 401 "Invalid credentials", db1)
  /\ login uuid2 created2 clock2 l2 db2 = (HTTPException 401 "Invalid credentials", db2)
  /\ fst (login uuid1 created1 clock1 l1 db1) = fst (login uuid2 created2 clock2 l2 db2).
Proof.
  intros Hnone Hf Hh Hv.
  assert (H1 : login uuid1 created1 clock1 l1 db1
               = (HTTPException 401 "Invalid credentials", db1)).
  { unfold login, bind, query_db. rewrite find_one_none_all; [reflexivity|].
    intros u Hu. destruct (matches _ u) eqn:E; [|reflexivity].
    apply matches_by_field_str in E. destruct (Hnone u Hu E). }
  assert (H2 : login uuid2 created2 clock2 l2 db2
               = (HTTPException 401 "Invalid credentials", db2)).
  { rewrite (login_eval_found uuid2 created2 clock2 l2 db2 d Hf), Hh, Hv. reflexivity. }
  split; [exact H1|]. split; [exact H2|]. rewrite H1, H2. reflexivity.
Qed.

(** C2 at concrete calls: an unknown address against the empty database,
    and Ann's address with a wrong password. *)
Lemma login_failures_identical_witness :
  fst (login (H := sample_externals) "x" "t" 0 (UserLogin.mk "zed@shop.com" "secret")
         empty_db)
  = fst (login (H := sample_externals) "x" "t" 0 (UserLogin.mk "ann@shop.com" "wrong")
           one_user_db).
Proof.
  refine (proj2 (proj2 (login_failures_identical (H := sample_externals)
            "x" "t" "x" "t" 0 0 (UserLogin.mk "zed@shop.com" "secret")
            (UserLogin.mk "ann@shop.com" "wrong") empty_db one_user_db
            (stored_user "u1" "ann@shop.com" "user" "salt$secret") "salt$secret"
            _ _ _ _))).
  - intros u Hu. inversion Hu.
  - reflexivity.
  - reflexivity.
  - reflexivity.
Defined.

(** ** Seed loader *)

Section SeedFacts.
Context `{Externals}.

Lemma find_all (coll : list doc) : find [] coll = coll.
Proof.
  unfold find. induction coll as [|d rest IH]; simpl; [reflexivity|].
  rewrite IH. reflexivity.
Qed.

Lemma count_all (coll : list doc) : count_documents [] coll = length coll.
Proof. unfold count_documents. rewrite find_all. reflexivity. Qed.

Lemma truthy_find_one (k s : string) (coll : list doc) :
  truthy (find_one (by_field k (VStr s)) coll)
  = negb (Nat.eqb (count_documents (by_field k (VStr s)) coll) 0).
Proof.
  destruct (find_one _ coll) as [d|] eqn:E.
  - destruct (find_one_matches _ _ _ E) as [_ Hm].
    apply matches_by_field_str in Hm. rewrite (truthy_found d k _ Hm).
    destruct (count_documents _ coll) eqn:Ec; [|reflexivity].
    apply find_one_None_count in Ec. congruence.
  - apply find_one_None_count in E. rewrite E. reflexivity.
Qed.

Lemma count_app (q : query) (a b : list doc) :
  count_documents q (a ++ b) = (count_documents q a + count_documents q b)%nat.
Proof.
  unfold count_documents, find. rewrite List.filter_app. apply List.length_app.
Qed.

Lemma initialize_data_eval (admin_uuid created salt : string)
    (category_uuid product_uuid : nat -> string) (db : DB) :
  initialize_data admin_uuid created salt category_uuid product_uuid db
  = (Return "Data initialized",
     mkDB
       (if Nat.eqb (count_admins db) 0
        then users db
               ++ [<["password_hash" := VStr (hash_password salt "admin123")]>
                     (User.model_dump
                        (User.mk admin_uuid ADMIN_EMAIL "Admin" "admin" created))]
        else users db)
       (if Nat.eqb (length (products db)) 0
        then products db
               ++ imap (fun k row => seed_product (product_uuid k) row) product_rows
        else products db)
       (if Nat.eqb (length (categories db)) 0
        then categories db
               ++ imap (fun k row => seed_category (category_uuid k) row) category_rows
        else categories db)
       (carts db) (orders db) (site_settings db)).
Proof.
  destruct db as [u p c ca o s].
  unfold initialize_data, bind, query_db, count_admins.
  cbn [users products categories carts orders site_settings].
  rewrite truthy_find_one, negb_involutive.
  destruct (Nat.eqb (count_documents _ u) 0);
    destruct (Nat.eqb (length c) 0) eqn:Ec;
    destruct (Nat.eqb (length p) 0) eqn:Ep;
    unfold update_db, ret, set_users, set_categories, set_products,
      insert_one, insert_many;
    cbn [users products categories carts orders site_settings];
    rewrite ?count_all, ?Ec;
    cbn [users products categories carts orders site_settings];
    rewrite ?count_all, ?Ep; reflexivity.
Qed.

Lemma admin_doc_counts (admin_uuid created hash : string) :
  count_documents (by_field "email" (VStr ADMIN_EMAIL))
    [<["password_hash" := VStr hash]>
       (User.model_dump (User.mk admin_uuid ADMIN_EMAIL "Admin" "admin" created))]
  = 1%nat.
Proof.
  unfold count_documents, find. cbn [List.filter].
  assert (Hm : matches (by_field "email" (VStr ADMIN_EMAIL))
                 (<["password_hash" := VStr hash]>
                    (User.model_dump
                       (User.mk admin_uuid ADMIN_EMAIL "Admin" "admin" created))) = true).
  { apply matches_by_field_str. reflexivity. }
  rewrite Hm. reflexivity.
Qed.

End SeedFacts.

(** C9 (as amended).  A second [initialize_data] changes nothing, whatever
    the state it started from and whatever either call draws.  After the
    two calls the number of accounts with the admin address is one when
    the starting state held none or one (none is added once one is there),
    and it is the starting number otherwise; categories and products are
    the stored ones when there were any and the 6 and 30 baseline records
    when there were none.  The three guards are independent of each other. *)
Theorem initialize_data_twice `{Externals} (uuid1 created1 salt1 : string)
    (cats1 prods1 : nat -> string) (uuid2 created2 salt2 : string)
    (cats2 prods2 : nat -> string) (db : DB) :
  let once := snd (initialize_data uuid1 created1 salt1 cats1 prods1 db) in
  let twice := initialize_data uuid2 created2 salt2 cats2 prods2 once in
  twice = (Return "Data initialized", once)
  /\ count_admins (snd twice) = Nat.max 1 (count_admins db)
  /\ categories (snd twice)
     = (if Nat.eqb (length (categories db)) 0
        then imap (fun k row => seed_category (cats1 k) row) category_rows
        else categories db)
  /\ products (snd twice)
     = (if Nat.eqb (length (products db)) 0
        then imap (fun k row => seed_product (prods1 k) row) product_rows
        else products db)
  /\ length (categories (snd twice))
     = (if Nat.eqb (length (categories db)) 0 then 6 else length (categories db))%nat
  /\ length (products (snd twice))
     = (if Nat.eqb (length (products db)) 0 then 30 else length (products db))%nat
  /\ carts (snd twice) = carts db /\ orders (snd twice) = orders db
  /\ site_settings (snd twice) = site_settings db.
Proof.
  intros once twice.
  assert (Hadm : count_admins once = Nat.max 1 (count_admins db)).
  { subst once. rewrite initialize_data_eval. unfold count_admins. cbn [snd users].
    destruct (Nat.eqb (count_documents _ (users db)) 0) eqn:E.
    - apply Nat.eqb_eq in E. rewrite count_app, admin_doc_counts, E. reflexivity.
    - apply Nat.eqb_neq in E. lia. }
  assert (Hcat : categories once
                 = (if Nat.eqb (length (categories db)) 0
                    then imap (fun k row => seed_category (cats1 k) row) category_rows
                    else categories db)).
  { subst once. rewrite initialize_data_eval. cbn [snd categories].
    destruct (Nat.eqb (length (categories db)) 0) eqn:E; [|reflexivity].
    apply Nat.eqb_eq in E. destruct (categories db); [reflexivity | discriminate]. }
  assert (Hprod : products once
                  = (if Nat.eqb (length (products db)) 0
                     then imap (fun k row => seed_product (prods1 k) row) product_rows
                     else products db)).
  { subst once. rewrite initialize_data_eval. cbn [snd products].
    destruct (Nat.eqb (length (products db)) 0) eqn:E; [|reflexivity].
    apply Nat.eqb_eq in E. destruct (products db); [reflexivity | discriminate]. }
  assert (Hlc : length (categories once)
                = (if Nat.eqb (length (categories db)) 0 then 6
                   else length (categories db))%nat).
  { rewrite Hcat. destruct (Nat.eqb (length (categories db)) 0); [|reflexivity].
    rewrite length_imap. reflexivity. }
  assert (Hlp : length (products once)
                = (if Nat.eqb (length (products db)) 0 then 30
                   else length (products db))%nat).
  { rewrite Hprod. destruct (Nat.eqb (length (products db)) 0); [|reflexivity].
    rewrite length_imap. reflexivity. }
  assert (Hrest : carts once = carts db /\ orders once = orders db
                  /\ site_settings once = site_settings db).
  { subst once. rewrite initialize_data_eval. repeat split. }
  assert (Htw : twice = (Return "Data initialized", once)).
  { subst twice. rewrite initialize_data_eval.
    replace (Nat.eqb (count_admins once) 0) with false
      by (symmetry; apply Nat.eqb_neq; lia).
    replace (Nat.eqb (length (categories once)) 0) with false.
    2:{ symmetry. apply Nat.eqb_neq. rewrite Hlc.
        destruct (Nat.eqb (length (categories db)) 0) eqn:E; [lia|].
        apply Nat.eqb_neq in E. exact E. }
    replace (Nat.eqb (length (products once)) 0) with false.
    2:{ symmetry. apply Nat.eqb_neq. rewrite Hlp.
        destruct (Nat.eqb (length (products db)) 0) eqn:E; [lia|].
        apply Nat.eqb_neq in E. exact E. }
    destruct once; reflexivity. }
  rewrite Htw. cbn [snd]. tauto.
Qed.

(** The amended C9 from the empty database: after two calls there are one
    admin account, 6 categories and 30 products, as after one call. *)
Lemma initialize_data_twice_witness :
  let once :=
    snd (initialize_data (H := sample_externals) "i1" "t1" "s1"
           (fun _ => "c") (fun _ => "p") empty_db) in
  let twice :=
    initialize_data (H := sample_externals) "i2" "t2" "s2"
      (fun _ => "c") (fun _ => "p") once in
  twice = (Return "Data initialized", once)
  /\ count_admins (snd twice) = 1%nat
  /\ length (categories (snd twice)) = 6%nat
  /\ length (products (snd twice)) = 30%nat.
Proof.
  intros once twice.
  destruct (initialize_data_twice (H := sample_externals) "i1" "t1" "s1"
              (fun _ => "c") (fun _ => "p") "i2" "t2" "s2"
              (fun _ => "c") (fun _ => "p") empty_db)
    as (H1 & H2 & _ & _ & H5 & H6 & _).
  split; [exact H1|]. split; [exact H2|]. split; [exact H5 | exact H6].
Defined.

(** C9 as stated fails: from a state in which two accounts already carry
    the admin address, two calls end with two such accounts, not one. *)
Lemma initialize_data_keeps_two_admins :
  count_admins
    (snd (initialize_data (H := sample_externals) "i2" "t2" "s2" (fun _ => "c") (fun _ => "p")
            (snd (initialize_data (H := sample_externals) "i1" "t1" "s1"
                    (fun _ => "c") (fun _ => "p") two_admins_db))))
  = 2%nat
  /\ count_admins two_admins_db = 2%nat.
Proof. split; vm_compute; reflexivity. Qed.

(** ** Token service *)

Section TokenFacts.
Context `{Externals}.

Lemma token_payload_exp (issued : Z) (user_id email role : string) :
  token_payload issued user_id email role !! "exp"
  = Some (VInt (issued / 1000000 + seven_days)).
Proof. reflexivity. Qed.

Lemma decode_created_token (issued now : Z) (user_id email role : string) :
  segment_decode (segment_encode jwt_header) = Some jwt_header ->
  segment_decode (segment_encode (token_payload issued user_id email role))
  = Some (token_payload issued user_id email role) ->
  jwt_decode (create_token issued user_id email role) JWT_SECRET now
  = if (issued / 1000000 + seven_days) * 1000000 <=? now
    then inl ExpiredSignatureError
    else inr (token_payload issued user_id email role).
Proof.
  intros Hh Hp. unfold create_token, jwt_encode, jwt_decode.
  rewrite Hh, Hp.
  change (jwt_header !! "alg") with (Some (VStr JWT_ALGORITHM)).
  cbn [default value_eqb]. rewrite !String.eqb_refl. cbn [negb].
  rewrite token_payload_exp. reflexivity.
Qed.

End TokenFacts.

(** C1.  For every payload (user_id, email, role) and every issuing time,
    given that the segment coding decodes what it encoded for the header
    and for this payload: the token of [create_token] is accepted by
    [get_current_user] at every time before the embedded expiry (issuing
    time in whole seconds plus 7 days) and yields the same user_id, email
    and role; at every time after the expiry it is refused with 401
    "Token expired". *)
Theorem token_verifies_until_expiry `{Externals} (issued now : Z)
    (user_id email role : string) :
  let payload := token_payload issued user_id email role in
  let exp := issued / 1000000 + 7 * 24 * 3600 in
  segment_decode (segment_encode jwt_header) = Some jwt_header ->
  segment_decode (segment_encode payload) = Some payload ->
  (now < exp * 1000000 ->
   get_current_user (create_token issued user_id email role) now = Return payload
   /\ payload !! "user_id" = Some (VStr user_id)
   /\ payload !! "email" = Some (VStr email)
   /\ payload !! "role" = Some (VStr role)
   /\ payload !! "exp" = Some (VInt exp))
  /\ (exp * 1000000 < now ->
      get_current_user (create_token issued user_id email role) now
      = HTTPException 401 "Token expired").
Proof.
  intros payload exp Hh Hp. subst payload exp.
  unfold get_current_user.
  rewrite (decode_created_token issued now user_id email role Hh Hp).
  change seven_days with (7 * 24 * 3600).
  split.
  - intros Hlt. destruct (Z.leb_spec ((issued / 1000000 + 7 * 24 * 3600) * 1000000) now);
      [lia|]. repeat split.
  - intros Hgt. destruct (Z.leb_spec ((issued / 1000000 + 7 * 24 * 3600) * 1000000) now);
      [reflexivity | lia].
Qed.

(** C1 at concrete times: one hour after issue the token yields the
    payload, eight days after issue it is expired. *)
Lemma token_verifies_until_expiry_witness :
  get_current_user (H := sample_externals)
    (create_token (H := sample_externals) sample_issued "ann" "ann@shop.com" "user")
    (sample_issued + 3600 * 1000000)
  = Return sample_payload
  /\ get_current_user (H := sample_externals)
       (create_token (H := sample_externals) sample_issued "ann" "ann@shop.com" "user")
       (sample_issued + 8 * 24 * 3600 * 1000000)
     = HTTPException 401 "Token expired".
Proof.
  split.
  - apply (proj1 (token_verifies_until_expiry (H := sample_externals) sample_issued
                    (sample_issued + 3600 * 1000000) "ann" "ann@shop.com" "user"
                    eq_refl eq_refl)).
    vm_compute. reflexivity.
  - apply (proj2 (token_verifies_until_expiry (H := sample_externals) sample_issued
                    (sample_issued + 8 * 24 * 3600 * 1000000) "ann" "ann@shop.com" "user"
                    eq_refl eq_refl)).
    vm_compute. reflexivity.
Defined.

(** ** Catalog search *)

Section SearchFacts.
Context `{Externals}.

(** A pattern of literal characters matches at the head of [s] exactly
    when [s], case folded, starts with the folded pattern. *)
Lemma match_here_literal (fold : N -> N) (p s : list N) :
  match_here fold (map Lit p) s = true
  <-> exists post, map fold s = map fold p ++ post.
Proof.
  revert s. induction p as [|c p IH]; intros s; cbn [map match_here].
  - split; [intros _; exists (map fold s); reflexivity | reflexivity].
  - destruct s as [|x s]; cbn [map atom_matches].
    + split; [discriminate | intros [post Hp]; discriminate].
    + rewrite andb_true_iff, IH, N.eqb_eq. split.
      * intros [Hc [post Hp]]. exists post. cbn [app]. rewrite Hc, Hp. reflexivity.
      * intros [post Hp]. cbn [app] in Hp. injection Hp as Hc Hp.
        split; [congruence | exists post; exact Hp].
Qed.

Lemma regex_search_somewhere (fold : N -> N) (r : list atom) (s : list N) :
  regex_search fold r s = true
  <-> exists pre rest, s = pre ++ rest /\ match_here fold r rest = true.
Proof.
  induction s as [|x s IH]; cbn [regex_search].
  - rewrite orb_false_r. split.
    + intros Hm. exists [], []. split; [reflexivity | exact Hm].
    + intros (pre & rest & Hs & Hm). destruct pre; [|discriminate].
      cbn [app] in Hs. subst rest. exact Hm.
  - rewrite orb_true_iff, IH. split.
    + intros [Hm | (pre & rest & -> & Hm)].
      * exists [], (x :: s). split; [reflexivity | exact Hm].
      * exists (x :: pre), rest. split; [reflexivity | exact Hm].
    + intros (pre & rest & Hs & Hm). destruct pre as [|y pre]; cbn [app] in Hs.
      * subst rest. left. exact Hm.
      * injection Hs as _ ->. right. exists pre, rest. split; [reflexivity | exact Hm].
Qed.

Lemma map_split (fold : N -> N) (s a b : list N) :
  map fold s = a ++ b ->
  exists s1 s2, s = s1 ++ s2 /\ map fold s1 = a /\ map fold s2 = b.
Proof.
  revert s. induction a as [|c a IH]; intros s Hs.
  - exists [], s. repeat split. exact Hs.
  - destruct s as [|x s]; [discriminate|]. cbn [map app] in Hs.
    injection Hs as Hc Hrest. destruct (IH s Hrest) as (s1 & s2 & -> & H1 & H2).
    exists (x :: s1), s2. cbn [map app]. rewrite Hc, H1. repeat split. exact H2.
Qed.

Lemma regex_search_literal (p n : string) :
  regex_search casefold (map Lit (code_points p)) (code_points n) = true
  <-> contains_ci p n.
Proof.
  rewrite regex_search_somewhere. unfold contains_ci. split.
  - intros (pre & rest & Hn & Hm). apply match_here_literal in Hm as [post Hp].
    exists (map casefold pre), post. rewrite Hn, map_app, Hp. reflexivity.
  - intros (pre & post & Hl). apply map_split in Hl as (s1 & s2 & Hn & _ & H2).
    exists s1, s2. split; [exact Hn|]. apply match_here_literal.
    exists post. exact H2.
Qed.

Lemma compile_literal (c : N) : is_literal c = true -> compile_char c = Some (Lit c).
Proof.
  unfold is_literal, compile_char. intros Hl.
  apply andb_true_iff in Hl as [Hm H0].
  destruct (N.eqb_spec c 46) as [->|_]; [discriminate Hm|].
  apply negb_true_iff in Hm, H0. rewrite Hm, H0. reflexivity.
Qed.

Lemma regex_compile_literals (p : list N) :
  forallb is_literal p = true -> regex_compile p = Some (map Lit p).
Proof.
  induction p as [|c p IH]; cbn [forallb regex_compile map]; [reflexivity|].
  intros Hp. apply andb_true_iff in Hp as [Hc Hs].
  rewrite (compile_literal c Hc), (IH Hs). reflexivity.
Qed.

Lemma name_condition_plain (s : string) :
  plain_text s = true ->
  name_condition s = Some (CRegex (map Lit (code_points s)) casefold).
Proof.
  intros Hp. unfold name_condition. rewrite (regex_compile_literals _ Hp). reflexivity.
Qed.

Lemma matches_category (c : string) (d : doc) :
  cond_matches (CEq (VStr c)) (d !! "category") = true
  <-> d !! "category" = Some (VStr c).
Proof.
  pose proof (matches_by_field_str "category" c d) as Hm.
  unfold matches, by_field in Hm. cbn [forallb fst snd] in Hm.
  rewrite andb_true_r in Hm. exact Hm.
Qed.

Lemma matches_name (s : string) (d : doc) :
  cond_matches (CRegex (map Lit (code_points s)) casefold) (d !! "name") = true
  <-> exists n, d !! "name" = Some (VStr n) /\ contains_ci s n.
Proof.
  unfold cond_matches. destruct (d !! "name") as [v|].
  - destruct v; try (split; [discriminate | intros (n & [=] & _)]).
    rewrite regex_search_literal. split.
    + intros Hc. eexists; split; [reflexivity | exact Hc].
    + intros (n & [= ->] & Hc). exact Hc.
  - split; [discriminate | intros (n & [=] & _)].
Qed.

End SearchFacts.

(** C5 (as amended).  [get_products] with a search text that is absent,
    empty or free of regular-expression metacharacters (and of NUL)
    returns the first 1000, in stored order, of exactly the products
    wanted: those whose category equals the given category and whose name
    contains the given search text as a case-insensitive substring, each
    condition applying only when its argument is given (not [None], not
    empty).  Case is what the store folds, for every character. *)
Theorem get_products_plain_search `{Externals} (category search : option string)
    (db : DB) :
  (forall s, given search = Some s -> plain_text s = true) ->
  exists q,
    get_products category search db
    = (Return (take 1000 (List.filter (matches q) (products db))), db)
    /\ (forall d, matches q d = true <-> wanted category search d).
Proof.
  intros Hplain. unfold get_products, products_query, wanted.
  destruct (given search) as [s|] eqn:Es.
  - rewrite (name_condition_plain s (Hplain s eq_refl)).
    destruct (given category) as [c|] eqn:Ec.
    + eexists. split; [reflexivity|].
      intros d. unfold matches. cbn [app forallb fst snd].
      rewrite andb_true_r, andb_true_iff, matches_category, matches_name. split.
      * intros [Hc Hn]. split; [intros c' [= <-]; exact Hc | intros s' [= <-]; exact Hn].
      * intros [Hc Hn]. split; [apply Hc | apply Hn]; reflexivity.
    + eexists. split; [reflexivity|].
      intros d. unfold matches. cbn [app forallb fst snd].
      rewrite andb_true_r, matches_name. split.
      * intros Hn. split; [intros c' [=] | intros s' [= <-]; exact Hn].
      * intros [_ Hn]. apply Hn. reflexivity.
  - destruct (given category) as [c|] eqn:Ec.
    + eexists. split; [reflexivity|].
      intros d. unfold matches. cbn [forallb fst snd].
      rewrite andb_true_r, matches_category. split.
      * intros Hc. split; [intros c' [= <-]; exact Hc | intros s' [=]].
      * intros [Hc _]. apply Hc. reflexivity.
    + exists []. split; [reflexivity|].
      intros d. split; [intros _; split; intros ? [=] | reflexivity].
Qed.

(** The amended C5 at concrete calls: "electronics" and "MOUSE" on the
    one-product catalogue; and the search "k" finds the product whose
    name starts with the Kelvin sign, which the store folds to "k". *)
Lemma get_products_plain_search_witness :
  (exists q,
     get_products (H := sample_externals) (Some "electronics") (Some "MOUSE") mouse_db
     = (Return (take 1000 (List.filter (matches q) (products mouse_db))), mouse_db)
     /\ (forall d, matches q d = true
                   <-> wanted (H := sample_externals)
                         (Some "electronics") (Some "MOUSE") d))
  /\ get_products (H := sample_externals) (Some "electronics") (Some "MOUSE") mouse_db
     = (Return [mouse], mouse_db)
  /\ get_products (H := sample_externals) None (Some "k") kelvin_db
     = (Return [kelvin], kelvin_db).
Proof.
  split; [|split; vm_compute; reflexivity].
  apply (get_products_plain_search (H := sample_externals)
           (Some "electronics") (Some "MOUSE") mouse_db).
  intros s [= <-]. reflexivity.
Defined.

(** C5 as stated fails: the search text "." is handed to the store as a
    pattern, where the dot matches any character; the mouse is returned
    although its name does not contain a dot.  (The stand-ins for the
    libraries play no part: the dot is matched in the model, and the name
    is ASCII.) *)
Lemma get_products_dot_matches_everything :
  get_products (H := sample_externals) (Some "electronics") (Some ".") mouse_db
  = (Return [mouse], mouse_db)
  /\ mouse !! "name" = Some (VStr "Wireless Mouse")
  /\ ~ contains_ci (H := sample_externals) "." "Wireless Mouse"
  /\ ~ wanted (H := sample_externals) (Some "electronics") (Some ".") mouse.
Proof.
  assert (Hname : mouse !! "name" = Some (VStr "Wireless Mouse")) by reflexivity.
  assert (Hno : ~ contains_ci (H := sample_externals) "." "Wireless Mouse").
  { intros Hc. apply regex_search_literal in Hc. vm_compute in Hc. discriminate. }
  split; [vm_compute; reflexivity|].
  split; [exact Hname|]. split; [exact Hno|].
  intros [_ Hw]. destruct (Hw "." eq_refl) as (n & Hn & Hc).
  rewrite Hname in Hn. injection Hn as <-. exact (Hno Hc).
Qed.

(** ** What a caller reads back after writing its own cart *)

Section ReadBack.

Lemma find_after_update_first (q : query) (upd : doc -> doc) (coll coll' : list doc) :
  (forall d, matches q (upd d) = true) ->
  update_first q upd coll = Some coll' ->
  exists d, find_one q coll' = Some (upd d).
Proof.
  intros Hm. revert coll'. unfold find_one.
  induction coll as [|e rest IH]; intros coll'; simpl; [discriminate|].
  destruct (matches q e) eqn:He.
  - intros [= <-]. exists e. simpl. rewrite Hm. reflexivity.
  - destruct (update_first q upd rest) as [r|]; [|discriminate].
    intros [= <-]. simpl. rewrite He. apply (IH r eq_refl).
Qed.

Lemma find_after_update_one (q : query) (m : doc) (coll : list doc) :
  (forall d, matches q (m ∪ d) = true) ->
  exists d, find_one q (fst (update_one q m true coll)) = Some (m ∪ d).
Proof.
  intros Hm. unfold update_one.
  destruct (update_first q _ coll) as [coll'|] eqn:E; cbn [fst].
  - exact (find_after_update_first q _ coll coll' Hm E).
  - exists (query_seed q). rewrite update_first_spec in E.
    destruct (first_index q coll) eqn:Ei; [discriminate|].
    apply first_index_None in Ei. rewrite (find_one_app_None _ _ _ Ei).
    unfold find_one. cbn [List.find]. rewrite Hm. reflexivity.
Qed.

(** After [update_cart] with a body that names the caller, [get_cart]
    returns a document carrying the body's items and time stamp. *)
Lemma get_cart_after_update_cart (c : Cart.t) (cu : doc) (db : DB) :
  cu !! "user_id" = Some (VStr (Cart.user_id c)) ->
  exists d,
    fst (get_cart cu (snd (update_cart c cu db))) = Return d
    /\ d !! "user_id" = Some (VStr (Cart.user_id c))
    /\ d !! "items" = Some (VList (map CartItem.model_dump (Cart.items c)))
    /\ d !! "updated_at" = Some (VStr (Cart.updated_at c)).
Proof.
  intros Hu. rewrite (update_cart_eval c cu _ db Hu). cbn [snd].
  rewrite (get_cart_eval cu _ _ Hu). unfold set_carts; cbn [carts fst].
  destruct (find_after_update_one (by_field "user_id" (VStr (Cart.user_id c)))
              (Cart.model_dump c) (carts db)) as [d Hd].
  { intros e. rewrite cart_dump_matches. apply String.eqb_refl. }
  rewrite Hd. rewrite (truthy_found _ "user_id" _ (cart_dump_user_id c d)).
  exists (Cart.model_dump c ∪ d). split; [reflexivity|].
  split; [apply cart_dump_user_id|]. split; [apply cart_dump_items|].
  apply lookup_union_Some_l. reflexivity.
Qed.

(** X27.  Two requests with the same body that leaves [updated_at] out,
    parsed at two times: the cart read back carries the same items and the
    stamp of the later request. *)
Lemma update_cart_stamp_of_last_request (b : Cart.body) (cu : doc) (db : DB)
    (t1 t2 : string) :
  cu !! "user_id" = Some (VStr (Cart.body_user_id b)) ->
  Cart.body_updated_at b = None ->
  exists d,
    fst (get_cart cu (snd (update_cart (Cart.parse t2 b) cu
                             (snd (update_cart (Cart.parse t1 b) cu db))))) = Return d
    /\ d !! "items" = Some (VList (map CartItem.model_dump (Cart.body_items b)))
    /\ d !! "updated_at" = Some (VStr t2).
Proof.
  intros Hu Hnone.
  destruct (get_cart_after_update_cart (Cart.parse t2 b) cu
              (snd (update_cart (Cart.parse t1 b) cu db)) Hu)
    as (d & Hd & _ & Hi & Ht).
  exists d. split; [exact Hd|]. split; [exact Hi|].
  rewrite Ht. unfold Cart.parse. rewrite Hnone. reflexivity.
Qed.

End ReadBack.

(** ** Accounts: registration, login, identity *)

Section AccountFacts.
Context `{Externals}.

Lemma no_email_count (e : string) (coll : list doc) :
  (forall u, u ∈ coll -> u !! "email" <> Some (VStr e)) ->
  count_documents (by_field "email" (VStr e)) coll = 0%nat.
Proof.
  intros Hno. apply find_one_None_count, find_one_none_all.
  intros u Hu. destruct (matches _ u) eqn:E; [|reflexivity].
  apply matches_by_field_str in E. destruct (Hno u Hu E).
Qed.

Lemma signup_eval (uuid created salt : string) (clock : Z) (ud : UserCreate.t)
    (db : DB) :
  signup uuid created salt clock ud db
  = if Nat.eqb (count_documents (by_field "email" (VStr (UserCreate.email ud)))
                                (users db)) 0
    then (Return (create_token clock uuid (UserCreate.email ud) "user",
                  User.mk uuid (UserCreate.email ud) (UserCreate.name ud)
                          "user" created),
          set_users (insert_one (account_doc uuid created salt ud)) db)
    else (HTTPException 400 "Email already registered", db).
Proof.
  unfold signup, bind, query_db. rewrite truthy_find_one.
  destruct (Nat.eqb _ 0); reflexivity.
Qed.

Lemma account_doc_fields (uuid created salt : string) (ud : UserCreate.t) :
  let d := account_doc uuid created salt ud in
  d !! "id" = Some (VStr uuid)
  /\ d !! "email" = Some (VStr (UserCreate.email ud))
  /\ d !! "name" = Some (VStr (UserCreate.name ud))
  /\ d !! "role" = Some (VStr "user")
  /\ d !! "created_at" = Some (VStr created)
  /\ d !! "password_hash"
     = Some (VStr (hash_password salt (UserCreate.password ud))).
Proof. repeat split. Qed.

Lemma count_singleton (q : query) (d : doc) :
  count_documents q [d] = if matches q d then 1%nat else 0%nat.
Proof. unfold count_documents, find. simpl. destruct (matches q d); reflexivity. Qed.

Lemma find_one_snoc (q : query) (coll : list doc) (d : doc) :
  count_documents q coll = 0%nat -> matches q d = true ->
  find_one q (coll ++ [d]) = Some d.
Proof.
  intros Hc Hm. apply find_one_None_count in Hc.
  rewrite (find_one_app_None _ _ _ Hc). unfold find_one. simpl. rewrite Hm. reflexivity.
Qed.

End AccountFacts.

(** X1.  A signup whose email no stored user has succeeds: it appends
    exactly one account document, carrying the drawn id, the email, the
    name, role "user", the creation stamp and the hash of the password,
    leaves every other collection as it was, and returns the new user with
    a token issued for its id, email and role. *)
Theorem signup_registers_user `{Externals} (uuid created salt : string) (clock : Z)
    (ud : UserCreate.t) (db : DB) :
  (forall u, u ∈ users db -> u !! "email" <> Some (VStr (UserCreate.email ud))) ->
  let r := signup uuid created salt clock ud db in
  fst r = Return (create_token clock uuid (UserCreate.email ud) "user",
                  User.mk uuid (UserCreate.email ud) (UserCreate.name ud)
                          "user" created)
  /\ (exists d,
        users (snd r) = users db ++ [d]
        /\ d !! "id" = Some (VStr uuid)
        /\ d !! "email" = Some (VStr (UserCreate.email ud))
        /\ d !! "name" = Some (VStr (UserCreate.name ud))
        /\ d !! "role" = Some (VStr "user")
        /\ d !! "created_at" = Some (VStr created)
        /\ d !! "password_hash"
           = Some (VStr (hash_password salt (UserCreate.password ud))))
  /\ products (snd r) = products db /\ categories (snd r) = categories db
  /\ carts (snd r) = carts db /\ orders (snd r) = orders db
  /\ site_settings (snd r) = site_settings db.
Proof.
  intros Hno r. subst r. rewrite signup_eval, (no_email_count _ _ Hno).
  cbn [Nat.eqb fst snd]. split; [reflexivity|]. split.
  - exists (account_doc uuid created salt ud). split; [reflexivity|].
    apply account_doc_fields.
  - repeat split.
Qed.

Lemma signup_registers_user_witness :
  (forall u, u ∈ users one_user_db -> u !! "email" <> Some (VStr "bob@shop.com"))
  /\ length (users (snd (signup (H := sample_externals) "u2" "t5" "salt" sample_issued
                           (UserCreate.mk "bob@shop.com" "pw" "Bob") one_user_db)))
     = 2%nat.
Proof.
  assert (Hno : forall u, u ∈ users one_user_db
                          -> u !! "email" <> Some (VStr "bob@shop.com")).
  { intros u Hu. apply list_elem_of_singleton in Hu. subst u. vm_compute. discriminate. }
  split; [exact Hno|].
  destruct (signup_registers_user (H := sample_externals) "u2" "t5" "salt" sample_issued
              (UserCreate.mk "bob@shop.com" "pw" "Bob") one_user_db Hno)
    as (_ & (d & Hd & _) & _).
  rewrite Hd. reflexivity.
Defined.

(** X2.  [signup] keeps addresses unique: if every address belongs to at
    most one stored account before the call, it does so after it, whether
    the call registers the user or refuses. *)
Theorem signup_keeps_emails_unique `{Externals} (uuid created salt : string)
    (clock : Z) (ud : UserCreate.t) (db : DB) :
  emails_unique db ->
  emails_unique (snd (signup uuid created salt clock ud db)).
Proof.
  intros Hu e. rewrite signup_eval.
  destruct (Nat.eqb _ 0) eqn:E; cbn [snd]; [|apply Hu].
  apply Nat.eqb_eq in E. unfold set_users, insert_one; cbn [users].
  rewrite count_app, count_singleton.
  destruct (matches (by_field "email" (VStr e)) (account_doc uuid created salt ud))
    eqn:Em.
  - apply matches_by_field_str in Em.
    destruct (account_doc_fields uuid created salt ud) as (_ & He & _).
    cbv zeta in He. rewrite He in Em. injection Em as <-. rewrite E. lia.
  - specialize (Hu e). lia.
Qed.

Lemma signup_keeps_emails_unique_witness :
  emails_unique one_user_db
  /\ emails_unique (snd (signup (H := sample_externals) "u2" "t5" "salt" sample_issued
                           (UserCreate.mk "bob@shop.com" "pw" "Bob") one_user_db)).
Proof.
  assert (Hu : emails_unique one_user_db).
  { intros e. unfold one_user_db, set_users, insert_one. cbn [users empty_db app].
    rewrite count_singleton. destruct (matches _ _); lia. }
  split; [exact Hu|].
  exact (signup_keeps_emails_unique (H := sample_externals) "u2" "t5" "salt"
           sample_issued (UserCreate.mk "bob@shop.com" "pw" "Bob") one_user_db Hu).
Defined.

(** X3.  Signup then login: after a signup that registered the user, a
    login with the same email and password succeeds whenever the password
    verifies against the hash made of it, and returns the registered user
    (same id, email, name, role, creation stamp) with a token for that id,
    email and role; the login writes nothing. *)
Theorem signup_then_login `{Externals} (uuid created salt : string) (clock : Z)
    (ud : UserCreate.t) (uuid' created' : string) (clock' : Z) (db : DB) :
  (forall u, u ∈ users db -> u !! "email" <> Some (VStr (UserCreate.email ud))) ->
  verify_password (UserCreate.password ud)
                  (hash_password salt (UserCreate.password ud)) = Some true ->
  let db' := snd (signup uuid created salt clock ud db) in
  login uuid' created' clock'
        (UserLogin.mk (UserCreate.email ud) (UserCreate.password ud)) db'
  = (Return (create_token clock' uuid (UserCreate.email ud) "user",
             User.mk uuid (UserCreate.email ud) (UserCreate.name ud) "user" created),
     db').
Proof.
  intros Hno Hv db'. subst db'.
  rewrite signup_eval, (no_email_count _ _ Hno). cbn [Nat.eqb snd].
  rewrite (login_eval_found uuid' created' clock' _ _ (account_doc uuid created salt ud)).
  - destruct (account_doc_fields uuid created salt ud) as (_ & _ & _ & _ & _ & Hh).
    cbv zeta in Hh. rewrite Hh. cbn [UserLogin.password]. rewrite Hv. reflexivity.
  - unfold set_users, insert_one; cbn [users UserLogin.email].
    apply find_one_snoc; [apply no_email_count, Hno|].
    apply matches_by_field_str. reflexivity.
Qed.

Lemma signup_then_login_witness :
  login (H := sample_externals) "x" "t6" 0 (UserLogin.mk "bob@shop.com" "pw")
    (snd (signup (H := sample_externals) "u2" "t5" "salt" sample_issued
            (UserCreate.mk "bob@shop.com" "pw" "Bob") one_user_db))
  = (Return (create_token (H := sample_externals) 0 "u2" "bob@shop.com" "user",
             User.mk "u2" "bob@shop.com" "Bob" "user" "t5"),
     snd (signup (H := sample_externals) "u2" "t5" "salt" sample_issued
            (UserCreate.mk "bob@shop.com" "pw" "Bob") one_user_db)).
Proof.
  apply (signup_then_login (H := sample_externals) "u2" "t5" "salt" sample_issued
           (UserCreate.mk "bob@shop.com" "pw" "Bob") "x" "t6" 0 one_user_db).
  - intros u Hu. apply list_elem_of_singleton in Hu. subst u. vm_compute. discriminate.
  - reflexivity.
Defined.

Section IdentityFacts.
Context `{Externals}.

Lemma no_field_count (k s : string) (coll : list doc) :
  (forall u, u ∈ coll -> u !! k <> Some (VStr s)) ->
  count_documents (by_field k (VStr s)) coll = 0%nat.
Proof.
  intros Hno. apply find_one_None_count, find_one_none_all.
  intros u Hu. destruct (matches _ u) eqn:E; [|reflexivity].
  apply matches_by_field_str in E. destruct (Hno u Hu E).
Qed.

Lemma get_me_eval (uuid created : string) (cu : doc) (v : value) (db : DB) :
  cu !! "user_id" = Some v ->
  get_me uuid created cu db
  = match find_one (by_field "id" v) (users db) with
    | Some d =>
        if truthy (Some d)
        then (match User.validate uuid created d with
              | Return u => Return u
              | HTTPException s m => HTTPException s m
              | Uncaught e => Uncaught e
              end, db)
        else (HTTPException 404 "User not found", db)
    | None => (HTTPException 404 "User not found", db)
    end.
Proof.
  intros Hu. unfold get_me, bind, lift, subscript, query_db. rewrite Hu.
  destruct (find_one _ _) as [d|]; [|reflexivity].
  destruct (truthy (Some d)); [|reflexivity].
  destruct (User.validate uuid created d); reflexivity.
Qed.

End IdentityFacts.

(** X4.  From signup to [get_me]: the token a successful signup returns is
    accepted by [get_current_user] at every time before its expiry (given
    that the segment coding decodes what it encoded for the header and for
    this payload), and [get_me] called with the identity it yields returns
    the user just registered, provided no earlier account had the drawn id.
    [get_me] writes nothing. *)
Theorem signup_token_reaches_get_me `{Externals} (uuid created salt : string)
    (clock now : Z) (ud : UserCreate.t) (uuid' created' : string) (db : DB) :
  let identity := token_payload clock uuid (UserCreate.email ud) "user" in
  let user :=
    User.mk uuid (UserCreate.email ud) (UserCreate.name ud) "user" created in
  segment_decode (segment_encode jwt_header) = Some jwt_header ->
  segment_decode (segment_encode identity) = Some identity ->
  (forall u, u ∈ users db -> u !! "email" <> Some (VStr (UserCreate.email ud))) ->
  (forall u, u ∈ users db -> u !! "id" <> Some (VStr uuid)) ->
  now < (clock / 1000000 + seven_days) * 1000000 ->
  let r := signup uuid created salt clock ud db in
  exists tok,
    fst r = Return (tok, user)
    /\ get_current_user tok now = Return identity
    /\ get_me uuid' created' identity (snd r) = (Return user, snd r).
Proof.
  intros identity user Hh Hp Hno Hid Hnow r. subst r identity user.
  rewrite signup_eval, (no_email_count _ _ Hno). cbn [Nat.eqb fst snd].
  eexists. split; [reflexivity|]. split.
  - unfold get_current_user. rewrite (decode_created_token _ now _ _ _ Hh Hp).
    destruct (Z.leb_spec ((clock / 1000000 + seven_days) * 1000000) now);
      [lia | reflexivity].
  - rewrite (get_me_eval uuid' created' _ (VStr uuid)); [|reflexivity].
    unfold set_users, insert_one; cbn [users].
    rewrite (find_one_snoc _ _ (account_doc uuid created salt ud));
      [reflexivity | apply no_field_count, Hid | apply matches_by_field_str; reflexivity].
Qed.

Lemma signup_token_reaches_get_me_witness :
  exists tok,
    fst (signup (H := sample_externals) "ann" "t5" "salt" sample_issued
           (UserCreate.mk "ann@shop.com" "pw" "Ann") empty_db)
    = Return (tok, User.mk "ann" "ann@shop.com" "Ann" "user" "t5")
    /\ get_current_user (H := sample_externals) tok (sample_issued + 1)
       = Return sample_payload
    /\ get_me "x" "t6" sample_payload
         (snd (signup (H := sample_externals) "ann" "t5" "salt" sample_issued
                 (UserCreate.mk "ann@shop.com" "pw" "Ann") empty_db))
       = (Return (User.mk "ann" "ann@shop.com" "Ann" "user" "t5"),
          snd (signup (H := sample_externals) "ann" "t5" "salt" sample_issued
                 (UserCreate.mk "ann@shop.com" "pw" "Ann") empty_db)).
Proof.
  apply (signup_token_reaches_get_me (H := sample_externals) "ann" "t5" "salt"
           sample_issued (sample_issued + 1) (UserCreate.mk "ann@shop.com" "pw" "Ann")
           "x" "t6" empty_db eq_refl eq_refl).
  - intros u Hu. inversion Hu.
  - intros u Hu. inversion Hu.
  - vm_compute. reflexivity.
Defined.

(** X5.  [get_me] answers 404 "User not found" when no stored account has
    the identity's user id, and leaves the database as it was. *)
Theorem get_me_unknown_user (uuid created : string) (cu : doc) (uid : string)
    (db : DB) :
  cu !! "user_id" = Some (VStr uid) ->
  (forall u, u ∈ users db -> u !! "id" <> Some (VStr uid)) ->
  get_me uuid created cu db = (HTTPException 404 "User not found", db).
Proof.
  intros Hu Hno. rewrite (get_me_eval uuid created cu _ db Hu).
  apply (no_field_count "id") in Hno. apply find_one_None_count in Hno.
  rewrite Hno. reflexivity.
Qed.

Lemma get_me_unknown_user_witness :
  get_me "x" "t" bob one_user_db = (HTTPException 404 "User not found", one_user_db).
Proof.
  apply (get_me_unknown_user "x" "t" bob "bob" one_user_db); [reflexivity|].
  intros u Hu. apply list_elem_of_singleton in Hu. subst u. vm_compute. discriminate.
Defined.

(** X6.  An identity without a [user_id] key: [get_me], [get_cart],
    [update_cart], [create_order] and [get_orders] all end in an uncaught
    [KeyError], and none of them writes anything. *)
Theorem missing_user_id_writes_nothing (uuid created : string) (c : Cart.t)
    (od : OrderCreate.t) (cu : doc) (db : DB) :
  cu !! "user_id" = None ->
  get_me uuid created cu db = (Uncaught "KeyError", db)
  /\ get_cart cu db = (Uncaught "KeyError", db)
  /\ update_cart c cu db = (Uncaught "KeyError", db)
  /\ create_order uuid created od cu db = (Uncaught "KeyError", db)
  /\ get_orders cu db = (Uncaught "KeyError", db).
Proof.
  intros Hu.
  unfold get_me, get_cart, update_cart, create_order, get_orders, bind, lift, subscript.
  rewrite Hu. repeat split.
Qed.

Lemma missing_user_id_writes_nothing_witness :
  create_order "o" "t" sample_order ∅ two_carts_for_ann
  = (Uncaught "KeyError", two_carts_for_ann).
Proof.
  apply (missing_user_id_writes_nothing "o" "t" cart_for_cy sample_order ∅
           two_carts_for_ann).
  reflexivity.
Defined.

(** X7.  Seeding then logging in as the administrator: after
    [initialize_data] on a database without an account under the admin
    address, a login with that address and the fixed password "admin123"
    succeeds whenever that password verifies against the hash made of it,
    and returns the seeded account, whose role is "admin", with a token
    issued for that role. *)
Theorem initialize_data_then_admin_login `{Externals} (admin_uuid created salt : string)
    (cats prods : nat -> string) (uuid' created' : string) (clock' : Z) (db : DB) :
  count_admins db = 0%nat ->
  verify_password "admin123" (hash_password salt "admin123") = Some true ->
  let db' := snd (initialize_data admin_uuid created salt cats prods db) in
  login uuid' created' clock' (UserLogin.mk ADMIN_EMAIL "admin123") db'
  = (Return (create_token clock' admin_uuid ADMIN_EMAIL "admin",
             User.mk admin_uuid ADMIN_EMAIL "Admin" "admin" created), db').
Proof.
  intros Hc Hv db'. subst db'. rewrite initialize_data_eval, Hc. cbn [Nat.eqb snd].
  erewrite login_eval_found.
  2:{ cbn [users UserLogin.email]. apply find_one_snoc; [exact Hc|].
      apply matches_by_field_str. reflexivity. }
  change ((<["password_hash" := VStr (hash_password salt "admin123")]>
             (User.model_dump (User.mk admin_uuid ADMIN_EMAIL "Admin" "admin" created)))
            !! "password_hash")
    with (Some (VStr (hash_password salt "admin123"))).
  cbn [UserLogin.password]. rewrite Hv. reflexivity.
Qed.

Lemma initialize_data_then_admin_login_witness :
  fst (login (H := sample_externals) "x" "t6" 0 (UserLogin.mk ADMIN_EMAIL "admin123")
         (snd (initialize_data (H := sample_externals) "a1" "t1" "salt"
                 (fun _ => "c") (fun _ => "p") one_user_db)))
  = Return (create_token (H := sample_externals) 0 "a1" ADMIN_EMAIL "admin",
            User.mk "a1" ADMIN_EMAIL "Admin" "admin" "t1").
Proof.
  rewrite (initialize_data_then_admin_login (H := sample_externals) "a1" "t1" "salt"
             (fun _ => "c") (fun _ => "p") "x" "t6" 0 one_user_db).
  - reflexivity.
  - vm_compute. reflexivity.
  - reflexivity.
Defined.

(** ** Tokens: lifetime *)

(** X8.  Measured from the issuing clock: a token of [create_token] is
    accepted at every time up to 7 days minus one second after it was
    issued (in particular at once), and is refused as expired from 7 days
    after it was issued; the whole seconds of the expiry cost at most one
    second.  Assumes the segment coding decodes what it encoded for the
    header and for this payload. *)
Theorem token_lifetime `{Externals} (issued now : Z) (user_id email role : string) :
  let payload := token_payload issued user_id email role in
  segment_decode (segment_encode jwt_header) = Some jwt_header ->
  segment_decode (segment_encode payload) = Some payload ->
  (now <= issued + (7 * 24 * 3600 - 1) * 1000000 ->
   get_current_user (create_token issued user_id email role) now = Return payload)
  /\ (issued + 7 * 24 * 3600 * 1000000 <= now ->
      get_current_user (create_token issued user_id email role) now
      = HTTPException 401 "Token expired").
Proof.
  intros payload Hh Hp. subst payload. unfold get_current_user.
  rewrite (decode_created_token issued now user_id email role Hh Hp).
  change seven_days with (7 * 24 * 3600).
  pose proof (Z.mul_div_le issued 1000000 ltac:(lia)) as Hle.
  pose proof (Z.mul_succ_div_gt issued 1000000 ltac:(lia)) as Hgt.
  split; intros Hn;
    destruct (Z.leb_spec ((issued / 1000000 + 7 * 24 * 3600) * 1000000) now);
    try reflexivity; lia.
Qed.

Lemma token_lifetime_witness :
  get_current_user (H := sample_externals)
    (create_token (H := sample_externals) sample_issued "ann" "ann@shop.com" "user")
    sample_issued
  = Return sample_payload.
Proof.
  apply (proj1 (token_lifetime (H := sample_externals) sample_issued sample_issued
                  "ann" "ann@shop.com" "user" eq_refl eq_refl)).
  vm_compute. discriminate.
Defined.

(** ** Catalog: products and categories *)

Section CatalogFacts.

Lemma get_product_eval (product_id : string) (db : DB) :
  get_product product_id db
  = match find_one (by_field "id" (VStr product_id)) (products db) with
    | Some d => (Return d, db)
    | None => (HTTPException 404 "Product not found", db)
    end.
Proof.
  unfold get_product, bind, query_db.
  destruct (find_one _ _) as [d|] eqn:E; [|reflexivity].
  destruct (find_one_matches _ _ _ E) as [_ Hm]. apply matches_by_field_str in Hm.
  rewrite (truthy_found d "id" _ Hm). reflexivity.
Qed.

Lemma update_one_eval (q : query) (m : doc) (coll : list doc) :
  update_one q m false coll
  = match first_index q coll with
    | Some i => (alter (fun d => m ∪ d) i coll, 1%nat)
    | None => (coll, 0%nat)
    end.
Proof.
  unfold update_one. rewrite update_first_spec.
  destruct (first_index q coll); reflexivity.
Qed.

Lemma delete_one_eval (q : query) (coll : list doc) :
  delete_one q coll
  = match first_index q coll with
    | Some i => (delete i coll, 1%nat)
    | None => (coll, 0%nat)
    end.
Proof.
  unfold delete_one. rewrite delete_first_spec.
  destruct (first_index q coll); reflexivity.
Qed.

Lemma no_match_first_index (k s : string) (coll : list doc) :
  (forall d, d ∈ coll -> d !! k <> Some (VStr s)) ->
  first_index (by_field k (VStr s)) coll = None.
Proof.
  intros Hno. apply first_index_None_all. intros d Hd.
  destruct (matches _ d) eqn:E; [|reflexivity].
  apply matches_by_field_str in E. destruct (Hno d Hd E).
Qed.

(** The first match is still the first match once it has been rewritten
    into a document that matches. *)
Lemma find_one_alter (q : query) (upd : doc -> doc) (coll : list doc) (i : nat)
    (d : doc) :
  first_index q coll = Some i -> coll !! i = Some d ->
  matches q (upd d) = true ->
  find_one q (alter upd i coll) = Some (upd d).
Proof.
  revert i. unfold find_one. induction coll as [|e rest IH]; intros i; simpl;
    [discriminate|].
  destruct (matches q e) eqn:He.
  - intros [= <-] [= ->] Hm. simpl. rewrite Hm. reflexivity.
  - destruct (first_index q rest) as [j|]; [|discriminate].
    intros [= <-] Hd Hm. simpl. rewrite He. apply (IH j eq_refl Hd Hm).
Qed.

Lemma product_set_keeps (pd : ProductCreate.t) (d : doc) (k : string) :
  ProductCreate.model_dump pd !! k = None ->
  (ProductCreate.model_dump pd ∪ d) !! k = d !! k.
Proof. apply lookup_union_r. Qed.

Lemma product_set_takes (pd : ProductCreate.t) (d : doc) (k : string) (v : value) :
  ProductCreate.model_dump pd !! k = Some v ->
  (ProductCreate.model_dump pd ∪ d) !! k = Some v.
Proof. apply lookup_union_Some_l. Qed.

Lemma validate_updated_product (uuid created : string) (pd : ProductCreate.t)
    (d : doc) (pid : string) :
  d !! "id" = Some (VStr pid) ->
  Product.validate uuid created (ProductCreate.model_dump pd ∪ d)
  = match d !! "created_at" with
    | None =>
        Return (Product.mk pid (ProductCreate.name pd) (ProductCreate.description pd)
                  (ProductCreate.price pd) (ProductCreate.category pd)
                  (ProductCreate.image pd) (ProductCreate.stock pd)
                  (ProductCreate.featured pd) created)
    | Some (VStr c) =>
        Return (Product.mk pid (ProductCreate.name pd) (ProductCreate.description pd)
                  (ProductCreate.price pd) (ProductCreate.category pd)
                  (ProductCreate.image pd) (ProductCreate.stock pd)
                  (ProductCreate.featured pd) c)
    | Some _ => Uncaught "ValidationError"
    end.
Proof.
  intros Hid. unfold Product.validate, read_str, read_float, read_int, read_bool.
  rewrite (product_set_keeps pd d "id" eq_refl), Hid.
  rewrite (product_set_keeps pd d "created_at" eq_refl).
  rewrite (product_set_takes pd d "name" _ eq_refl).
  rewrite (product_set_takes pd d "description" _ eq_refl).
  rewrite (product_set_takes pd d "price" _ eq_refl).
  rewrite (product_set_takes pd d "category" _ eq_refl).
  rewrite (product_set_takes pd d "image" _ eq_refl).
  rewrite (product_set_takes pd d "stock" _ eq_refl).
  rewrite (product_set_takes pd d "featured" _ eq_refl).
  destruct (d !! "created_at") as [[]|]; reflexivity.
Qed.

End CatalogFacts.

(** X10.  Create then read: [create_product] called by an admin appends
    one product document made of the submitted fields, the drawn id and
    the creation stamp; when no stored product had that id, [get_product]
    with the id then returns exactly that document. *)
Theorem create_product_then_get_product (uuid created : string)
    (pd : ProductCreate.t) (admin : doc) (db : DB) :
  admin !! "role" = Some (VStr "admin") ->
  (forall d, d ∈ products db -> d !! "id" <> Some (VStr uuid)) ->
  let product :=
    Product.mk uuid (ProductCreate.name pd) (ProductCreate.description pd)
      (ProductCreate.price pd) (ProductCreate.category pd) (ProductCreate.image pd)
      (ProductCreate.stock pd) (ProductCreate.featured pd) created in
  let r := create_product uuid created pd admin db in
  fst r = Return product
  /\ products (snd r) = products db ++ [Product.model_dump product]
  /\ get_product uuid (snd r) = (Return (Product.model_dump product), snd r).
Proof.
  intros Hr Hno product r. subst r. apply is_admin_role in Hr.
  assert (He : create_product uuid created pd admin db
               = (Return product,
                  set_products (insert_one (Product.model_dump product)) db)).
  { unfold create_product. rewrite (admin_route_admin _ admin db Hr). reflexivity. }
  rewrite He. cbn [fst snd].
  split; [reflexivity|]. split; [reflexivity|].
  rewrite get_product_eval. unfold set_products, insert_one. cbn [products].
  rewrite (find_one_snoc _ _ (Product.model_dump product));
    [reflexivity | apply no_field_count, Hno |].
  apply matches_by_field_str. reflexivity.
Qed.

Lemma create_product_then_get_product_witness :
  get_product "p9"
    (snd (create_product "p9" "t1"
            (ProductCreate.mk "Widget" "A widget" 9.99%Q "misc" "w.png" 100 false)
            root mouse_db))
  = (Return (Product.model_dump
               (Product.mk "p9" "Widget" "A widget" 9.99%Q "misc" "w.png" 100 false "t1")),
     snd (create_product "p9" "t1"
            (ProductCreate.mk "Widget" "A widget" 9.99%Q "misc" "w.png" 100 false)
            root mouse_db)).
Proof.
  apply (create_product_then_get_product "p9" "t1"
           (ProductCreate.mk "Widget" "A widget" 9.99%Q "misc" "w.png" 100 false)
           root mouse_db).
  - reflexivity.
  - intros d Hd. apply list_elem_of_singleton in Hd. subst d. vm_compute. discriminate.
Defined.

(** X11.  [update_product] called by an admin.  When no stored product has
    the id it answers 404 "Product not found" and changes nothing.
    Otherwise it overwrites the seven submitted fields of the first
    product with that id and keeps every other key of it, its id and
    creation stamp among them; every other product and collection is as
    before; and the product returned carries the kept id, the submitted
    fields, and the stored creation stamp (a fresh one when the stored
    document has none, as the seeded products). *)
Theorem update_product_keeps_identity (uuid created : string) (product_id : string)
    (pd : ProductCreate.t) (admin : doc) (db : DB) :
  admin !! "role" = Some (VStr "admin") ->
  let r := update_product uuid created product_id pd admin db in
  match first_index (by_field "id" (VStr product_id)) (products db) with
  | None => r = (HTTPException 404 "Product not found", db)
  | Some i =>
      exists d,
        products db !! i = Some d /\ d !! "id" = Some (VStr product_id)
        /\ snd r = set_products
                     (fun _ => alter (fun e => ProductCreate.model_dump pd ∪ e) i
                                     (products db)) db
        /\ (forall k, ProductCreate.model_dump pd !! k = None ->
              (ProductCreate.model_dump pd ∪ d) !! k = d !! k)
        /\ (forall j, j <> i -> products (snd r) !! j = products db !! j)
        /\ length (products (snd r)) = length (products db)
        /\ fst r
           = match d !! "created_at" with
             | None =>
                 Return (Product.mk product_id (ProductCreate.name pd)
                           (ProductCreate.description pd) (ProductCreate.price pd)
                           (ProductCreate.category pd) (ProductCreate.image pd)
                           (ProductCreate.stock pd) (ProductCreate.featured pd) created)
             | Some (VStr c) =>
                 Return (Product.mk product_id (ProductCreate.name pd)
                           (ProductCreate.description pd) (ProductCreate.price pd)
                           (ProductCreate.category pd) (ProductCreate.image pd)
                           (ProductCreate.stock pd) (ProductCreate.featured pd) c)
             | Some _ => Uncaught "ValidationError"
             end
  end.
Proof.
  intros Hr r. subst r. apply is_admin_role in Hr.
  unfold update_product. rewrite (admin_route_admin _ admin db Hr).
  unfold bind, on_collection. rewrite update_one_eval.
  destruct (first_index _ (products db)) as [i|] eqn:Ei; cbn [fst snd Nat.eqb].
  - destruct (first_index_Some _ _ _ Ei) as (d & Hd & Hm & _).
    apply matches_by_field_str in Hm.
    exists d. split; [exact Hd|]. split; [exact Hm|].
    assert (Hid : (ProductCreate.model_dump pd ∪ d) !! "id" = Some (VStr product_id))
      by (rewrite (product_set_keeps pd d "id" eq_refl); exact Hm).
    unfold query_db, set_products; cbn [products].
    rewrite (find_one_alter _ _ _ i d Ei Hd)
      by (apply matches_by_field_str; exact Hid).
    unfold lift. rewrite (validate_updated_product uuid created pd d product_id Hm).
    split; [destruct (d !! "created_at") as [[]|]; reflexivity|].
    split; [intros k Hk; apply product_set_keeps, Hk|].
    split.
    { intros j Hj. destruct (d !! "created_at") as [[]|]; cbn [snd products];
        apply list_lookup_alter_ne; congruence. }
    split.
    { destruct (d !! "created_at") as [[]|]; cbn [snd products]; apply length_alter. }
    destruct (d !! "created_at") as [[]|]; reflexivity.
  - unfold raise. destruct db; reflexivity.
Qed.

Lemma update_product_keeps_identity_witness :
  fst (update_product "x" "t9" "p5"
         (ProductCreate.mk "Mouse 2" "Better" 19.99%Q "electronics" "m.png" 5 true)
         root mouse_db)
  = Return (Product.mk "p5" "Mouse 2" "Better" 19.99%Q "electronics" "m.png" 5 true "t9").
Proof.
  pose proof (update_product_keeps_identity "x" "t9" "p5"
                (ProductCreate.mk "Mouse 2" "Better" 19.99%Q "electronics" "m.png" 5 true)
                root mouse_db eq_refl) as H.
  cbv zeta in H.
  change (first_index (by_field "id" (VStr "p5")) (products mouse_db))
    with (Some 0%nat) in H.
  destruct H as (d & Hd & _ & _ & _ & _ & _ & Hres).
  injection Hd as <-. exact Hres.
Defined.

(** X12.  [delete_product] called by an admin.  When no stored product has
    the id it answers 404 "Product not found" and changes nothing.
    Otherwise it removes the first product with that id and nothing else:
    one product fewer, every other collection as before; and when at most
    one stored product had the id, [get_product] with it then answers 404. *)
Theorem delete_product_removes_one (product_id : string) (admin : doc) (db : DB) :
  admin !! "role" = Some (VStr "admin") ->
  let q := by_field "id" (VStr product_id) in
  let r := delete_product product_id admin db in
  match first_index q (products db) with
  | None => r = (HTTPException 404 "Product not found", db)
  | Some i =>
      r = (Return "Product deleted", set_products (fun _ => delete i (products db)) db)
      /\ S (length (products (snd r))) = length (products db)
      /\ ((count_documents q (products db) <= 1)%nat ->
          get_product product_id (snd r)
          = (HTTPException 404 "Product not found", snd r))
  end.
Proof.
  intros Hr q r. subst r q. apply is_admin_role in Hr.
  unfold delete_product. rewrite (admin_route_admin _ admin db Hr).
  unfold bind, on_collection. rewrite delete_one_eval.
  destruct (first_index _ (products db)) as [i|] eqn:Ei; cbn [fst snd Nat.eqb].
  - split; [reflexivity|]. unfold set_products, ret; cbn [snd products]. split.
    + destruct (first_index_Some _ _ _ Ei) as (d & Hd & _).
      apply lookup_lt_Some in Hd. rewrite length_delete; [lia|].
      apply lookup_lt_is_Some. exact Hd.
    + intros Hc. rewrite get_product_eval. cbn [products].
      assert (Hdel : delete_first (by_field "id" (VStr product_id)) (products db)
                     = Some (delete i (products db)))
        by (rewrite delete_first_spec, Ei; reflexivity).
      rewrite (delete_first_clears _ _ _ Hc Hdel). reflexivity.
  - unfold raise. destruct db; reflexivity.
Qed.

Lemma delete_product_removes_one_witness :
  delete_product "p5" root mouse_db = (Return "Product deleted", empty_db)
  /\ get_product "p5" empty_db = (HTTPException 404 "Product not found", empty_db).
Proof.
  pose proof (delete_product_removes_one "p5" root mouse_db eq_refl) as H.
  cbv zeta in H.
  change (first_index (by_field "id" (VStr "p5")) (products mouse_db))
    with (Some 0%nat) in H.
  destruct H as (H1 & _ & H3).
  split; [exact H1|]. rewrite H1 in H3. apply H3. vm_compute. lia.
Defined.

Section ListingFacts.

Lemma find_sublist (q : query) (coll : list doc) : find q coll `sublist_of` coll.
Proof.
  unfold find. induction coll as [|d rest IH]; simpl; [constructor|].
  destruct (matches q d); [apply sublist_skip | apply sublist_cons]; exact IH.
Qed.

Lemma to_list_sublist (n : nat) (l : list doc) : to_list n l `sublist_of` l.
Proof. apply sublist_take. Qed.

Lemma to_list_length (n : nat) (l : list doc) : (length (to_list n l) <= n)%nat.
Proof. unfold to_list. rewrite length_take. lia. Qed.

Lemma elem_of_find (q : query) (coll : list doc) (d : doc) :
  d ∈ find q coll <-> d ∈ coll /\ matches q d = true.
Proof.
  unfold find. rewrite !list_elem_of_In, List.filter_In. reflexivity.
Qed.

Lemma matches_by_field_bool (k : string) (b : bool) (d : doc) :
  matches (by_field k (VBool b)) d = true <-> d !! k = Some (VBool b).
Proof.
  unfold matches, by_field. cbn [forallb fst snd cond_matches].
  rewrite andb_true_r. destruct (d !! k) as [w|]; [|split; discriminate].
  destruct w; simpl; try (split; discriminate).
  rewrite Bool.eqb_true_iff. split; [intros ->; reflexivity | intros [= ->]; reflexivity].
Qed.

End ListingFacts.

(** X13.  Whatever its arguments, [get_products] writes nothing, and it
    either ends in an uncaught [OperationFailure], which happens exactly
    when a search text is given that the store refuses as a pattern, or
    returns at most 1000 documents, all of them stored products and in
    their stored order. *)
Theorem get_products_bounded `{Externals} (category search : option string)
    (db : DB) :
  (get_products category search db = (Uncaught "OperationFailure", db)
   /\ exists s, given search = Some s /\ name_condition s = None)
  \/ (exists l,
        get_products category search db = (Return l, db)
        /\ (length l <= 1000)%nat
        /\ l `sublist_of` products db
        /\ forall s, given search = Some s -> name_condition s <> None).
Proof.
  unfold get_products, products_query.
  destruct (given search) as [s|].
  - destruct (name_condition s) as [c|] eqn:Ec.
    + right. eexists (to_list 1000 (find _ (products db))).
      split; [reflexivity|]. split; [apply to_list_length|]. split.
      * etransitivity; [apply to_list_sublist | apply find_sublist].
      * intros s' [= <-]. rewrite Ec. discriminate.
    + left. split; [reflexivity|]. exists s. split; [reflexivity | exact Ec].
  - right. eexists (to_list 1000 (find _ (products db))).
    split; [reflexivity|]. split; [apply to_list_length|]. split.
    + etransitivity; [apply to_list_sublist | apply find_sublist].
    + intros s' [=].
Qed.

(** X13 at concrete calls: no arguments on the one-product catalogue, and
    the search text "(", which the stand-in store refuses. *)
Lemma get_products_bounded_witness :
  get_products (H := sample_externals) None None mouse_db = (Return [mouse], mouse_db)
  /\ get_products (H := sample_externals) None (Some "(") mouse_db
     = (Uncaught "OperationFailure", mouse_db).
Proof.
  split.
  - destruct (get_products_bounded (H := sample_externals) None None mouse_db)
      as [[Hx _]|(l & Hl & _)]; [discriminate Hx|].
    rewrite Hl. vm_compute in Hl. injection Hl as <-. reflexivity.
  - destruct (get_products_bounded (H := sample_externals) None (Some "(") mouse_db)
      as [[Hx _]|(l & Hl & _)]; [exact Hx | discriminate Hl].
Defined.

(** X14.  [get_featured_products] returns at most 20 documents, each a
    stored product whose [featured] field is true, in stored order; when
    fewer than 20 stored products are featured it returns all of them. *)
Theorem get_featured_products_only_featured (db : DB) :
  exists l,
    get_featured_products db = (Return l, db)
    /\ (length l <= 20)%nat
    /\ l `sublist_of` products db
    /\ (forall d, d ∈ l -> d !! "featured" = Some (VBool true))
    /\ ((count_documents (by_field "featured" (VBool true)) (products db) < 20)%nat ->
        forall d, d ∈ products db -> d !! "featured" = Some (VBool true) -> d ∈ l).
Proof.
  exists (to_list 20 (find (by_field "featured" (VBool true)) (products db))).
  split; [reflexivity|]. split; [apply to_list_length|]. split.
  { transitivity (find (by_field "featured" (VBool true)) (products db));
      [apply to_list_sublist | apply find_sublist]. }
  split.
  - intros d Hd. apply matches_by_field_bool.
    apply (fun H => elem_of_sublist _ _ d H (to_list_sublist 20 _)) in Hd.
    apply elem_of_find in Hd. apply Hd.
  - intros Hc d Hd Hf. unfold to_list, count_documents in *.
    rewrite take_ge by lia. apply elem_of_find. split; [exact Hd|].
    apply matches_by_field_bool, Hf.
Qed.

Lemma get_featured_products_only_featured_witness :
  exists l,
    get_featured_products seeded_db = (Return l, seeded_db)
    /\ length l = 14%nat
    /\ (forall d, d ∈ products seeded_db -> d !! "featured" = Some (VBool true) -> d ∈ l).
Proof.
  destruct (get_featured_products_only_featured seeded_db)
    as (l & Hl & _ & _ & _ & Hall).
  exists l. split; [exact Hl|]. split.
  - assert (Hv : fst (get_featured_products seeded_db) = Return l)
      by (rewrite Hl; reflexivity).
    apply (f_equal (fun o : outcome (list doc) =>
                      match o with Return x => length x | _ => 0%nat end)) in Hv.
    vm_compute in Hv. symmetry. exact Hv.
  - apply Hall. vm_compute. lia.
Defined.

(** X15.  [create_category] called by an admin appends one category made
    of the submitted fields and the drawn id.  [get_categories] lists the
    first 100 stored categories: the new one is listed when fewer than 100
    were stored, and is not returned by any listing when 100 or more were. *)
Theorem create_category_listing (uuid : string) (cd : CategoryCreate.t)
    (admin : doc) (db : DB) :
  admin !! "role" = Some (VStr "admin") ->
  let category :=
    Category.mk uuid (CategoryCreate.name cd) (CategoryCreate.slug cd)
                (CategoryCreate.image cd) (CategoryCreate.description cd) in
  let r := create_category uuid cd admin db in
  r = (Return category,
       set_categories (insert_one (Category.model_dump category)) db)
  /\ get_categories (snd r)
     = (Return (if Nat.ltb (length (categories db)) 100
                then categories db ++ [Category.model_dump category]
                else take 100 (categories db)), snd r).
Proof.
  intros Hr category r. subst r. apply is_admin_role in Hr.
  assert (He : create_category uuid cd admin db
               = (Return category,
                  set_categories (insert_one (Category.model_dump category)) db)).
  { unfold create_category. rewrite (admin_route_admin _ admin db Hr). reflexivity. }
  rewrite He. split; [reflexivity|]. cbn [snd].
  unfold get_categories, query_db, set_categories, insert_one, to_list.
  cbn [categories]. rewrite find_all. f_equal. f_equal.
  destruct (Nat.ltb_spec (length (categories db)) 100).
  - apply take_ge. rewrite length_app. simpl. lia.
  - apply take_app_le. lia.
Qed.

Lemma create_category_listing_witness :
  get_categories
    (snd (create_category "c9" (CategoryCreate.mk "Toys" "toys" "t.png" "Toys")
            root seeded_db))
  = (Return (categories seeded_db
             ++ [Category.model_dump (Category.mk "c9" "Toys" "toys" "t.png" "Toys")]),
     snd (create_category "c9" (CategoryCreate.mk "Toys" "toys" "t.png" "Toys")
            root seeded_db)).
Proof.
  exact (proj2 (create_category_listing "c9"
                  (CategoryCreate.mk "Toys" "toys" "t.png" "Toys") root seeded_db
                  eq_refl)).
Defined.

Section CaseFacts.
Context `{Externals}.

Lemma N_of_ascii_lower (a : ascii) :
  N_of_ascii (ascii_lower a) = lower_point (N_of_ascii a).
Proof.
  unfold ascii_lower, lower_point.
  destruct (N.leb 65 (N_of_ascii a) && N.leb (N_of_ascii a) 90) eqn:E; [|reflexivity].
  apply andb_true_iff in E as [_ E]. apply N.leb_le in E.
  apply N_ascii_embedding. lia.
Qed.

Lemma lower_point_scalar (v : N) : lower_point (scalar v) = scalar v.
Proof.
  unfold scalar, lower_point, replacement.
  destruct (N.ltb_spec v 128); [reflexivity|].
  destruct (N.leb_spec 65 v), (N.leb_spec v 90); simpl; try reflexivity; lia.
Qed.

(** Folding the ASCII capitals of a text folds them in its code points
    and changes nothing else. *)
Lemma decode_lower (s : string) (pending : nat) (acc : N) :
  decode pending acc (lower s) = map lower_point (decode pending acc s).
Proof.
  revert pending acc. induction s as [|a rest IH]; intros pending acc.
  - destruct pending; reflexivity.
  - cbn [lower decode]. rewrite N_of_ascii_lower.
    set (x := N_of_ascii a).
    destruct (N.leb 65 x && N.leb x 90) eqn:E.
    + assert (Hx : lower_point x = (x + 32)%N) by (unfold lower_point; rewrite E; reflexivity).
      apply andb_true_iff in E as [E1 E2]. apply N.leb_le in E1, E2.
      rewrite Hx.
      replace (N.ltb (x + 32) 128) with true by (symmetry; apply N.ltb_lt; lia).
      replace (N.ltb x 128) with true by (symmetry; apply N.ltb_lt; lia).
      replace (continuation (x + 32)) with false
        by (symmetry; unfold continuation; apply andb_false_iff; left;
            apply N.leb_gt; lia).
      replace (continuation x) with false
        by (symmetry; unfold continuation; apply andb_false_iff; left;
            apply N.leb_gt; lia).
      destruct pending; cbn [map]; rewrite IH, ?Hx; reflexivity.
    + assert (Hx : lower_point x = x) by (unfold lower_point; rewrite E; reflexivity).
      rewrite Hx.
      destruct pending as [|n].
      * destruct (N.ltb x 128); [cbn [map]; rewrite IH, Hx; reflexivity|].
        destruct (N.leb 192 x && N.ltb x 224); [apply IH|].
        destruct (N.leb 224 x && N.ltb x 240); [apply IH|].
        destruct (N.leb 240 x && N.ltb x 248); [apply IH|].
        cbn [map]. rewrite IH. reflexivity.
      * destruct (continuation x).
        -- destruct n; [cbn [map]; rewrite IH, lower_point_scalar; reflexivity | apply IH].
        -- cbn [map]. f_equal.
           destruct (N.ltb x 128); [cbn [map]; rewrite IH, Hx; reflexivity|].
           destruct (N.leb 192 x && N.ltb x 224); [apply IH|].
           destruct (N.leb 224 x && N.ltb x 240); [apply IH|].
           destruct (N.leb 240 x && N.ltb x 248); [apply IH|].
           cbn [map]. rewrite IH. reflexivity.
Qed.

Lemma casefold_lower_point (c : N) : casefold (lower_point c) = casefold c.
Proof.
  destruct (N.leb 65 c && N.leb c 90) eqn:E.
  - assert (Hc : lower_point c = (c + 32)%N)
      by (unfold lower_point; rewrite E; reflexivity).
    apply andb_true_iff in E as [E1 E2]. apply N.leb_le in E1, E2.
    assert (Hc' : lower_point (c + 32) = (c + 32)%N).
    { unfold lower_point.
      replace (N.leb (c + 32) 90) with false by (symmetry; apply N.leb_gt; lia).
      rewrite andb_false_r. reflexivity. }
    unfold casefold. rewrite Hc, Hc'.
    replace (N.ltb (c + 32) 128) with true by (symmetry; apply N.ltb_lt; lia).
    replace (N.ltb c 128) with true by (symmetry; apply N.ltb_lt; lia).
    reflexivity.
  - assert (Hc : lower_point c = c)
      by (unfold lower_point; rewrite E; reflexivity).
    rewrite Hc. reflexivity.
Qed.

Lemma casefold_lower (s : string) :
  map casefold (code_points (lower s)) = map casefold (code_points s).
Proof.
  unfold code_points. rewrite decode_lower, map_map.
  apply map_ext. intros c. apply casefold_lower_point.
Qed.

Lemma contains_ci_lower (s1 s2 n : string) :
  lower s1 = lower s2 -> contains_ci s1 n <-> contains_ci s2 n.
Proof.
  intros Hl. unfold contains_ci.
  rewrite <- (casefold_lower s1), <- (casefold_lower s2), Hl. reflexivity.
Qed.

Lemma regex_search_same_fold (s1 s2 n : string) :
  lower s1 = lower s2 ->
  regex_search casefold (map Lit (code_points s1)) (code_points n)
  = regex_search casefold (map Lit (code_points s2)) (code_points n).
Proof.
  intros Hl. apply eq_true_iff_eq.
  rewrite !regex_search_literal. apply contains_ci_lower, Hl.
Qed.

Lemma lower_empty (s : string) : lower s = "" -> s = "".
Proof. destruct s; [reflexivity | discriminate]. Qed.

End CaseFacts.

(** X16.  The search is case-insensitive in the search text too: two
    search texts free of metacharacters that differ only in the case of
    their ASCII letters make [get_products] return the same documents, for
    every category argument and every database. *)
Theorem get_products_ignores_case `{Externals} (category : option string)
    (s1 s2 : string) (db : DB) :
  plain_text s1 = true -> plain_text s2 = true -> lower s1 = lower s2 ->
  exists l,
    get_products category (Some s1) db = (Return l, db)
    /\ get_products category (Some s2) db = (Return l, db).
Proof.
  intros Hp1 Hp2 Hl. unfold get_products, products_query.
  destruct s1 as [|c1 s1].
  - symmetry in Hl. apply lower_empty in Hl. subst s2.
    eexists (to_list 1000 (find _ (products db))). split; reflexivity.
  - destruct s2 as [|c2 s2]; [discriminate Hl|].
    cbn [given]. rewrite (name_condition_plain _ Hp1), (name_condition_plain _ Hp2).
    eexists (to_list 1000 (find _ (products db))). split; [reflexivity|].
    unfold query_db. f_equal. f_equal. f_equal. unfold find.
    apply List.filter_ext. intros d. unfold matches.
    rewrite !forallb_app. f_equal. cbn [forallb fst snd cond_matches].
    destruct (d !! "name") as [[]|]; try reflexivity.
    rewrite (regex_search_same_fold _ _ _ Hl). reflexivity.
Qed.

Lemma get_products_ignores_case_witness :
  exists l,
    get_products (H := sample_externals) (Some "electronics") (Some "mouse") seeded_db
    = (Return l, seeded_db)
    /\ get_products (H := sample_externals) (Some "electronics") (Some "MoUsE") seeded_db
       = (Return l, seeded_db).
Proof.
  apply (get_products_ignores_case (H := sample_externals)
           (Some "electronics") "mouse" "MoUsE" seeded_db); reflexivity.
Defined.

(** ** Carts: what a write touches *)

Section CartFrameFacts.

Lemma upsert_eval (q : query) (m : doc) (coll : list doc) :
  fst (update_one q m true coll)
  = match first_index q coll with
    | Some i => alter (fun d => m ∪ d) i coll
    | None => coll ++ [m ∪ query_seed q]
    end.
Proof.
  unfold update_one. rewrite update_first_spec.
  destruct (first_index q coll); reflexivity.
Qed.

Lemma count_alter (q : query) (upd : doc -> doc) (coll : list doc) (i : nat) :
  (forall d, coll !! i = Some d -> matches q (upd d) = matches q d) ->
  count_documents q (alter upd i coll) = count_documents q coll.
Proof.
  unfold count_documents, find. revert i.
  induction coll as [|e rest IH]; intros i Hsame; [reflexivity|].
  destruct i as [|i]; simpl.
  - rewrite (Hsame e eq_refl). destruct (matches q e); reflexivity.
  - destruct (matches q e); simpl; [f_equal|]; exact (IH i Hsame).
Qed.

Lemma count_delete_le (q : query) (coll : list doc) (i : nat) :
  (count_documents q (delete i coll) <= count_documents q coll)%nat.
Proof.
  unfold count_documents, find. revert i.
  induction coll as [|e rest IH]; intros i; [destruct i; simpl; lia|].
  destruct i as [|i]; simpl.
  - destruct (matches q e); simpl; lia.
  - specialize (IH i). destruct (matches q e); simpl; lia.
Qed.

Lemma cart_dump_matches_iff (c : Cart.t) (u : string) (d : doc) :
  matches (by_field "user_id" (VStr u)) (Cart.model_dump c ∪ d) = true
  <-> u = Cart.user_id c.
Proof. rewrite cart_dump_matches. apply String.eqb_eq. Qed.

End CartFrameFacts.

(** X17.  [update_cart] touches one document only: every stored cart that
    is not under the caller's id stays where it is, unchanged, and the
    number of stored carts stays or grows by one. *)
Theorem update_cart_leaves_other_carts (c : Cart.t) (cu : doc) (uid : string)
    (db : DB) :
  cu !! "user_id" = Some (VStr uid) ->
  let db' := snd (update_cart c cu db) in
  (forall j d, carts db !! j = Some d -> d !! "user_id" <> Some (VStr uid) ->
               carts db' !! j = Some d)
  /\ (length (carts db) <= length (carts db') <= S (length (carts db)))%nat
  /\ users db' = users db /\ products db' = products db
  /\ categories db' = categories db /\ orders db' = orders db
  /\ site_settings db' = site_settings db.
Proof.
  intros Hu db'. subst db'. rewrite (update_cart_eval c cu _ db Hu).
  cbn [snd]. unfold set_carts.
  cbn [carts users products categories orders site_settings].
  rewrite upsert_eval. split; [|split; [|repeat split]].
  - intros j d Hd Hne.
    destruct (first_index _ (carts db)) as [i|] eqn:Ei.
    + destruct (first_index_Some _ _ _ Ei) as (e & He & Hm & _).
      apply matches_by_field_str in Hm.
      rewrite list_lookup_alter_ne; [exact Hd|].
      intros ->. rewrite He in Hd. injection Hd as ->. contradiction.
    + rewrite lookup_app_l; [exact Hd|]. apply lookup_lt_Some in Hd. exact Hd.
  - destruct (first_index _ (carts db)).
    + rewrite length_alter. lia.
    + rewrite length_app. simpl. lia.
Qed.

Lemma update_cart_leaves_other_carts_witness :
  carts (snd (update_cart (Cart.mk "bob" cups "t4") bob two_carts_for_ann)) !! 0%nat
  = Some (Cart.model_dump (Cart.mk "ann" pens "t1")).
Proof.
  apply (proj1 (update_cart_leaves_other_carts (Cart.mk "bob" cups "t4") bob "bob"
                  two_carts_for_ann eq_refl)).
  - reflexivity.
  - vm_compute. discriminate.
Defined.

(** X18.  Write then read: [update_cart] with a body that names the caller
    returns the body, and [get_cart] for the caller then returns a
    document carrying the body's user id, items and time stamp, whatever
    was stored before. *)
Theorem update_cart_then_get_cart (c : Cart.t) (cu : doc) (db : DB) :
  cu !! "user_id" = Some (VStr (Cart.user_id c)) ->
  fst (update_cart c cu db) = Return c
  /\ exists d,
       fst (get_cart cu (snd (update_cart c cu db))) = Return d
       /\ d !! "user_id" = Some (VStr (Cart.user_id c))
       /\ d !! "items" = Some (VList (map CartItem.model_dump (Cart.items c)))
       /\ d !! "updated_at" = Some (VStr (Cart.updated_at c)).
Proof.
  intros Hu. split.
  - rewrite (update_cart_eval c cu _ db Hu). reflexivity.
  - exact (get_cart_after_update_cart c cu db Hu).
Qed.

Lemma update_cart_then_get_cart_witness :
  exists d,
    fst (get_cart ann (snd (update_cart (Cart.mk "ann" cups "t7") ann two_carts_for_ann)))
    = Return d
    /\ d !! "items" = Some (VList (map CartItem.model_dump cups)).
Proof.
  destruct (update_cart_then_get_cart (Cart.mk "ann" cups "t7") ann two_carts_for_ann
              eq_refl) as (_ & d & Hd & _ & Hi & _).
  exists d. split; [exact Hd | exact Hi].
Defined.

(** X19.  One cart per user is kept by a write that names the caller: if
    every user id has at most one stored cart before [update_cart] with a
    body whose user id is the caller's, it has at most one after it. *)
Theorem update_cart_keeps_carts_unique (c : Cart.t) (cu : doc) (db : DB) :
  cu !! "user_id" = Some (VStr (Cart.user_id c)) ->
  carts_unique db ->
  carts_unique (snd (update_cart c cu db)).
Proof.
  intros Hu Huniq u. rewrite (update_cart_eval c cu _ db Hu).
  cbn [snd]. unfold set_carts; cbn [carts]. rewrite upsert_eval.
  destruct (first_index _ (carts db)) as [i|] eqn:Ei.
  - rewrite count_alter; [apply Huniq|].
    intros d Hd. destruct (first_index_Some _ _ _ Ei) as (e & He & Hm & _).
    rewrite He in Hd. injection Hd as <-. apply matches_by_field_str in Hm.
    rewrite cart_dump_matches.
    destruct (String.eqb_spec u (Cart.user_id c)) as [->|Hne].
    + symmetry. apply matches_by_field_str, Hm.
    + symmetry. destruct (matches _ e) eqn:E; [|reflexivity].
      apply matches_by_field_str in E. congruence.
  - rewrite count_app, count_singleton, cart_dump_matches.
    destruct (String.eqb_spec u (Cart.user_id c)) as [->|Hne].
    + apply first_index_None, find_one_None_count in Ei. rewrite Ei. lia.
    + specialize (Huniq u). lia.
Qed.

Lemma update_cart_keeps_carts_unique_witness :
  carts_unique empty_db
  /\ carts_unique (snd (update_cart (Cart.mk "ann" pens "t1") ann empty_db)).
Proof.
  assert (Hu : carts_unique empty_db) by (intros u; vm_compute; lia).
  split; [exact Hu|].
  exact (update_cart_keeps_carts_unique (Cart.mk "ann" pens "t1") ann empty_db
           eq_refl Hu).
Defined.

(** X20.  [create_order] leaves the carts of other users alone and never
    adds a cart: every stored cart that is not under the caller's id is
    still stored afterwards, and one cart per user is kept. *)
Theorem create_order_leaves_other_carts (uuid created : string) (od : OrderCreate.t)
    (cu : doc) (uid : string) (db : DB) :
  cu !! "user_id" = Some (VStr uid) ->
  let db' := snd (create_order uuid created od cu db) in
  (forall d, d ∈ carts db -> d !! "user_id" <> Some (VStr uid) -> d ∈ carts db')
  /\ (length (carts db') <= length (carts db))%nat
  /\ (carts_unique db -> carts_unique db').
Proof.
  intros Hu db'. subst db'.
  rewrite (create_order_eval uuid created od cu uid db Hu). cbn [snd carts].
  rewrite delete_one_eval.
  destruct (first_index _ (carts db)) as [i|] eqn:Ei; cbn [fst].
  - destruct (first_index_Some _ _ _ Ei) as (e & He & Hm & _).
    apply matches_by_field_str in Hm. split; [|split].
    + intros d Hd Hne. apply list_elem_of_lookup in Hd as [j Hj].
      assert (Hji : j <> i) by (intros ->; rewrite He in Hj; congruence).
      apply list_elem_of_lookup.
      destruct (Nat.lt_ge_cases j i) as [Hlt|Hge].
      * exists j. rewrite list_lookup_delete_lt; [exact Hj | lia].
      * exists (pred j). rewrite list_lookup_delete_ge by lia.
        replace (S (pred j)) with j by lia. exact Hj.
    + rewrite length_delete by (rewrite He; eauto). lia.
    + intros Huniq u. unfold carts_unique in Huniq. cbn [carts].
      pose proof (count_delete_le (by_field "user_id" (VStr u)) (carts db) i).
      specialize (Huniq u). lia.
  - split; [intros d Hd _; exact Hd|]. split; [lia|].
    intros Huniq. exact Huniq.
Qed.

Lemma create_order_leaves_other_carts_witness :
  Cart.model_dump (Cart.mk "ann" pens "t1")
  ∈ carts (snd (create_order "o1" "t9" sample_order bob two_carts_for_ann)).
Proof.
  apply (proj1 (create_order_leaves_other_carts "o1" "t9" sample_order bob "bob"
                  two_carts_for_ann eq_refl)).
  - left.
  - vm_compute. discriminate.
Defined.

(** ** Orders: ownership and ordering *)

Section SortFacts.

(** Lexicographic comparison of strings: not-less-than is transitive. *)
Lemma compare_not_lt_trans (x y z : string) :
  String.compare x y <> Lt -> String.compare y z <> Lt -> String.compare x z <> Lt.
Proof.
  revert y z. induction x as [|a x IH]; intros [|b y] [|c z]; simpl;
    try congruence.
  unfold Ascii.compare.
  destruct (N.compare_spec (N_of_ascii a) (N_of_ascii b)) as [Hab|Hab|Hab];
    destruct (N.compare_spec (N_of_ascii b) (N_of_ascii c)) as [Hbc|Hbc|Hbc];
    destruct (N.compare_spec (N_of_ascii a) (N_of_ascii c)) as [Hac|Hac|Hac];
    try congruence; try lia.
  apply IH.
Qed.

Lemma ltb_false_trans (x y z : string) :
  String.ltb x y = false -> String.ltb y z = false -> String.ltb x z = false.
Proof.
  unfold String.ltb. intros Hxy Hyz.
  pose proof (compare_not_lt_trans x y z) as Ht.
  destruct (String.compare x y), (String.compare y z), (String.compare x z);
    try reflexivity; try discriminate; exfalso; apply Ht; congruence.
Qed.

Lemma ltb_asym (x y : string) : String.ltb x y = true -> String.ltb y x = false.
Proof.
  unfold String.ltb. rewrite (String.compare_antisym y x).
  destruct (String.compare x y); simpl; congruence.
Qed.

Lemma key_ltb_asym (a b : option value) : key_ltb a b = true -> key_ltb b a = false.
Proof.
  destruct a as [[]|], b as [[]|];
    try (simpl; apply ltb_asym); vm_compute; congruence.
Qed.

Lemma key_ltb_false_trans (a b c : option value) :
  key_ltb a b = false -> key_ltb b c = false -> key_ltb a c = false.
Proof.
  destruct a as [[]|], b as [[]|], c as [[]|];
    try (simpl; apply ltb_false_trans); vm_compute; congruence.
Qed.

Lemma insert_desc_perm (k : string) (d : doc) (l : list doc) :
  insert_desc k d l ≡ₚ d :: l.
Proof.
  induction l as [|x rest IH]; simpl; [reflexivity|].
  destruct (key_ltb (d !! k) (x !! k)); [|reflexivity].
  rewrite IH. apply Permutation_swap.
Qed.

Lemma sort_desc_perm (k : string) (l : list doc) : sort_desc k l ≡ₚ l.
Proof.
  unfold sort_desc. induction l as [|x rest IH]; simpl; [reflexivity|].
  rewrite insert_desc_perm, IH. reflexivity.
Qed.

Lemma insert_desc_sorted (d : doc) (l : list doc) :
  newest_first l -> newest_first (insert_desc "created_at" d l).
Proof.
  unfold newest_first. induction 1 as [|x rest Hs IH Hall]; simpl.
  - repeat constructor.
  - destruct (key_ltb (d !! "created_at") (x !! "created_at")) eqn:E.
    + constructor; [exact IH|].
      rewrite Forall_forall. intros y Hy. rewrite insert_desc_perm in Hy.
      apply elem_of_cons in Hy as [->|Hy]; [apply key_ltb_asym, E|].
      rewrite Forall_forall in Hall. apply Hall, Hy.
    + constructor; [constructor; assumption|].
      constructor; [exact E|].
      rewrite Forall_forall in *. intros y Hy.
      apply (key_ltb_false_trans _ (x !! "created_at")); [exact E | apply Hall, Hy].
Qed.

Lemma sort_desc_sorted (l : list doc) : newest_first (sort_desc "created_at" l).
Proof.
  unfold sort_desc. induction l as [|x rest IH]; simpl; [constructor|].
  apply insert_desc_sorted, IH.
Qed.

Lemma newest_first_take (n : nat) (l : list doc) :
  newest_first l -> newest_first (take n l).
Proof.
  unfold newest_first. intros Hs. revert n.
  induction Hs as [|x rest Hs IH Hall]; intros [|n]; simpl; try constructor.
  - apply IH.
  - rewrite Forall_forall in *. intros y Hy. apply Hall.
    eapply elem_of_sublist; [exact Hy | apply sublist_take].
Qed.

Lemma get_orders_eval (cu : doc) (v : value) (db : DB) :
  cu !! "user_id" = Some v ->
  get_orders cu db
  = (Return (to_list 100 (sort_desc "created_at"
                            (find (by_field "user_id" v) (orders db)))), db).
Proof.
  intros Hu. unfold get_orders, bind, lift, subscript, query_db. rewrite Hu.
  reflexivity.
Qed.

End SortFacts.

(** X21.  [get_orders] returns only the caller's orders: at most 100
    documents, each a stored order whose [user_id] is the caller's, newest
    creation stamp first; when the caller has at most 100 orders they are
    all returned.  It writes nothing. *)
Theorem get_orders_own_newest_first (cu : doc) (uid : string) (db : DB) :
  cu !! "user_id" = Some (VStr uid) ->
  exists l,
    get_orders cu db = (Return l, db)
    /\ (length l <= 100)%nat
    /\ newest_first l
    /\ (forall d, d ∈ l -> d ∈ orders db /\ d !! "user_id" = Some (VStr uid))
    /\ ((count_documents (by_field "user_id" (VStr uid)) (orders db) <= 100)%nat ->
        l ≡ₚ find (by_field "user_id" (VStr uid)) (orders db)).
Proof.
  intros Hu. rewrite (get_orders_eval cu _ db Hu).
  exists (to_list 100 (sort_desc "created_at"
                         (find (by_field "user_id" (VStr uid)) (orders db)))).
  split; [reflexivity|]. split; [apply to_list_length|].
  split; [apply newest_first_take, sort_desc_sorted|]. split.
  - intros d Hd.
    apply (fun H => elem_of_sublist _ _ d H (to_list_sublist 100 _)) in Hd.
    rewrite sort_desc_perm in Hd. apply elem_of_find in Hd as [Hin Hm].
    split; [exact Hin | apply matches_by_field_str, Hm].
  - intros Hc. unfold to_list, count_documents in *.
    rewrite take_ge; [apply sort_desc_perm|].
    rewrite (Permutation_length (sort_desc_perm _ _)). exact Hc.
Qed.

Lemma get_orders_own_newest_first_witness :
  exists l,
    get_orders ann two_orders_db = (Return l, two_orders_db)
    /\ l ≡ₚ find (by_field "user_id" (VStr "ann")) (orders two_orders_db).
Proof.
  destruct (get_orders_own_newest_first ann "ann" two_orders_db eq_refl)
    as (l & Hl & _ & _ & _ & Hp).
  exists l. split; [exact Hl|]. apply Hp. vm_compute. lia.
Defined.

(** X22.  Order then list: after [create_order] the new order is among the
    orders [get_orders] returns to the same caller, provided the caller
    had fewer than 100 orders before. *)
Theorem create_order_then_get_orders (uuid created : string) (od : OrderCreate.t)
    (cu : doc) (uid : string) (db : DB) :
  cu !! "user_id" = Some (VStr uid) ->
  (count_documents (by_field "user_id" (VStr uid)) (orders db) < 100)%nat ->
  let order :=
    Order.mk uuid uid (OrderCreate.items od) (OrderCreate.total od)
             (OrderCreate.address od) (OrderCreate.payment_method od)
             "pending" created in
  exists l,
    get_orders cu (snd (create_order uuid created od cu db))
    = (Return l, snd (create_order uuid created od cu db))
    /\ Order.model_dump order ∈ l.
Proof.
  intros Hu Hc order.
  rewrite (create_order_eval uuid created od cu uid db Hu). cbn [snd].
  rewrite (get_orders_eval cu _ _ Hu). cbn [orders].
  eexists. split; [reflexivity|].
  unfold to_list. rewrite take_ge.
  - rewrite sort_desc_perm. apply elem_of_find. split.
    + apply elem_of_app. right. left.
    + apply matches_by_field_str. reflexivity.
  - rewrite (Permutation_length (sort_desc_perm _ _)).
    unfold count_documents, find in *. rewrite List.filter_app, List.length_app.
    cbn [List.filter]. destruct (matches _ _); simpl; lia.
Qed.

Lemma create_order_then_get_orders_witness :
  exists l,
    get_orders ann (snd (create_order "o3" "t9" sample_order ann two_orders_db))
    = (Return l, snd (create_order "o3" "t9" sample_order ann two_orders_db))
    /\ Order.model_dump
         (Order.mk "o3" "ann" (OrderCreate.items sample_order)
            (OrderCreate.total sample_order) (OrderCreate.address sample_order)
            (OrderCreate.payment_method sample_order) "pending" "t9") ∈ l.
Proof.
  apply (create_order_then_get_orders "o3" "t9" sample_order ann "ann" two_orders_db).
  - reflexivity.
  - vm_compute. lia.
Defined.

(** X23.  [get_all_orders] called by an admin returns at most 1000 stored
    orders, newest creation stamp first, and all of them when at most 1000
    are stored.  It writes nothing. *)
Theorem get_all_orders_newest_first (admin : doc) (db : DB) :
  admin !! "role" = Some (VStr "admin") ->
  exists l,
    get_all_orders admin db = (Return l, db)
    /\ (length l <= 1000)%nat
    /\ newest_first l
    /\ (forall d, d ∈ l -> d ∈ orders db)
    /\ ((length (orders db) <= 1000)%nat -> l ≡ₚ orders db).
Proof.
  intros Hr. apply is_admin_role in Hr.
  unfold get_all_orders. rewrite (admin_route_admin _ admin db Hr).
  exists (to_list 1000 (sort_desc "created_at" (find [] (orders db)))).
  split; [reflexivity|]. split; [apply to_list_length|].
  split; [apply newest_first_take, sort_desc_sorted|].
  rewrite find_all. split.
  - intros d Hd.
    apply (fun H => elem_of_sublist _ _ d H (to_list_sublist 1000 _)) in Hd.
    rewrite sort_desc_perm in Hd. exact Hd.
  - intros Hc. unfold to_list. rewrite take_ge; [apply sort_desc_perm|].
    rewrite (Permutation_length (sort_desc_perm _ _)). exact Hc.
Qed.

Lemma get_all_orders_newest_first_witness :
  exists l, get_all_orders root two_orders_db = (Return l, two_orders_db)
            /\ l ≡ₚ orders two_orders_db.
Proof.
  destruct (get_all_orders_newest_first root two_orders_db eq_refl)
    as (l & Hl & _ & _ & _ & Hp).
  exists l. split; [exact Hl|]. apply Hp. vm_compute. lia.
Defined.

(** ** Settings and the user listing *)

Section SettingsFacts.

Lemma truthy_nonempty (d : doc) : d <> ∅ -> truthy (Some d) = true.
Proof.
  intros Hne. unfold truthy. destruct (map_to_list d) eqn:E; [|reflexivity].
  apply map_to_list_empty_iff in E. contradiction.
Qed.

Lemma truthy_empty : truthy (Some (∅ : doc)) = false.
Proof. reflexivity. Qed.

Lemma settings_dump_fields (s : SiteSettings.t) (d : doc) :
  (SiteSettings.model_dump s ∪ d) !! "theme_colors"
  = Some (VDict (SiteSettings.theme_colors s))
  /\ (SiteSettings.model_dump s ∪ d) !! "payment_methods"
     = Some (VDict (SiteSettings.payment_methods s)).
Proof. split; apply lookup_union_Some_l; reflexivity. Qed.

Lemma get_settings_eval (db : DB) :
  get_settings db
  = match site_settings db with
    | d :: _ =>
        if truthy (Some d) then (Return d, db)
        else (Return (SiteSettings.model_dump SiteSettings.default),
              set_site_settings
                (fun l => l ++ [SiteSettings.model_dump SiteSettings.default]) db)
    | [] =>
        (Return (SiteSettings.model_dump SiteSettings.default),
         set_site_settings
           (fun l => l ++ [SiteSettings.model_dump SiteSettings.default]) db)
    end.
Proof.
  unfold get_settings, bind, query_db.
  destruct (site_settings db) as [|d rest]; [reflexivity|].
  cbn [find_one List.find matches forallb].
  destruct (truthy (Some d)); reflexivity.
Qed.

End SettingsFacts.

(** X24.  [get_settings] creates the settings on first read and only
    then.  On an empty collection it stores the default settings and
    returns them, and the next read returns the same document without
    storing anything.  When the first stored document is not empty it is
    returned and nothing is written.  When the first stored document is
    empty, the defaults are returned and appended on every call, since the
    first document stays the one that is found. *)
Theorem get_settings_creates_once (db : DB) :
  let defaults := SiteSettings.model_dump SiteSettings.default in
  (site_settings db = [] ->
   get_settings db = (Return defaults, set_site_settings (fun _ => [defaults]) db)
   /\ get_settings (snd (get_settings db)) = (Return defaults, snd (get_settings db)))
  /\ (forall d rest, site_settings db = d :: rest -> d <> ∅ ->
        get_settings db = (Return d, db))
  /\ (forall rest, site_settings db = ∅ :: rest ->
        get_settings db
        = (Return defaults, set_site_settings (fun l => l ++ [defaults]) db)).
Proof.
  intros defaults. subst defaults. split; [|split].
  - intros He. rewrite get_settings_eval, He.
    split; [unfold set_site_settings; rewrite He; reflexivity|].
    cbn [snd]. rewrite get_settings_eval.
    unfold set_site_settings. cbn [site_settings]. rewrite He. reflexivity.
  - intros d rest He Hne. rewrite get_settings_eval, He, (truthy_nonempty d Hne).
    reflexivity.
  - intros rest He. rewrite get_settings_eval, He. reflexivity.
Qed.

Lemma get_settings_creates_once_witness :
  get_settings empty_db
  = (Return (SiteSettings.model_dump SiteSettings.default),
     set_site_settings (fun _ => [SiteSettings.model_dump SiteSettings.default]) empty_db)
  /\ length (site_settings (snd (get_settings (snd (get_settings empty_db))))) = 1%nat.
Proof.
  destruct (proj1 (get_settings_creates_once empty_db) eq_refl) as [H1 H2].
  split; [exact H1|]. rewrite H2, H1. reflexivity.
Defined.

(** X25.  Write then read the settings.  [update_settings] by an admin
    changes or creates exactly one document: on an empty collection it
    stores the written settings as the only document, otherwise it sets
    the fields of the first stored document ([theme_colors] and
    [payment_methods] are overwritten, its other keys kept) and leaves
    every later document and every other collection as they were.  After
    it, [get_settings] returns a document whose theme colours and payment
    methods are the ones written, whatever was stored before, and stores
    nothing more. *)
Theorem update_settings_then_get_settings (s : SiteSettings.t) (admin : doc)
    (db : DB) :
  admin !! "role" = Some (VStr "admin") ->
  let r := update_settings s admin db in
  fst r = Return s
  /\ snd r
     = set_site_settings
         (fun _ => match site_settings db with
                   | [] => [SiteSettings.model_dump s]
                   | d :: rest => (SiteSettings.model_dump s ∪ d) :: rest
                   end) db
  /\ (forall d rest, site_settings db = d :: rest ->
        forall k, k <> "theme_colors" -> k <> "payment_methods" ->
                  (SiteSettings.model_dump s ∪ d) !! k = d !! k)
  /\ (length (site_settings (snd r)) = Nat.max 1 (length (site_settings db)))
  /\ exists d,
       get_settings (snd r) = (Return d, snd r)
       /\ d !! "theme_colors" = Some (VDict (SiteSettings.theme_colors s))
       /\ d !! "payment_methods" = Some (VDict (SiteSettings.payment_methods s)).
Proof.
  intros Hr r. subst r. apply is_admin_role in Hr.
  unfold update_settings. rewrite (admin_route_admin _ admin db Hr).
  unfold bind, on_collection, ret. cbn [fst snd].
  split; [reflexivity|]. split; [|split].
  - unfold set_site_settings. f_equal. rewrite upsert_eval.
    destruct (site_settings db) as [|d rest]; [|reflexivity].
    cbn [first_index query_seed app]. rewrite (right_id ∅ (∪)). reflexivity.
  - intros d rest _ k Hk1 Hk2. apply lookup_union_r.
    unfold SiteSettings.model_dump. cbn [list_to_map foldr uncurry fst snd].
    rewrite !lookup_insert_ne by congruence. apply lookup_empty.
  - unfold set_site_settings; cbn [site_settings]. split.
    + rewrite upsert_eval. destruct (site_settings db) as [|d rest]; [reflexivity|].
      cbn [first_index matches forallb]. rewrite length_alter. simpl. lia.
    + destruct (find_after_update_one [] (SiteSettings.model_dump s) (site_settings db))
        as [d Hd]; [reflexivity|].
      exists (SiteSettings.model_dump s ∪ d).
      destruct (settings_dump_fields s d) as [Ht Hp].
      split; [|split; assumption].
      unfold get_settings, bind, query_db. cbn [site_settings]. rewrite Hd.
      rewrite (truthy_found _ "theme_colors" _ Ht). reflexivity.
Qed.

Lemma update_settings_then_get_settings_witness :
  snd (update_settings SiteSettings.default root empty_db)
  = set_site_settings (fun _ => [SiteSettings.model_dump SiteSettings.default]) empty_db
  /\ exists d,
       get_settings (snd (update_settings SiteSettings.default root empty_db))
       = (Return d, snd (update_settings SiteSettings.default root empty_db))
       /\ d !! "theme_colors"
          = Some (VDict (SiteSettings.theme_colors SiteSettings.default)).
Proof.
  destruct (update_settings_then_get_settings SiteSettings.default root empty_db eq_refl)
    as (_ & Hs & _ & _ & d & Hd & Ht & _).
  split; [exact Hs|].
  exists d. split; [exact Hd | exact Ht].
Defined.

(** X26.  [get_all_users] called by an admin never returns a password
    hash: it returns at most 1000 documents, each a stored account with
    its [password_hash] key removed and every other key kept, and writes
    nothing. *)
Theorem get_all_users_hides_hashes (admin : doc) (db : DB) :
  admin !! "role" = Some (VStr "admin") ->
  exists l,
    get_all_users admin db = (Return l, db)
    /\ (length l <= 1000)%nat
    /\ (forall d, d ∈ l ->
          d !! "password_hash" = None
          /\ exists u, u ∈ users db
                       /\ forall k, k <> "password_hash" -> d !! k = u !! k).
Proof.
  intros Hr. apply is_admin_role in Hr.
  unfold get_all_users. rewrite (admin_route_admin _ admin db Hr).
  exists (to_list 1000 (map (delete "password_hash") (find [] (users db)))).
  split; [reflexivity|]. split; [apply to_list_length|].
  intros d Hd.
  apply (fun H => elem_of_sublist _ _ d H (to_list_sublist 1000 _)) in Hd.
  rewrite find_all in Hd. apply list_elem_of_In, in_map_iff in Hd as (u & <- & Hu).
  split; [apply lookup_delete_eq|].
  exists u. split; [apply list_elem_of_In, Hu|].
  intros k Hk. apply lookup_delete_ne. congruence.
Qed.

Lemma get_all_users_hides_hashes_witness :
  exists l,
    get_all_users root one_user_db = (Return l, one_user_db)
    /\ (forall d, d ∈ l -> d !! "password_hash" = None).
Proof.
  destruct (get_all_users_hides_hashes root one_user_db eq_refl) as (l & Hl & _ & Hall).
  exists l. split; [exact Hl|]. intros d Hd. apply (Hall d Hd).
Defined.

Lemma update_cart_stamp_of_last_request_witness :
  exists d,
    fst (get_cart ann
           (snd (update_cart (Cart.parse "t2" (Cart.mk_body "ann" pens None)) ann
                   (snd (update_cart (Cart.parse "t1" (Cart.mk_body "ann" pens None)) ann
                           empty_db))))) = Return d
    /\ d !! "updated_at" = Some (VStr "t2").
Proof.
  destruct (update_cart_stamp_of_last_request (Cart.mk_body "ann" pens None) ann
              empty_db "t1" "t2" eq_refl eq_refl) as (d & Hd & _ & Ht).
  exists d. split; [exact Hd | exact Ht].
Defined.

(** ** Repeated writes of one cart *)

Section RepeatFacts.

(** After an upsert whose written fields satisfy the filter, the first
    match is the written fields over the document that was the first
    match before, or over the seed of the filter when there was none. *)
Lemma find_after_upsert (q : query) (m : doc) (coll : list doc) :
  (forall d, matches q (m ∪ d) = true) ->
  find_one q (fst (update_one q m true coll))
  = Some (m ∪ default (query_seed q) (find_one q coll)).
Proof.
  intros Hm. unfold update_one.
  destruct (update_first q _ coll) as [coll'|] eqn:E; cbn [fst].
  - revert coll' E. unfold find_one.
    induction coll as [|e rest IH]; intros coll'; simpl; [discriminate|].
    destruct (matches q e) eqn:He.
    + intros [= <-]. simpl. rewrite Hm. reflexivity.
    + destruct (update_first q _ rest) as [r|]; [|discriminate].
      intros [= <-]. simpl. rewrite He. apply (IH r eq_refl).
  - rewrite update_first_spec in E.
    destruct (first_index q coll) eqn:Ei; [discriminate|].
    apply first_index_None in Ei. rewrite (find_one_app_None _ _ _ Ei).
    rewrite Ei. change (default (query_seed q) None) with (query_seed q).
    unfold find_one. cbn [List.find]. rewrite Hm. reflexivity.
Qed.

(** The dumps of two carts have the same keys, so the later write hides
    the earlier one. *)
Lemma cart_dump_absorbs (c1 c2 : Cart.t) (d : doc) :
  Cart.model_dump c2 ∪ (Cart.model_dump c1 ∪ d) = Cart.model_dump c2 ∪ d.
Proof.
  apply map_eq. intros k.
  destruct (Cart.model_dump c2 !! k) as [v|] eqn:E2.
  - rewrite (lookup_union_Some_l _ _ _ _ E2), (lookup_union_Some_l _ _ _ _ E2).
    reflexivity.
  - rewrite !(lookup_union_r _ _ _ E2).
    apply lookup_union_r.
    revert E2. unfold Cart.model_dump. cbn [list_to_map foldr uncurry fst snd].
    destruct (decide (k = "user_id")) as [->|N1]; [rewrite lookup_insert_eq; discriminate|].
    destruct (decide (k = "items")) as [->|N2]; [vm_compute; discriminate|].
    destruct (decide (k = "updated_at")) as [->|N3]; [vm_compute; discriminate|].
    intros _. rewrite !lookup_insert_ne by congruence. apply lookup_empty.
Qed.

(** Outside [updated_at], what is read from a written cart does not depend
    on the time of the request. *)
Lemma cart_dump_same_elsewhere (b : Cart.body) (t t' : string) (d : doc) (k : string) :
  k <> "updated_at" ->
  (Cart.model_dump (Cart.parse t b) ∪ d) !! k
  = (Cart.model_dump (Cart.parse t' b) ∪ d) !! k.
Proof.
  intros Hk.
  destruct (decide (k = "user_id")) as [->|N1]; [rewrite !cart_dump_user_id; reflexivity|].
  destruct (decide (k = "items")) as [->|N2]; [rewrite !cart_dump_items; reflexivity|].
  assert (Hn : forall c, Cart.model_dump c !! k = None).
  { intros c. unfold Cart.model_dump. cbn [list_to_map foldr uncurry fst snd].
    rewrite !lookup_insert_ne by congruence. apply lookup_empty. }
  rewrite !(lookup_union_r _ _ _ (Hn _)). reflexivity.
Qed.

Lemma put_cart_requests_snoc (ts : list string) (t : string) (b : Cart.body)
    (cu : doc) (db : DB) :
  put_cart_requests (ts ++ [t]) b cu db
  = snd (update_cart (Cart.parse t b) cu (put_cart_requests ts b cu db)).
Proof. unfold put_cart_requests. rewrite fold_left_app. reflexivity. Qed.

(** The caller's cart after one or more identical requests: the fields of
    the last request over what was the caller's first cart before them. *)
Lemma find_after_put_cart_requests (ts : list string) (tn : string) (b : Cart.body)
    (cu : doc) (db : DB) :
  cu !! "user_id" = Some (VStr (Cart.body_user_id b)) ->
  let q := by_field "user_id" (VStr (Cart.body_user_id b)) in
  find_one q (carts (put_cart_requests (ts ++ [tn]) b cu db))
  = Some (Cart.model_dump (Cart.parse tn b)
            ∪ default (query_seed q) (find_one q (carts db))).
Proof.
  intros Hu q.
  assert (Hstep : forall t s,
             find_one q (carts (snd (update_cart (Cart.parse t b) cu s)))
             = Some (Cart.model_dump (Cart.parse t b)
                       ∪ default (query_seed q) (find_one q (carts s)))).
  { intros t s. rewrite (update_cart_eval _ cu _ s Hu). cbn [snd].
    unfold set_carts; cbn [carts]. apply find_after_upsert.
    intros e. unfold q. rewrite cart_dump_matches. apply String.eqb_refl. }
  revert tn. induction ts as [|t ts IH] using rev_ind; intros tn.
  - cbn [app]. unfold put_cart_requests. cbn [fold_left]. apply Hstep.
  - rewrite put_cart_requests_snoc, Hstep, IH.
    change (default (query_seed q) (Some ?x)) with x.
    rewrite cart_dump_absorbs. reflexivity.
Qed.

Lemma get_cart_after_put_cart_requests (ts : list string) (tn : string)
    (b : Cart.body) (cu : doc) (db : DB) :
  cu !! "user_id" = Some (VStr (Cart.body_user_id b)) ->
  let q := by_field "user_id" (VStr (Cart.body_user_id b)) in
  fst (get_cart cu (put_cart_requests (ts ++ [tn]) b cu db))
  = Return (Cart.model_dump (Cart.parse tn b)
              ∪ default (query_seed q) (find_one q (carts db))).
Proof.
  intros Hu q. rewrite (get_cart_eval cu _ _ Hu). cbn [fst].
  rewrite (find_after_put_cart_requests ts tn b cu db Hu).
  rewrite (truthy_found _ "user_id" _ (cart_dump_user_id _ _)). reflexivity.
Qed.

End RepeatFacts.

(** C7 (as amended).  Identical requests to [POST /cart] are requests with
    the same body by the same caller, each parsed at its own time.  For
    every caller whose [user_id] is the one the body names, every body,
    every database and every N >= 1 requests at the times [ts ++ [tn]]:
    the cart [get_cart] reads after them and the cart it reads after a
    single such request at [t1] carry the body's [user_id] and items and
    agree on every key but [updated_at], where each carries the stamp of
    its last request; the two reads are equal when those stamps are, in
    particular when the body gives [updated_at] itself. *)
Theorem put_cart_requests_read_same (b : Cart.body) (cu : doc) (db : DB)
    (t1 : string) (ts : list string) (tn : string) :
  cu !! "user_id" = Some (VStr (Cart.body_user_id b)) ->
  exists d1 dn,
    fst (get_cart cu (put_cart_requests [t1] b cu db)) = Return d1
    /\ fst (get_cart cu (put_cart_requests (ts ++ [tn]) b cu db)) = Return dn
    /\ (forall k, k <> "updated_at" -> dn !! k = d1 !! k)
    /\ dn !! "user_id" = Some (VStr (Cart.body_user_id b))
    /\ dn !! "items" = Some (VList (map CartItem.model_dump (Cart.body_items b)))
    /\ d1 !! "updated_at" = Some (VStr (stamp_of b t1))
    /\ dn !! "updated_at" = Some (VStr (stamp_of b tn))
    /\ (stamp_of b tn = stamp_of b t1 -> dn = d1)
    /\ (forall s, Cart.body_updated_at b = Some s -> dn = d1).
Proof.
  intros Hu.
  pose proof (get_cart_after_put_cart_requests [] t1 b cu db Hu) as H1.
  pose proof (get_cart_after_put_cart_requests ts tn b cu db Hu) as Hn.
  cbn [app] in H1. cbv zeta in H1, Hn.
  set (d0 := default (query_seed (by_field "user_id" (VStr (Cart.body_user_id b))))
               (find_one (by_field "user_id" (VStr (Cart.body_user_id b))) (carts db)))
    in H1, Hn.
  assert (Hsame : stamp_of b tn = stamp_of b t1 ->
                  Cart.model_dump (Cart.parse tn b) ∪ d0
                  = Cart.model_dump (Cart.parse t1 b) ∪ d0).
  { unfold stamp_of, Cart.parse. cbn [Cart.updated_at]. intros ->. reflexivity. }
  exists (Cart.model_dump (Cart.parse t1 b) ∪ d0),
         (Cart.model_dump (Cart.parse tn b) ∪ d0).
  split; [exact H1|]. split; [exact Hn|].
  split; [intros k Hk; apply cart_dump_same_elsewhere, Hk|].
  split; [apply cart_dump_user_id|]. split; [apply cart_dump_items|].
  split; [apply lookup_union_Some_l; reflexivity|].
  split; [apply lookup_union_Some_l; reflexivity|].
  split; [exact Hsame|].
  intros s Hs. apply Hsame. unfold stamp_of, Cart.parse. rewrite Hs. reflexivity.
Qed.

(** C7 at a concrete state: Ann puts the same pens three times into an
    empty store, the body leaving [updated_at] out. *)
Lemma put_cart_requests_read_same_witness :
  exists d1 dn,
    fst (get_cart ann (put_cart_requests ["t1"] (Cart.mk_body "ann" pens None) ann
                         empty_db)) = Return d1
    /\ fst (get_cart ann (put_cart_requests ["t1"; "t2"; "t3"]
                            (Cart.mk_body "ann" pens None) ann empty_db)) = Return dn
    /\ dn !! "items" = d1 !! "items"
    /\ d1 !! "updated_at" = Some (VStr "t1")
    /\ dn !! "updated_at" = Some (VStr "t3").
Proof.
  destruct (put_cart_requests_read_same (Cart.mk_body "ann" pens None) ann empty_db
              "t1" ["t1"; "t2"] "t3" eq_refl)
    as (d1 & dn & H1 & Hn & Hk & _ & _ & Ht1 & Htn & _).
  exists d1, dn. split; [exact H1|]. split; [exact Hn|].
  split; [apply Hk; discriminate|]. split; [exact Ht1 | exact Htn].
Defined.

(** C7 as stated fails: Ann sends the same body, which leaves [updated_at]
    out, once at "t1", and in another run at "t1" and again at "t2", both
    from the empty store.  The cart read after the two requests carries
    the stamp "t2", the cart read after the single request the stamp "t1". *)
Lemma put_cart_requests_read_differs :
  ann !! "user_id" = Some (VStr (Cart.body_user_id (Cart.mk_body "ann" pens None)))
  /\ fst (get_cart ann (put_cart_requests ["t1"] (Cart.mk_body "ann" pens None) ann
                          empty_db))
     = Return (Cart.model_dump (Cart.mk "ann" pens "t1"))
  /\ fst (get_cart ann (put_cart_requests ["t1"; "t2"] (Cart.mk_body "ann" pens None)
                          ann empty_db))
     = Return (Cart.model_dump (Cart.mk "ann" pens "t2"))
  /\ fst (get_cart ann (put_cart_requests ["t1"; "t2"] (Cart.mk_body "ann" pens None)
                          ann empty_db))
     <> fst (get_cart ann (put_cart_requests ["t1"] (Cart.mk_body "ann" pens None) ann
                             empty_db)).
Proof.
  split; [reflexivity|]. split; [vm_compute; reflexivity|].
  split; [vm_compute; reflexivity|]. intros E.
  apply (f_equal (fun o : outcome doc =>
                    match o with Return m => m !! "updated_at" | _ => None end)) in E.
  vm_compute in E. discriminate E.
Qed.
